(** * LibICE-post: run-time selection tables and stoichiometric combustion

    A shallow embedding of

    - [libICEpost/src/base/BaseClass.py]
      ([BaseClass.selector], [SelectionTable]), and
    - [libICEpost/src/thermophysicalModels/specie/reactions/ReactionModel/StoichiometricCombustion.py]
      ([fromDictionary], [_updateFuels], [_update]).

    Python floats are idealised as exact rationals ([Qc]); a Python
    exception is a value of [exn] carried by the [result] monad; objects
    mutated in place are threaded explicitly. *)

From Stdlib Require Import QArith Qcanon Qcabs Ascii String.
From stdpp Require Import numbers base decidable option list strings gmap.

Local Open Scope string_scope.
Local Open Scope list_scope.
Local Open Scope stdpp_scope.

(** ** Python exceptions and fallible computations *)

#[warnings="-register-all"]
Inductive exn : Type :=
| ValueError (msg : string)
| TypeError (msg : string)
| AttributeError (msg : string)
| KeyError (msg : string)
| ZeroDivisionError (msg : string)
| LinAlgError (msg : string)
| IndexError (msg : string)
| FatalError (origin : string) (msg : string) (cause : option exn).

Inductive result (A : Type) : Type :=
| Ok (a : A)
| Raise (e : exn).
Arguments Ok {A} a.
Arguments Raise {A} e.

(** Exceptions and results are compared by value. *)
Global Instance exn_eq_dec : EqDecision exn.
Proof.
  refine (fix go (e1 e2 : exn) {struct e1} : Decision (e1 = e2) :=
    match e1, e2 with
    | ValueError m1, ValueError m2 => cast_if (decide (m1 = m2))
    | TypeError m1, TypeError m2 => cast_if (decide (m1 = m2))
    | AttributeError m1, AttributeError m2 => cast_if (decide (m1 = m2))
    | KeyError m1, KeyError m2 => cast_if (decide (m1 = m2))
    | ZeroDivisionError m1, ZeroDivisionError m2 => cast_if (decide (m1 = m2))
    | LinAlgError m1, LinAlgError m2 => cast_if (decide (m1 = m2))
    | IndexError m1, IndexError m2 => cast_if (decide (m1 = m2))
    | FatalError o1 m1 c1, FatalError o2 m2 c2 =>
        cast_if_and3 (decide (o1 = o2)) (decide (m1 = m2))
          (match c1, c2 return Decision (c1 = c2) with
           | Some a, Some b => cast_if (go a b)
           | None, None => left _
           | _, _ => right _
           end)
    | _, _ => right _
    end); congruence.
Defined.

Global Instance result_eq_dec `{EqDecision A} : EqDecision (result A).
Proof. solve_decision. Defined.

(** Sequencing: an exception raised by a statement skips the statements
    after it. *)
Global Instance result_bind : MBind result := λ A B k r,
  match r with
  | Ok a => k a
  | Raise e => Raise e
  end.
Global Instance result_ret : MRet result := λ A a, Ok a.

(** The message of an exception, as [str(err)] shows it. *)
Definition exn_msg (e : exn) : string :=
  match e with
  | ValueError m | TypeError m | AttributeError m | KeyError m
  | ZeroDivisionError m | LinAlgError m | IndexError m => m
  | FatalError _ m _ => m
  end.

(** [substring_of s t]: [s] occurs in [t]. *)
Fixpoint prefix_of (s t : string) : bool :=
  match s, t with
  | EmptyString, _ => true
  | String a s', String b t' => if Ascii.eqb a b then prefix_of s' t' else false
  | String _ _, EmptyString => false
  end.

Fixpoint substring_of (s t : string) : bool :=
  prefix_of s t ||
  match t with
  | EmptyString => false
  | String _ t' => substring_of s t'
  end.

(** Modelled from the spec: [Utilities.fatalErrorInClass] is not under
    src/.  Section 7 of the specification: every failure bubbles up as a
    typed failure annotated with the operation and the class in which it
    occurred (and with the error that caused it, when there is one). *)
Definition fatalErrorInClass {A} (cls func msg : string) (err : option exn)
  : result A :=
  Raise (FatalError (cls +:+ "." +:+ func) msg err).

(** ** Ordered dictionaries

    A Python [dict] keeps its keys in insertion order, and the selection
    table prints its entries in that order: an association list. *)

Section Dict.
Context {V : Type}.

Fixpoint dict_get (d : list (string * V)) (k : string) : option V :=
  match d with
  | [] => None
  | (k', v) :: d' => if decide (k' = k) then Some v else dict_get d' k
  end.

Definition dict_mem (d : list (string * V)) (k : string) : bool :=
  bool_decide (is_Some (dict_get d k)).

(** [d[k] = v]: overwrite in place, or append a new key. *)
Fixpoint dict_set (d : list (string * V)) (k : string) (v : V)
  : list (string * V) :=
  match d with
  | [] => [(k, v)]
  | (k', v') :: d' =>
      if decide (k' = k) then (k', v) :: d' else (k', v') :: dict_set d' k v
  end.

Definition dict_keys (d : list (string * V)) : list string := d.*1.
End Dict.

(** ** Classes, as the selection table sees them

    A class object is known to the table through its [__name__], its
    method resolution order (the names [inspect.getmro] lists, the class
    itself first), whether [inspect.isabstract] holds of it, the
    [TypeName] attribute the table sets, and its [fromDictionary]
    factory.  Classes are identified by name, as the table keys them.

    [config] is the type of the configuration dictionaries of a family
    of classes and [instance] the type of its objects.  A factory may
    mutate the dictionary it is given: it returns the state of the
    dictionary after the call next to its outcome. *)

Record pyclass (config instance : Type) : Type := mkClass {
  __name__ : string;
  mro : list string;
  isabstract : bool;
  TypeName : option string;
  fromDictionary : config → result instance * config
}.
Arguments mkClass {config instance} _ _ _ _ _.
Arguments __name__ {config instance} _.
Arguments mro {config instance} _.
Arguments isabstract {config instance} _.
Arguments TypeName {config instance} _.
Arguments fromDictionary {config instance} _ _.

Definition _add_TypeName {config instance} (cls : pyclass config instance)
  : pyclass config instance :=
  {| __name__ := __name__ cls; mro := mro cls; isabstract := isabstract cls;
     TypeName := Some (__name__ cls); fromDictionary := fromDictionary cls |}.

Definition issubclass {config instance} (cls base : pyclass config instance)
  : bool :=
  bool_decide (__name__ base ∈ mro cls).

Module SelectionTable.
Section WithFamily.
Context {config instance : Type}.

Record t : Type := mk {
  type : pyclass config instance;                 (* self.__type *)
  db : list (string * pyclass config instance)    (* self.__db *)
}.

(** [SelectionTable.__init__] *)
Definition init (cls : pyclass config instance) : t :=
  {| type := _add_TypeName cls;
     db := [(__name__ cls, _add_TypeName cls)] |}.

(** [SelectionTable.__contains__] *)
Definition contains (self : t) (typeName : string) : bool :=
  dict_mem (db self) typeName.

(** [SelectionTable.__getitem__].  When the name is absent the
    [ValueError] raised in the [try] block is caught by the handler,
    whose call [self.fatalErrorInClass(self.__get__, ...)] first
    evaluates the argument [self.__get__]; a [SelectionTable] has no
    such attribute, so the handler itself raises [AttributeError]. *)
Definition getitem (self : t) (typeName : string)
  : result (pyclass config instance) :=
  if contains self typeName then
    match dict_get (db self) typeName with
    | Some c => Ok c
    | None => Raise (KeyError typeName)
    end
  else
    Raise (AttributeError
             "'SelectionTable' object has no attribute '__get__'").

(** [SelectionTable.add].  The table is mutated in place: the new
    state of [self] is returned next to the outcome. *)
Definition add (self : t) (cls : pyclass config instance) : result unit * t :=
  let typeName := __name__ cls in
  if negb (contains self typeName) then
    if issubclass cls (type self) then
      (Ok (), {| type := type self;
                 db := dict_set (db self) typeName (_add_TypeName cls) |})
    else
      (fatalErrorInClass "SelectionTable" "add"
         ("Class '" +:+ __name__ cls +:+ "' is not derived from '" +:+
          __name__ (type self) +:+ "'; cannot add '" +:+ typeName +:+
          "' to runtime selection table.") None, self)
  else
    (fatalErrorInClass "SelectionTable" "add"
       ("Subclass '" +:+ typeName +:+
        "' already present in selection table, cannot add to selection table.")
       None, self).

Fixpoint spaces (n : nat) : string :=
  match n with O => EmptyString | S n' => String " "%char (spaces n') end.

(** ["{:40s}".format(s)]: left-aligned, padded to 40 columns. *)
Definition format40 (s : string) : string :=
  s +:+ spaces (40 - String.length s).

(** One line of the listing: a newline, a tab, the padded name and the
    mark of an abstract class. *)
Definition table_line (entry : string * pyclass config instance) : string :=
  String "010"%char (String "009"%char EmptyString) +:+ format40 entry.1 +:+
  (if isabstract entry.2 then "(Abstract class)" else EmptyString).

(** [[(CLSNM, self[CLSNM]) for CLSNM in self.__db]] *)
Fixpoint lookup_all (self : t) (names : list string)
  : result (list (string * pyclass config instance)) :=
  match names with
  | [] => Ok []
  | n :: names' =>
      c ← getitem self n;
      rest ← lookup_all self names';
      Ok ((n, c) :: rest)
  end.

(** The message [check] builds for a missing name. *)
Definition check_msg (self : t) (typeName : string)
    (entries : list (string * pyclass config instance)) : string :=
  fold_left (λ string entry, string +:+ table_line entry) entries
    ("No class '" +:+ typeName +:+ "' found in selection table for class "
     +:+ __name__ (type self) +:+ ". Available classes are:").

(** [SelectionTable.check] *)
Definition check (self : t) (typeName : string) : result bool :=
  if negb (contains self typeName) then
    entries ← lookup_all self (dict_keys (db self));
    Raise (ValueError (check_msg self typeName entries))
  else Ok true.

End WithFamily.
Arguments t : clear implicits.
End SelectionTable.

(** ** [BaseClass]: the class-level selector

    The table of a class is the class attribute
    [_<name>__selectionTable]; [tbl] is its value, [None] when the
    attribute does not exist. *)

Module BaseClass.
Section WithFamily.
Context {config instance : Type}.

Definition hasSelectionTable (tbl : option (SelectionTable.t config instance))
  : bool :=
  bool_decide (is_Some tbl).

Definition selectionTable (cls : pyclass config instance)
    (tbl : option (SelectionTable.t config instance))
  : result (SelectionTable.t config instance) :=
  match tbl with
  | None =>
      fatalErrorInClass (__name__ cls) "selectionTable"
        ("No run-time selection available for class " +:+ __name__ cls +:+ ".")
        None
  | Some t => Ok t
  end.

(** The [try] block of [selector]: the class found in the table, or the
    exception raised before the factory is called. *)
Definition selector_lookup (cls : pyclass config instance)
    (tbl : option (SelectionTable.t config instance)) (typeName : string)
  : result (pyclass config instance) :=
  if negb (hasSelectionTable tbl) then
    Raise (ValueError ("No run-time selection table available for class "
                       +:+ __name__ cls))
  else
    t ← selectionTable cls tbl;
    _ ← SelectionTable.check t typeName;
    t' ← selectionTable cls tbl;
    SelectionTable.getitem t' typeName.

(** The handler of [selector].  It formats its message before it calls
    [fatalErrorInClass]: the f-string looks [typeName] up again. *)
Definition selector_handler (cls : pyclass config instance)
    (tbl : option (SelectionTable.t config instance)) (typeName : string)
    (err : exn) : result instance :=
  t ← selectionTable cls tbl;
  c ← SelectionTable.getitem t typeName;
  fatalErrorInClass (__name__ cls) "selector"
    ("Failed constructing instance of type '" +:+ __name__ c +:+ "'")
    (Some err).

(** [BaseClass.selector].  The two [checkType] calls hold by typing. *)
Definition selector (cls : pyclass config instance)
    (tbl : option (SelectionTable.t config instance))
    (typeName : string) (dictionary : config) : result instance * config :=
  match selector_lookup cls tbl typeName with
  | Ok c =>
      match fromDictionary c dictionary with
      | (Ok instance, dictionary') => (Ok instance, dictionary')
      | (Raise err, dictionary') =>
          (selector_handler cls tbl typeName err, dictionary')
      end
  | Raise err => (selector_handler cls tbl typeName err, dictionary)
  end.

End WithFamily.
End BaseClass.

(** ** Numbers

    Mole fractions are Python floats in the source; the embedding
    computes with exact rationals.  Division raises on a zero divisor. *)

Definition py_div (a b : Qc) : result Qc :=
  if decide (b = 0%Qc) then Raise (ZeroDivisionError "float division by zero")
  else Ok (a / b)%Qc.

Definition Qcmax (a b : Qc) : Qc := if decide (a ≤ b)%Qc then b else a.

Definition Qcsum (l : list Qc) : Qc := foldr Qcplus 0%Qc l.

(** [math.isclose(a, b)] with its defaults [rel_tol = 1e-09] and
    [abs_tol = 0.0]. *)
Definition rel_tol : Qc := Q2Qc (1 # 1000000000).

Definition isclose (a b : Qc) : bool :=
  bool_decide
    (Qcabs (a - b) ≤ Qcmax (rel_tol * Qcmax (Qcabs a) (Qcabs b)) 0)%Qc.

(** ** Species and mixtures *)

Record Molecule : Type := mkMolecule { name : string }.

Global Instance Molecule_eq_dec : EqDecision Molecule.
Proof. solve_decision. Defined.

(** ['CH4']: the [repr] of a name, for names free of quotes and escapes. *)
Definition py_repr (s : string) : string := "'" +:+ s +:+ "'".

Module Mixture.

(** Modelled from the spec: class [Mixture] is not under src/.
    Section 3 of the specification: an ordered collection of
    (Molecule, moleFraction) pairs with a membership test by molecule,
    a lookup of the mole fraction ["X"] of a molecule, [dilute] and
    [extract].  Only the mole basis occurs in the embedded code. *)
Definition t : Type := list (Molecule * Qc).

(** [Mixture([specie], [1])] *)
Definition pure (specie : Molecule) : t := [(specie, 1%Qc)].

Definition species (self : t) : list Molecule := self.*1.

(** [specie in self] *)
Definition contains (self : t) (specie : Molecule) : bool :=
  bool_decide (specie ∈ species self).

(** The mole fraction of [specie], [0] for a species that is absent. *)
Fixpoint X (self : t) (specie : Molecule) : Qc :=
  match self with
  | [] => 0%Qc
  | (s, x) :: self' => if decide (s = specie) then x else X self' specie
  end.

(** [self[specie]["X"]]; the lookup of an absent species fails. *)
Definition getX (self : t) (specie : Molecule) : result Qc :=
  if contains self specie then Ok (X self specie)
  else Raise (ValueError
                ("Specie " +:+ name specie +:+ " not found in mixture.")).

(** Modelled from the spec: [Mixture.dilute] is not under src/.
    [dilute(other, fraction, "mole")] blends [other] in so that it
    makes up [fraction] of the resulting mixture, on a mole basis:
    every fraction of [self] is scaled by [1 - fraction], every
    fraction of [other] by [fraction], and the fractions of a species
    that both hold are added.  Species new to [self] are appended. *)
Definition dilute (self other : t) (fraction : Qc) : t :=
  ((λ p, (p.1, (1 - fraction) * p.2 + fraction * X other p.1)%Qc) <$> self)
  ++ ((λ p, (p.1, fraction * p.2)%Qc)
        <$> filter (λ p, contains self p.1 = false)
                   (other : list (Molecule * Qc))).

(** [self.dilute(specie, fraction, "mole")] with a single molecule. *)
Definition dilute_specie (self : t) (specie : Molecule) (fraction : Qc) : t :=
  dilute self (pure specie) fraction.

(** Modelled from the spec: [Mixture.extract] is not under src/.
    The sub-mixture restricted to [subset], renormalized. *)
Definition extract (self : t) (subset : list Molecule) : result t :=
  let kept := filter (λ p, p.1 ∈ subset) (self : list (Molecule * Qc)) in
  let total := Qcsum kept.*2 in
  if decide (total = 0%Qc)
  then Raise (ZeroDivisionError "float division by zero")
  else Ok ((λ p, (p.1, p.2 / total)%Qc) <$> kept).

End Mixture.

(** Modelled from the spec: [mixtureBlend] is not under src/.
    [mixtureBlend(mixtures, composition, "mole")] is the mole-weighted
    blend: the fraction of a species is the sum of its fractions in the
    mixtures, each weighted by its entry of [composition], renormalized
    by the total weight. *)
Definition blend_X (mixtures : list Mixture.t) (composition : list Qc)
    (specie : Molecule) : Qc :=
  Qcsum (zip_with (λ mix c, c * Mixture.X mix specie)%Qc mixtures composition).

Definition mixtureBlend (mixtures : list Mixture.t) (composition : list Qc)
  : result Mixture.t :=
  if negb (bool_decide (length mixtures = length composition)) then
    Raise (ValueError "mixtures and composition are not consistent")
  else
    let total := Qcsum composition in
    if decide (total = 0%Qc)
    then Raise (ZeroDivisionError "float division by zero")
    else Ok ((λ s, (s, blend_X mixtures composition s / total)%Qc)
               <$> remove_dups (mixtures ≫= Mixture.species)).

Module Reaction.
(** Modelled from the spec: class [Reaction] is not under src/.  An
    immutable pair of mixtures, compared by value. *)
Record t : Type := mk { reactants : Mixture.t; products : Mixture.t }.

Global Instance eq_dec : EqDecision t.
Proof. solve_decision. Defined.
End Reaction.

(** ** The numpy operations [_update] uses

    A two-dimensional array is the list of its rows.  [linalg.solve] is
    modelled by its exact-arithmetic contract: it raises [LinAlgError]
    on a singular matrix and returns the unique solution otherwise,
    computed here by Cramer's rule. *)

Module np.

(** [np.diag(l)] *)
Definition diag (l : list Qc) : list (list Qc) :=
  imap (λ i x, replicate i 0%Qc ++ x :: replicate (length l - S i) 0%Qc) l.

(** [np.c_[M, col]]: [col] becomes the last column. *)
Definition c_ (M : list (list Qc)) (col : list Qc) : list (list Qc) :=
  zip_with (λ row x, row ++ [x]) M col.

(** [M.T] *)
Fixpoint T (M : list (list Qc)) : list (list Qc) :=
  match M with
  | [] => []
  | row :: M' =>
      match M' with
      | [] => (λ x, [x]) <$> row
      | _ :: _ => zip_with cons row (T M')
      end
  end.

(** [np.zeros((rows, cols))] *)
Definition zeros (rows cols : nat) : list (list Qc) :=
  replicate rows (replicate cols 0%Qc).

Definition drop_col (j : nat) (row : list Qc) : list Qc :=
  take j row ++ drop (S j) row.

Definition sign (j : nat) : Qc := if Nat.even j then 1%Qc else (-1)%Qc.

(** The determinant, expanded along the first row. *)
Fixpoint det_n (n : nat) (M : list (list Qc)) : Qc :=
  match n, M with
  | S n', row :: M' =>
      Qcsum (imap (λ j a, sign j * a * det_n n' (drop_col j <$> M'))%Qc row)
  | _, _ => 1%Qc
  end.

Definition det (M : list (list Qc)) : Qc := det_n (length M) M.

Definition column (j : nat) (M : list (list Qc)) : list Qc :=
  (λ row, default 0%Qc (row !! j)) <$> M.

Definition replace_col (j : nat) (M : list (list Qc)) (b : list Qc) : list (list Qc) :=
  zip_with (λ row x, <[j := x]> row) M b.

(** [np.linalg.solve(M, v)] for a column vector [v]. *)
Definition linalg_solve (M v : list (list Qc)) : result (list (list Qc)) :=
  let d := det M in
  if decide (d = 0%Qc) then Raise (LinAlgError "Singular matrix")
  else Ok ((λ j, [(det (replace_col j M (column 0 v)) / d)%Qc])
             <$> seq 0 (length M)).

End np.

(** ** The reference data

    [database.chemistry] is a process-wide table the module reads: the
    names of the known fuels, the oxidation reactions of the category
    [ReactionType] in the order the dictionary yields them, and the
    default oxidizer. *)

Record Database : Type := mkDatabase {
  Fuels : list string;
  reactions : list (string * Reaction.t);
  O2 : Molecule
}.

(** A list comprehension whose element may raise. *)
Fixpoint result_mapM {A B} (f : A → result B) (l : list A)
  : result (list B) :=
  match l with
  | [] => Ok []
  | a :: l' => b ← f a; bs ← result_mapM f l'; Ok (b :: bs)
  end.

(** [d[k]] *)
Definition dict_getitem {V} (d : list (string * V)) (k : string) : result V :=
  match dict_get d k with
  | Some v => Ok v
  | None => Raise (KeyError k)
  end.

(** The values a configuration dictionary holds. *)
Inductive pyval : Type :=
| VMixture (m : Mixture.t)
| VMolecule (s : Molecule)
| VStr (s : string)
| VFloat (x : Qc).

Global Instance pyval_eq_dec : EqDecision pyval.
Proof. solve_decision. Defined.

Module StoichiometricCombustion.

(** The instance: [_products] is [None] until a product mixture has
    been computed. *)
Record t : Type := mk {
  _oxidizer : Molecule;
  _reactants : Mixture.t;
  _products : option Mixture.t;
  _fuels : list Molecule
}.

Definition set_reactants (self : t) (reactants : Mixture.t) : t :=
  {| _oxidizer := _oxidizer self; _reactants := reactants;
     _products := _products self; _fuels := _fuels self |}.

Definition set_products (self : t) (products : Mixture.t) : t :=
  {| _oxidizer := _oxidizer self; _reactants := _reactants self;
     _products := Some products; _fuels := _fuels self |}.

Definition set_fuels (self : t) (fuels : list Molecule) : t :=
  {| _oxidizer := _oxidizer self; _reactants := _reactants self;
     _products := _products self; _fuels := fuels |}.

Global Instance t_eq_dec : EqDecision t.
Proof. solve_decision. Defined.

(** What [_update] returns: [True], [self] or [False]. *)
Inductive ret : Type := RetTrue | RetSelf | RetFalse.

Global Instance ret_eq_dec : EqDecision ret.
Proof. solve_decision. Defined.

Definition _ReactionType : string := "StoichiometricReaction".

(** Modelled from the spec: [ReactionModel.__init__] is not under
    src/.  The model is constructed from a reactants mixture, a value
    of another type being a configuration error; the products are
    derived later. *)
Definition ReactionModel_init (oxidizer : Molecule) (reactants : pyval)
  : result t :=
  match reactants with
  | VMixture m =>
      Ok {| _oxidizer := oxidizer; _reactants := m;
            _products := None; _fuels := [] |}
  | _ => Raise (TypeError "Wrong type for entry 'reactants'")
  end.

(** [StoichiometricCombustion.__init__] *)
Definition __init__ (reactants oxidizer : pyval) : result t :=
  match oxidizer with
  | VMolecule ox => ReactionModel_init ox reactants
  | _ => Raise (TypeError "Wrong type for entry 'oxidizer'")
  end.

(** Modelled from the spec: [ReactionModel._update] is not under src/.
    Section 4.2 of the specification: the new reactants are compared
    with the cached ones by value; when they are identical the call is
    a no-op and signals "already up to date" ([True]); otherwise the
    new mixture replaces the cached one. *)
Definition ReactionModel_update (self : t) (reactants : Mixture.t)
  : bool * t :=
  if decide (reactants = _reactants self) then (true, self)
  else (false, set_reactants self reactants).

Section WithDatabase.
Context (database : Database).

(** [fromDictionary].  The dictionary is the caller's object: its
    state after the call is returned next to the outcome. *)
Definition fromDictionary (dictionary : gmap string pyval)
  : result t * gmap string pyval :=
  if decide (is_Some (dictionary !! "reactants")) then
    let dictionary' :=
      if decide (is_Some (dictionary !! "oxidizer")) then dictionary
      else <["oxidizer" := VMolecule (O2 database)]> dictionary in
    let out :=
      reactants ← (match dictionary' !! "reactants" with
                   | Some v => Ok v
                   | None => Raise (KeyError "reactants") end);
      oxidizer ← (match dictionary' !! "oxidizer" with
                  | Some v => Ok v
                  | None => Raise (KeyError "oxidizer") end);
      __init__ reactants oxidizer in
    match out with
    | Ok out => (Ok out, dictionary')
    | Raise err =>
        (fatalErrorInClass "StoichiometricCombustion" "fromDictionary"
           "Failed construction from dictionary" (Some err), dictionary')
    end
  else
    (fatalErrorInClass "StoichiometricCombustion" "fromDictionary"
       "Failed construction from dictionary"
       (Some (ValueError
                "Mandatory entry 'reactants' not found in dictionary.")),
     dictionary).

(** [_updateFuels] *)
Definition _updateFuels (self : t) : t :=
  set_fuels self
    (filter (λ s, name s ∈ Fuels database)
            (Mixture.species (_reactants self))).

(** The property [fuel].  Its call of [_updateFuels] assigns
    [_fuels] again. *)
Definition fuel (self : t) : result Mixture.t :=
  let self := _updateFuels self in
  Mixture.extract (_reactants self) (_fuels self).

(** *** [_update], lines 166-177: the oxidation reaction of each fuel *)

Definition not_found_msg (f oxidizer : Molecule) : string :=
  "Oxidation reaction not found in database 'rections." +:+ _ReactionType
  +:+ "' for the couple (fuel, oxidizer) = ((" +:+ py_repr (name f)
  +:+ ", " +:+ py_repr (name oxidizer) +:+ "))".

(** The inner loop: the first reaction of the database whose
    reactants hold both the fuel and the oxidizer. *)
Fixpoint find_reaction (rs : list (string * Reaction.t))
    (f oxidizer : Molecule) : option Reaction.t :=
  match rs with
  | [] => None
  | (_, react) :: rs' =>
      if Mixture.contains (Reaction.reactants react) f
         && Mixture.contains (Reaction.reactants react) oxidizer
      then Some react
      else find_reaction rs' f oxidizer
  end.

Fixpoint oxidation_reactions (oxidizer : Molecule) (fuels : list Molecule)
    (oxReactions : list (string * Reaction.t))
  : result (list (string * Reaction.t)) :=
  match fuels with
  | [] => Ok oxReactions
  | f :: fuels' =>
      match find_reaction (reactions database) f oxidizer with
      | Some react =>
          oxidation_reactions oxidizer fuels'
            (dict_set oxReactions (name f) react)
      | None => Raise (ValueError (not_found_msg f oxidizer))
      end
  end.

(** *** Lines 179-222: the reacting compounds *)

(** A reaction is active when all its reactants are in the mixture
    and it holds the oxidizer and at least one fuel. *)
Definition active (self : t) (react : Reaction.t) : bool :=
  forallb (λ sR, Mixture.contains (_reactants self) sR.1)
          (Reaction.reactants react)
  && Mixture.contains (Reaction.reactants react) (_oxidizer self)
  && existsb (λ mol, Mixture.contains (Reaction.reactants react) mol)
             (_fuels self).

(** The loop over [oxReactions] for one species: whether an active
    reaction holds it, and the active reactions seen so far. *)
Definition scan_reactions (self : t) (specie : Molecule)
    (oxReactions : list (string * Reaction.t))
    (activeReactions : list Reaction.t) : bool * list Reaction.t :=
  foldl (λ '(found, activeReactions) '(_, react),
           if Mixture.contains (Reaction.reactants react) specie then
             if active self react then
               (true,
                if bool_decide (react ∈ activeReactions)
                then activeReactions else activeReactions ++ [react])
             else (found, activeReactions)
           else (found, activeReactions))
        (false, activeReactions) oxReactions.

Fixpoint reacting_loop (self : t) (oxReactions : list (string * Reaction.t))
    (todo : Mixture.t) (xReact : Qc) (reactingMix : option Mixture.t)
    (activeReactions : list Reaction.t)
  : result (Qc * option Mixture.t * list Reaction.t) :=
  match todo with
  | [] => Ok (xReact, reactingMix, activeReactions)
  | (specie, x) :: todo' =>
      let '(found, activeReactions) :=
        scan_reactions self specie oxReactions activeReactions in
      if found then
        reactingMix ←
          match reactingMix with
          | None => Ok (Mixture.pure specie)
          | Some mix =>
              q ← py_div x (xReact + x);
              Ok (Mixture.dilute_specie mix specie q)
          end;
        reacting_loop self oxReactions todo' (xReact + x)%Qc
          (Some reactingMix) activeReactions
      else
        reacting_loop self oxReactions todo' xReact reactingMix
          activeReactions
  end.

(** *** Lines 224-233: the inerts *)

(** [specie in reactingMix]; [None] does not support [in]. *)
Definition in_reactingMix (specie : Molecule)
    (reactingMix : option Mixture.t) : result bool :=
  match reactingMix with
  | None => Raise (TypeError "argument of type 'NoneType' is not iterable")
  | Some mix => Ok (Mixture.contains mix specie)
  end.

Fixpoint inert_loop (reactingMix : option Mixture.t) (todo : Mixture.t)
    (inerts : option Mixture.t) (xInert : Qc)
  : result (option Mixture.t * Qc) :=
  match todo with
  | [] => Ok (inerts, xInert)
  | (specie, x) :: todo' =>
      isin ← in_reactingMix specie reactingMix;
      if negb isin then
        inerts ←
          match inerts with
          | None => Ok (Mixture.pure specie)
          | Some mix =>
              q ← py_div x (xInert + x);
              Ok (Mixture.dilute_specie mix specie q)
          end;
        inert_loop reactingMix todo' (Some inerts) (xInert + x)%Qc
      else inert_loop reactingMix todo' inerts xInert
  end.

(** *** Lines 282-288: the linear system of the stoichiometric blend *)

(** [[oxReactions[f.name].reactants[f.name]["X"] for f in self._fuels]] *)
Definition stoich_diagonal (oxReactions : list (string * Reaction.t))
    (fuels : list Molecule) : result (list Qc) :=
  result_mapM (λ f, react ← dict_getitem oxReactions (name f);
                    Mixture.getX (Reaction.reactants react) f) fuels.

(** [[-fuelMix[f]["X"] for f in self._fuels]] *)
Definition stoich_column (fuelMix : Mixture.t) (fuels : list Molecule)
  : result (list Qc) :=
  result_mapM (λ f, x ← Mixture.getX fuelMix f; Ok (- x)%Qc) fuels.

Definition stoich_M (oxReactions : list (string * Reaction.t))
    (fuels : list Molecule) (fuelMix : Mixture.t) : result (list (list Qc)) :=
  d ← stoich_diagonal oxReactions fuels;
  let M := np.diag d in
  col ← stoich_column fuelMix fuels;
  let M := np.c_ M col in
  let M := np.T (np.c_ (np.T M)
                   (replicate (length fuelMix) 1%Qc ++ [0%Qc])) in
  Ok M.

Definition stoich_v (fuelMix : Mixture.t) : list (list Qc) :=
  np.T (np.c_ (np.zeros 1 (length fuelMix)) [1%Qc]).

(** [np.linalg.solve(M,v).T[0][:-1]] *)
Definition stoich_solve (M v : list (list Qc)) : result (list Qc) :=
  x ← np.linalg_solve M v;
  match np.T x with
  | [] => Raise (IndexError "index 0 is out of bounds for axis 0 with size 0")
  | row :: _ => Ok (removelast row)
  end.

Definition xStoich (self : t) (oxReactions : list (string * Reaction.t))
    (fuelMix : Mixture.t) : result (list Qc) :=
  M ← stoich_M oxReactions (_fuels self) fuelMix;
  stoich_solve M (stoich_v fuelMix).

(** *** Lines 292-310: the blends of reactants and of products *)

Definition blend_reactions (self : t)
    (oxReactions : list (string * Reaction.t))
    (side : Reaction.t → Mixture.t) (weights : list Qc)
  : result Mixture.t :=
  mixtures ← result_mapM (λ f, react ← dict_getitem oxReactions (name f);
                               Ok (side react)) (_fuels self);
  mixtureBlend mixtures weights.

(** *** Lines 315-325: the part that does not react *)

Definition excess_step (fuelMix : result Mixture.t) (oxidizer : Molecule)
    (reactingMix stoichReactingMix prods : Mixture.t) : result Mixture.t :=
  ideal ← Mixture.getX stoichReactingMix oxidizer;
  actual ← Mixture.getX reactingMix oxidizer;
  if negb (isclose ideal actual) then
    if decide (ideal < actual)%Qc then
      let xExc := (actual - ideal)%Qc in
      let excMix := Mixture.pure oxidizer in
      Ok (Mixture.dilute prods excMix xExc)
    else
      let xExc := (ideal - actual)%Qc in
      excMix ← fuelMix;
      Ok (Mixture.dilute prods excMix xExc)
  else Ok prods.

(** *** Lines 330-332: the inerts are added back *)

Definition inert_step (prods : Mixture.t) (inerts : option Mixture.t)
    (xInert : Qc) : Mixture.t :=
  match inerts with
  | Some inerts => Mixture.dilute prods inerts xInert
  | None => prods
  end.

(** *** [_update]

    [reacted_products] is lines 282-325: the products of the
    reacting part of the mixture, before the inerts are added. *)
Definition reacted_products (self : t)
    (oxReactions : list (string * Reaction.t)) (reactingMix : Mixture.t)
  : result Mixture.t :=
  fuelMix ← fuel self;
  xStoich ← xStoich self oxReactions fuelMix;
  stoichReactingMix ←
    blend_reactions self oxReactions Reaction.reactants xStoich;
  prods ← blend_reactions self oxReactions Reaction.products xStoich;
  excess_step (fuel self) (_oxidizer self) reactingMix
    stoichReactingMix prods.

(** [balance] is the body of [_update] after the fuels have been
    updated; it yields the returned value and the mixture assigned
    to [_products]. *)
Definition balance (self : t) : result (ret * Mixture.t) :=
  oxReactions ← oxidation_reactions (_oxidizer self) (_fuels self) [];
  '(xReact, reactingMix, activeReactions) ←
    reacting_loop self oxReactions (_reactants self) 0%Qc None [];
  '(inerts, xInert) ← inert_loop reactingMix (_reactants self) None 0%Qc;
  match reactingMix with
  | None => Ok (RetSelf, _reactants self)
  | Some reactingMix =>
      prods ← reacted_products self oxReactions reactingMix;
      let prods := inert_step prods inerts xInert in
      Ok (RetFalse, prods)
  end.

(** The instance is mutated in place: its state after the call is
    returned next to the outcome.  [reactants] is the new mixture
    the caller passes. *)
Definition _update (self : t) (reactants : Mixture.t) : result ret * t :=
  let '(uptodate, self) := ReactionModel_update self reactants in
  if uptodate then (Ok RetTrue, self)
  else
    let self := _updateFuels self in
    match balance self with
    | Ok (r, products) => (Ok r, set_products self products)
    | Raise err => (Raise err, self)
    end.

End WithDatabase.

End StoichiometricCombustion.

(** * Creating and filling the selection tables

    The class-level operations of [BaseClass] that create the table of
    a class and register a class in the table of its base.  [tables]
    holds the class attributes [_<name>__selectionTable], by the name of
    the class that owns them; the operations update it in place. *)

Module RuntimeSelection.
Section WithFamily.
Context {config instance : Type}.

(** [_getBaseClass]: [inspect.getmro(cls)[1]], by name. *)
Definition _getBaseClass (cls : pyclass config instance) : result string :=
  match mro cls !! 1 with
  | Some base => Ok base
  | None => Raise (IndexError "tuple index out of range")
  end.

(** [BaseClass.createRuntimeSelectionTable] *)
Definition createRuntimeSelectionTable (cls : pyclass config instance)
    (tables : gmap string (SelectionTable.t config instance))
  : result unit * gmap string (SelectionTable.t config instance) :=
  if BaseClass.hasSelectionTable (tables !! __name__ cls) then
    (fatalErrorInClass (__name__ cls) "createRuntimeSelectionTable"
       ("A selection table is already present for class " +:+ __name__ cls
        +:+ ", cannot generate a new selection table.") None, tables)
  else
    (Ok (), <[__name__ cls := SelectionTable.init cls]> tables).

(** [BaseClass.addToRuntimeSelectionTable] *)
Definition addToRuntimeSelectionTable (cls : pyclass config instance)
    (tables : gmap string (SelectionTable.t config instance))
  : result unit * gmap string (SelectionTable.t config instance) :=
  match _getBaseClass cls with
  | Raise err => (Raise err, tables)
  | Ok base =>
      match tables !! base with
      | None =>
          (fatalErrorInClass (__name__ cls) "addToRuntimeSelectionTable"
             ("No run-time selection available for base class " +:+ base
              +:+ ".") None, tables)
      | Some table =>
          let '(outcome, table) := SelectionTable.add table cls in
          (outcome, <[base := table]> tables)
      end
  end.

(** [cls.selector(typeName, dictionary)], the table being the one the
    class owns. *)
Definition selector (cls : pyclass config instance)
    (tables : gmap string (SelectionTable.t config instance))
    (typeName : string) (dictionary : config) : result instance * config :=
  BaseClass.selector cls (tables !! __name__ cls) typeName dictionary.

End WithFamily.
End RuntimeSelection.

(** * Notions the properties are stated with *)

(** The mole fraction of a species in a mixture that may not exist. *)
Definition X_opt (mix : option Mixture.t) (specie : Molecule) : Qc :=
  match mix with
  | Some mix => Mixture.X mix specie
  | None => 0%Qc
  end.

(** The entries of the reactants that [_update] counts as inert: the
    species that the reacting mixture does not hold (line 228). *)
Definition inert_part (reactants reactingMix : Mixture.t)
  : list (Molecule * Qc) :=
  filter (λ p, Mixture.contains reactingMix p.1 = false)
         (reactants : list (Molecule * Qc)).

(** The total mole fraction of the inerts in the reactants. *)
Definition inert_fraction (reactants reactingMix : Mixture.t) : Qc :=
  Qcsum (inert_part reactants reactingMix).*2.

(** The mole fraction, in the reactants, of one inert species. *)
Definition inert_amount (reactants reactingMix : Mixture.t)
    (specie : Molecule) : Qc :=
  Qcsum (filter (λ p, p.1 = specie) (inert_part reactants reactingMix)).*2.

(** Every mole fraction of the mixture is positive. *)
Definition positive_fractions (mix : Mixture.t) : Prop :=
  Forall (λ p, (0 < p.2)%Qc) mix.

(** The mole fraction of a fuel in the reactants of the oxidation
    reaction the database holds for it. *)
Definition fuel_in_reaction (database : Database) (oxidizer f : Molecule)
  : Qc :=
  match StoichiometricCombustion.find_reaction (reactions database) f oxidizer
  with
  | Some react => Mixture.X (Reaction.reactants react) f
  | None => 0%Qc
  end.

(** Every row of the array has [c] entries. *)
Definition rect (c : nat) (M : list (list Qc)) : Prop :=
  Forall (λ row, length row = c) M.

(** An entry of a matrix. *)
Definition entry (M : list (list Qc)) (i j : nat) : option Qc :=
  row ← M !! i; row !! j.

(** * Reference data of the worked cases *)

Module Examples.

Definition frac (a : Z) (b : positive) : Qc := Q2Qc (a # b).

Definition CH4 : Molecule := mkMolecule "CH4".
Definition H2 : Molecule := mkMolecule "H2".
Definition oxygen : Molecule := mkMolecule "O2".
Definition CO2 : Molecule := mkMolecule "CO2".
Definition H2O : Molecule := mkMolecule "H2O".
Definition N2 : Molecule := mkMolecule "N2".

(** CH4 + 2 O2 -> CO2 + 2 H2O *)
Definition CH4_oxidation : Reaction.t :=
  Reaction.mk [(CH4, frac 1 3); (oxygen, frac 2 3)]
              [(CO2, frac 1 3); (H2O, frac 2 3)].

(** 2 H2 + O2 -> 2 H2O *)
Definition H2_oxidation : Reaction.t :=
  Reaction.mk [(H2, frac 2 3); (oxygen, frac 1 3)] [(H2O, frac 1 1)].

Definition chemistry : Database :=
  {| Fuels := ["CH4"; "H2"];
     reactions := [("CH4-ox", CH4_oxidation); ("H2-ox", H2_oxidation)];
     O2 := oxygen |}.

(** The same fuels with no reaction registered. *)
Definition no_reactions : Database :=
  {| Fuels := ["CH4"; "H2"]; reactions := []; O2 := oxygen |}.

(** A model that has not seen any mixture yet. *)
Definition fresh : StoichiometricCombustion.t :=
  StoichiometricCombustion.mk oxygen [] None [].

(** The family of reaction models and its selection table. *)
Definition ReactionModel
  : pyclass (gmap string pyval) StoichiometricCombustion.t :=
  mkClass "ReactionModel" ["ReactionModel"; "BaseClass"; "Utilities"; "object"]
    true None
    (λ dictionary,
       (fatalErrorInClass "ReactionModel" "fromDictionary"
          "Can't instantiate abstract class ReactionModel" None, dictionary)).

Definition StoichiometricCombustion_class
  : pyclass (gmap string pyval) StoichiometricCombustion.t :=
  mkClass "StoichiometricCombustion"
    ["StoichiometricCombustion"; "ReactionModel"; "BaseClass"; "Utilities";
     "object"]
    false None (StoichiometricCombustion.fromDictionary chemistry).

(** [ReactionModel.createRuntimeSelectionTable()] followed by
    [ReactionModel.addToRuntimeSelectionTable(StoichiometricCombustion)] *)
Definition ReactionModel_table
  : SelectionTable.t (gmap string pyval) StoichiometricCombustion.t :=
  (SelectionTable.add (SelectionTable.init ReactionModel)
     StoichiometricCombustion_class).2.

End Examples.

(** * Further notions and data *)

(** The outcome is an exception. *)
Definition raises_in {A} (r : result A) : Prop :=
  match r with
  | Ok _ => False
  | Raise _ => True
  end.

(** A table after a run of registrations, failed ones included. *)
Definition adds {config instance : Type}
    (table : SelectionTable.t config instance)
    (classes : list (pyclass config instance))
  : SelectionTable.t config instance :=
  foldl (λ table cls, (SelectionTable.add table cls).2) table classes.

(** What a table keeps true of its entries: no name twice, every class
    under its own name and carrying it as [TypeName], every class
    derived from the class that owns the table. *)
Definition table_ok {config instance : Type}
    (table : SelectionTable.t config instance) : Prop :=
  NoDup (dict_keys (SelectionTable.db table))
  ∧ Forall (λ e, e.1 = __name__ e.2
                 ∧ TypeName e.2 = Some e.1
                 ∧ issubclass e.2 (SelectionTable.type table) = true)
           (SelectionTable.db table).

(** An active reaction of [oxReactions] holds the species among its
    reactants. *)
Definition reacts (self : StoichiometricCombustion.t)
    (oxReactions : list (string * Reaction.t)) (specie : Molecule) : bool :=
  existsb (λ r, Mixture.contains (Reaction.reactants r.2) specie
                && StoichiometricCombustion.active self r.2) oxReactions.

(** The entries of a mixture whose species react. *)
Definition reacting_part (self : StoichiometricCombustion.t)
    (oxReactions : list (string * Reaction.t)) (mix : Mixture.t)
  : list (Molecule * Qc) :=
  filter (λ p, reacts self oxReactions p.1 = true)
         (mix : list (Molecule * Qc)).

Module Cases.

(** A family with a class, a subclass of it and a subclass of that
    one; the factories build the name of their class. *)
Definition Filter : pyclass unit string :=
  mkClass "Filter" ["Filter"; "BaseClass"; "Utilities"; "object"] true None
    (λ d, (fatalErrorInClass "Filter" "fromDictionary"
             "Can't instantiate abstract class Filter" None, d)).

Definition LowPass : pyclass unit string :=
  mkClass "LowPass" ["LowPass"; "Filter"; "BaseClass"; "Utilities"; "object"]
    false None (λ d, (Ok "LowPass", d)).

Definition Butterworth : pyclass unit string :=
  mkClass "Butterworth"
    ["Butterworth"; "LowPass"; "Filter"; "BaseClass"; "Utilities"; "object"]
    false None (λ d, (Ok "Butterworth", d)).

(** A class whose factory fails. *)
Definition Broken : pyclass unit string :=
  mkClass "Broken" ["Broken"; "Filter"; "BaseClass"; "Utilities"; "object"]
    false None
    (λ d, (Raise (ValueError "Mandatory entry 'cutoff' not found in dictionary."),
           d)).

(** A class outside the family. *)
Definition Stranger : pyclass unit string :=
  mkClass "Stranger" ["Stranger"; "object"] false None
    (λ d, (Ok "Stranger", d)).

Definition Filter_table : SelectionTable.t unit string :=
  SelectionTable.init Filter.

(** Methane and nitrogen, without the oxidizer. *)
Definition no_oxygen : Mixture.t :=
  [(Examples.CH4, Examples.frac 1 2); (Examples.N2, Examples.frac 1 2)].

(** Methane, oxygen and nitrogen at the stoichiometric ratio. *)
Definition stoichiometric : Mixture.t :=
  [(Examples.CH4, Examples.frac 1 10);
   (Examples.oxygen, Examples.frac 2 10);
   (Examples.N2, Examples.frac 7 10)].

(** The same with oxygen in excess. *)
Definition lean : Mixture.t :=
  [(Examples.CH4, Examples.frac 1 10);
   (Examples.oxygen, Examples.frac 3 10);
   (Examples.N2, Examples.frac 6 10)].

End Cases.

(** * Properties *)

(** ** Ordered dictionaries *)

Section DictFacts.
Context {V : Type}.
Implicit Types (d : list (string * V)) (k : string) (v : V).

Lemma dict_mem_true d k : dict_mem d k = true ↔ is_Some (dict_get d k).
Proof. unfold dict_mem. by rewrite bool_decide_eq_true. Qed.

Lemma dict_mem_false d k : dict_mem d k = false ↔ dict_get d k = None.
Proof.
  unfold dict_mem. rewrite bool_decide_eq_false.
  by rewrite eq_None_not_Some.
Qed.

Lemma dict_get_set d k v k' :
  dict_get (dict_set d k v) k' =
  if decide (k = k') then Some v else dict_get d k'.
Proof.
  induction d as [|[k0 v0] d IH]; simpl.
  - by repeat case_decide.
  - destruct (decide (k0 = k)) as [->|Hk]; simpl.
    + by repeat case_decide.
    + destruct (decide (k0 = k')) as [->|Hk']; [by rewrite decide_False|].
      apply IH.
Qed.

(** Assigning to a key the dictionary does not hold appends it. *)
Lemma dict_set_fresh d k v :
  dict_get d k = None → dict_set d k v = d ++ [(k, v)].
Proof.
  induction d as [|[k0 v0] d IH]; simpl; [done|].
  case_decide; [done|]. intros Hd. by rewrite IH.
Qed.

Lemma dict_get_keys d k : k ∈ dict_keys d → is_Some (dict_get d k).
Proof.
  unfold dict_keys. induction d as [|[k0 v0] d IH]; simpl.
  - by intros ?%elem_of_nil.
  - intros [->|Hin]%elem_of_cons; case_decide; eauto; done.
Qed.
End DictFacts.

(** ** The selection table *)

Module SelectionTableFacts.
Import SelectionTable.
Section WithFamily.
Context {config instance : Type}.
Implicit Types (self : SelectionTable.t config instance).

Lemma getitem_present self typeName c :
  dict_get (db self) typeName = Some c → getitem self typeName = Ok c.
Proof.
  intros Hc. unfold getitem, contains.
  rewrite (proj2 (dict_mem_true _ _)) by eauto. by rewrite Hc.
Qed.

Lemma getitem_absent self typeName :
  contains self typeName = false →
  getitem self typeName =
  Raise (AttributeError "'SelectionTable' object has no attribute '__get__'").
Proof. intros Hc. unfold getitem. by rewrite Hc. Qed.

(** The comprehension over the keys of the table never fails. *)
Lemma lookup_all_keys self names :
  names ⊆ dict_keys (db self) →
  ∃ entries, lookup_all self names = Ok entries ∧ entries.*1 = names.
Proof.
  induction names as [|n names IH]; intros Hsub; simpl.
  - by exists [].
  - destruct (dict_get_keys (db self) n) as [c Hc]; [set_solver|].
    destruct IH as (entries & -> & Hfst); [set_solver|].
    rewrite (getitem_present _ _ _ Hc). simpl.
    exists ((n, c) :: entries). by rewrite <- Hfst.
Qed.

(** [check] on a name the table lacks raises the [ValueError] that
    names it and lists every entry of the table. *)
Lemma check_absent self typeName :
  contains self typeName = false →
  ∃ entries,
    entries.*1 = dict_keys (db self) ∧
    check self typeName = Raise (ValueError (check_msg self typeName entries)).
Proof.
  intros Hc. unfold check. rewrite Hc. simpl.
  destruct (lookup_all_keys self (dict_keys (db self))) as (entries & -> & ?);
    [done|].
  by exists entries.
Qed.

Lemma check_present self typeName :
  contains self typeName = true → check self typeName = Ok true.
Proof. intros Hc. unfold check. by rewrite Hc. Qed.

End WithFamily.
End SelectionTableFacts.

(** C10.  [SelectionTable.add] is atomic.  When the call fails, which
    happens exactly when the name of the class is already a key of the
    table or the class does not derive from the type of the table, the
    mapping of the table is what it was.  When it succeeds, the mapping
    is the prior one followed by the single entry from the name of the
    class to the class (which now carries its [TypeName]). *)
Theorem add_atomic {config instance : Type}
    (self : SelectionTable.t config instance) (cls : pyclass config instance) :
  match SelectionTable.add self cls with
  | (Raise _, self') =>
      self' = self ∧
      (SelectionTable.contains self (__name__ cls) = true
       ∨ issubclass cls (SelectionTable.type self) = false)
  | (Ok _, self') =>
      SelectionTable.contains self (__name__ cls) = false ∧
      issubclass cls (SelectionTable.type self) = true ∧
      SelectionTable.type self' = SelectionTable.type self ∧
      SelectionTable.db self' =
        SelectionTable.db self ++ [(__name__ cls, _add_TypeName cls)] ∧
      ∀ k, dict_get (SelectionTable.db self') k =
           if decide (k = __name__ cls) then Some (_add_TypeName cls)
           else dict_get (SelectionTable.db self) k
  end.
Proof.
  unfold SelectionTable.add.
  destruct (SelectionTable.contains self (__name__ cls)) eqn:Hin; simpl.
  { split; [done|by left]. }
  destruct (issubclass cls (SelectionTable.type self)) eqn:Hsub; simpl.
  2: { split; [done|by right]. }
  apply dict_mem_false in Hin.
  repeat split; try done.
  - by apply dict_set_fresh.
  - intros k. rewrite dict_get_set. by repeat case_decide.
Qed.

(** ** The selector *)

Module BaseClassFacts.
Import BaseClass SelectionTableFacts.
Section WithFamily.
Context {config instance : Type}.
Implicit Types (cls c : pyclass config instance)
  (self : SelectionTable.t config instance).

Lemma selector_lookup_present cls self typeName c :
  dict_get (SelectionTable.db self) typeName = Some c →
  selector_lookup cls (Some self) typeName = Ok c.
Proof.
  intros Hc. unfold selector_lookup. simpl.
  rewrite check_present; [|by apply dict_mem_true; eauto].
  simpl. by apply getitem_present.
Qed.

(** The registered half of the round trip: the selector hands the
    dictionary to the factory of the class registered under the name,
    and returns the instance the factory builds. *)
Lemma selector_registered cls self typeName c dictionary i dictionary' :
  dict_get (SelectionTable.db self) typeName = Some c →
  fromDictionary c dictionary = (Ok i, dictionary') →
  selector cls (Some self) typeName dictionary = (Ok i, dictionary').
Proof.
  intros Hc Hf. unfold selector.
  by rewrite (selector_lookup_present _ _ _ _ Hc), Hf.
Qed.

(** A factory that fails is reported with the name of the class. *)
Lemma selector_factory_fails cls self typeName c dictionary err dictionary' :
  dict_get (SelectionTable.db self) typeName = Some c →
  fromDictionary c dictionary = (Raise err, dictionary') →
  selector cls (Some self) typeName dictionary =
  (Raise (FatalError (__name__ cls +:+ "." +:+ "selector")
            ("Failed constructing instance of type '" +:+ __name__ c +:+ "'")
            (Some err)), dictionary').
Proof.
  intros Hc Hf. unfold selector.
  rewrite (selector_lookup_present _ _ _ _ Hc), Hf.
  unfold selector_handler. simpl. by rewrite (getitem_present _ _ _ Hc).
Qed.

End WithFamily.
End BaseClassFacts.

(** C4.  The selector on a name the table does not hold.  [check]
    raises the [ValueError] that names the missing type and lists the
    available ones, but the handler of [selector] looks the name up
    again to format its own message, and the handler of [__getitem__]
    asks for [self.__get__]: the error that leaves [selector] is the
    [AttributeError] about [__get__], whose message holds neither the
    missing name nor the available names. *)
Theorem selector_unregistered {config instance : Type}
    (cls : pyclass config instance) (self : SelectionTable.t config instance)
    (typeName : string) (dictionary : config) :
  SelectionTable.contains self typeName = false →
  (∃ entries,
     entries.*1 = dict_keys (SelectionTable.db self) ∧
     SelectionTable.check self typeName =
     Raise (ValueError (SelectionTable.check_msg self typeName entries))) ∧
  BaseClass.selector cls (Some self) typeName dictionary =
  (Raise (AttributeError "'SelectionTable' object has no attribute '__get__'"),
   dictionary).
Proof.
  intros Habs.
  destruct (SelectionTableFacts.check_absent self typeName Habs)
    as (entries & Hkeys & Hcheck).
  split; [by exists entries|].
  unfold BaseClass.selector, BaseClass.selector_lookup. simpl.
  rewrite Hcheck. simpl.
  unfold BaseClass.selector_handler. simpl.
  by rewrite (SelectionTableFacts.getitem_absent _ _ Habs).
Qed.

Lemma selector_unregistered_witness :
  SelectionTable.contains Examples.ReactionModel_table "Arrhenius" = false ∧
  BaseClass.selector Examples.ReactionModel (Some Examples.ReactionModel_table)
    "Arrhenius" ∅ =
  (Raise (AttributeError "'SelectionTable' object has no attribute '__get__'"),
   ∅).
Proof.
  split; [reflexivity|].
  apply (selector_unregistered Examples.ReactionModel
           Examples.ReactionModel_table "Arrhenius" ∅).
  reflexivity.
Defined.

(** ** The reaction model: what a call leaves behind *)

Module UpdateFacts.
Import StoichiometricCombustion.
Section WithDatabase.
Context (database : Database).
Implicit Types (self : t) (reactants : Mixture.t).

Lemma ReactionModel_update_reactants self reactants :
  _reactants (ReactionModel_update self reactants).2 = reactants.
Proof. unfold ReactionModel_update. by case_decide. Qed.

(** Whatever its outcome, [_update] leaves the mixture it was given as
    the cached reactants. *)
Lemma _update_reactants self reactants :
  _reactants (_update database self reactants).2 = reactants.
Proof.
  unfold _update, ReactionModel_update.
  case_decide; simpl; [done|].
  by destruct (balance _ _) as [[r products]|err].
Qed.

Lemma _update_changed self reactants :
  reactants ≠ _reactants self →
  _update database self reactants =
  let self := _updateFuels database (set_reactants self reactants) in
  match balance database self with
  | Ok (r, products) => (Ok r, set_products self products)
  | Raise err => (Raise err, self)
  end.
Proof. intros Hne. unfold _update, ReactionModel_update. by rewrite decide_False. Qed.

Lemma _updateFuels_idemp self :
  _updateFuels database (_updateFuels database self)
  = _updateFuels database self.
Proof. done. Qed.

(** No reaction in [oxReactions]: no species is found reacting. *)
Lemma scan_reactions_nil self specie activeReactions :
  scan_reactions self specie [] activeReactions = (false, activeReactions).
Proof. done. Qed.

Lemma reacting_loop_nil self todo xReact reactingMix activeReactions :
  reacting_loop self [] todo xReact reactingMix activeReactions
  = Ok (xReact, reactingMix, activeReactions).
Proof.
  revert xReact reactingMix activeReactions.
  induction todo as [|[specie x] todo IH]; intros; simpl; [done|apply IH].
Qed.

Lemma oxidation_reactions_first_missing oxidizer before f after oxReactions :
  Forall (λ g, is_Some (find_reaction (reactions database) g oxidizer))
         before →
  find_reaction (reactions database) f oxidizer = None →
  oxidation_reactions database oxidizer (before ++ f :: after) oxReactions
  = Raise (ValueError (not_found_msg f oxidizer)).
Proof.
  intros Hbefore Hf. revert oxReactions.
  induction Hbefore as [|g before [react Hg] _ IH]; intros; simpl.
  - by rewrite Hf.
  - rewrite Hg. apply IH.
Qed.

(** The first element of a list that satisfies a decidable property. *)
Lemma first_such {A} (P : A → Prop) `{!∀ a, Decision (P a)} (l : list A) a :
  a ∈ l → P a →
  ∃ before b after,
    l = before ++ b :: after ∧ Forall (λ c, ¬ P c) before ∧ P b.
Proof.
  induction l as [|c l IH]; [by intros ?%elem_of_nil|].
  intros Hin Ha. destruct (decide (P c)) as [Hc|Hc].
  - by exists [], c, l.
  - apply elem_of_cons in Hin as [->|Hin]; [done|].
    destruct (IH Hin Ha) as (before & b & after & -> & Hbefore & Hb).
    exists (c :: before), b, after. split_and!; [done| |done].
    by constructor.
Qed.

End WithDatabase.
End UpdateFacts.

(** C7.  A second call of [_update] with the mixture of the first call
    finds the reactants up to date: it returns [True] at once, and the
    instance, its products among the rest, is what the first call left. *)
Theorem update_twice (database : Database)
    (self : StoichiometricCombustion.t) (reactants : Mixture.t) :
  let self1 := (StoichiometricCombustion._update database self reactants).2 in
  StoichiometricCombustion.ReactionModel_update self1 reactants = (true, self1)
  ∧ StoichiometricCombustion._update database self1 reactants
    = (Ok StoichiometricCombustion.RetTrue, self1)
  ∧ StoichiometricCombustion._products
      (StoichiometricCombustion._update database self1 reactants).2
    = StoichiometricCombustion._products self1.
Proof.
  intros self1.
  assert (StoichiometricCombustion.ReactionModel_update self1 reactants
          = (true, self1)) as Hup.
  { unfold StoichiometricCombustion.ReactionModel_update.
    rewrite decide_True; [done|].
    symmetry. apply UpdateFacts._update_reactants. }
  assert (StoichiometricCombustion._update database self1 reactants
          = (Ok StoichiometricCombustion.RetTrue, self1)) as Hsecond.
  { unfold StoichiometricCombustion._update at 1. by rewrite Hup. }
  by rewrite Hsecond.
Qed.

(** C1.  A mixture that is not empty and holds no fuel does not pass
    through: no species is found reacting, [reactingMix] stays [None],
    and the loop that collects the inerts tests [specie in reactingMix]
    before line 245 is reached.  The call raises [TypeError] and the
    products are not assigned. *)
Theorem update_no_fuel_raises (database : Database)
    (self : StoichiometricCombustion.t) (reactants : Mixture.t) :
  reactants ≠ StoichiometricCombustion._reactants self →
  reactants ≠ [] →
  Forall (λ s, name s ∉ Fuels database) (Mixture.species reactants) →
  StoichiometricCombustion._update database self reactants =
  (Raise (TypeError "argument of type 'NoneType' is not iterable"),
   StoichiometricCombustion.set_fuels
     (StoichiometricCombustion.set_reactants self reactants) []).
Proof.
  intros Hne Hnil Hfuels.
  rewrite UpdateFacts._update_changed by done. simpl.
  assert (StoichiometricCombustion._updateFuels database
            (StoichiometricCombustion.set_reactants self reactants)
          = StoichiometricCombustion.set_fuels
              (StoichiometricCombustion.set_reactants self reactants) [])
    as ->.
  { unfold StoichiometricCombustion._updateFuels. f_equal. simpl.
    induction Hfuels as [|s l Hs _ IH]; [done|].
    rewrite filter_cons. by rewrite decide_False. }
  unfold StoichiometricCombustion.balance. simpl.
  rewrite UpdateFacts.reacting_loop_nil. simpl.
  by destruct reactants as [|[specie x] todo].
Qed.

Lemma update_no_fuel_raises_witness :
  StoichiometricCombustion._update Examples.chemistry Examples.fresh
    [(Examples.N2, Examples.frac 1 1)] =
  (Raise (TypeError "argument of type 'NoneType' is not iterable"),
   StoichiometricCombustion.set_fuels
     (StoichiometricCombustion.set_reactants Examples.fresh
        [(Examples.N2, Examples.frac 1 1)]) []).
Proof.
  apply (update_no_fuel_raises Examples.chemistry Examples.fresh
           [(Examples.N2, Examples.frac 1 1)]).
  - discriminate.
  - discriminate.
  - apply (bool_decide_unpack _). vm_compute. exact I.
Defined.

(** C6 (amended).  When the update recomputes and some identified fuel
    has no oxidation reaction with the oxidizer in the database, the
    call raises the [ValueError] that names the pair made of the first
    such fuel, in the order of the mixture, and the oxidizer; the
    products are not assigned. *)
Theorem update_missing_reaction (database : Database)
    (self : StoichiometricCombustion.t) (reactants : Mixture.t)
    (g : Molecule) :
  let self' := StoichiometricCombustion._updateFuels database
                 (StoichiometricCombustion.set_reactants self reactants) in
  let oxidizer := StoichiometricCombustion._oxidizer self in
  let missing f :=
    StoichiometricCombustion.find_reaction (reactions database) f oxidizer
    = None in
  reactants ≠ StoichiometricCombustion._reactants self →
  g ∈ StoichiometricCombustion._fuels self' →
  missing g →
  ∃ before f after,
    StoichiometricCombustion._fuels self' = before ++ f :: after ∧
    Forall (λ c, ¬ missing c) before ∧
    missing f ∧
    StoichiometricCombustion._update database self reactants =
    (Raise (ValueError (StoichiometricCombustion.not_found_msg f oxidizer)),
     self').
Proof.
  intros self' oxidizer missing Hne Hg Hmiss.
  destruct (UpdateFacts.first_such missing _ g Hg Hmiss)
    as (before & f & after & Hfuels & Hbefore & Hf).
  exists before, f, after. split_and!; try done.
  rewrite UpdateFacts._update_changed by done. simpl.
  fold self'. unfold StoichiometricCombustion.balance.
  change (StoichiometricCombustion._oxidizer self') with oxidizer.
  rewrite Hfuels.
  assert (Forall (λ c, is_Some (StoichiometricCombustion.find_reaction
                                  (reactions database) c oxidizer)) before)
    as Hfound.
  { clear -Hbefore.
    induction Hbefore as [|c before Hc _ IH]; constructor; [|done].
    by apply not_eq_None_Some. }
  by rewrite (UpdateFacts.oxidation_reactions_first_missing
                database _ _ _ after [] Hfound Hf).
Qed.

Lemma update_missing_reaction_witness :
  ∃ before f after,
    StoichiometricCombustion._fuels
      (StoichiometricCombustion._updateFuels Examples.no_reactions
         (StoichiometricCombustion.set_reactants Examples.fresh
            [(Examples.CH4, Examples.frac 1 3);
             (Examples.oxygen, Examples.frac 2 3)]))
    = before ++ f :: after ∧
    Forall (λ c, ¬ StoichiometricCombustion.find_reaction
                     (reactions Examples.no_reactions) c Examples.oxygen
                   = None) before ∧
    StoichiometricCombustion.find_reaction
      (reactions Examples.no_reactions) f Examples.oxygen = None ∧
    StoichiometricCombustion._update Examples.no_reactions Examples.fresh
      [(Examples.CH4, Examples.frac 1 3); (Examples.oxygen, Examples.frac 2 3)]
    = (Raise (ValueError
                (StoichiometricCombustion.not_found_msg f Examples.oxygen)),
       StoichiometricCombustion._updateFuels Examples.no_reactions
         (StoichiometricCombustion.set_reactants Examples.fresh
            [(Examples.CH4, Examples.frac 1 3);
             (Examples.oxygen, Examples.frac 2 3)])).
Proof.
  apply (update_missing_reaction Examples.no_reactions Examples.fresh
           [(Examples.CH4, Examples.frac 1 3);
            (Examples.oxygen, Examples.frac 2 3)] Examples.CH4).
  - discriminate.
  - apply (bool_decide_unpack _). vm_compute. exact I.
  - reflexivity.
Defined.

(** C6 as stated fails when two fuels lack a reaction: the second one
    is an identified fuel without a reaction, and the error names the
    first one only. *)
Lemma update_missing_reaction_names_first_only :
  let reactants := [(Examples.CH4, Examples.frac 1 10);
                    (Examples.H2, Examples.frac 1 10);
                    (Examples.oxygen, Examples.frac 2 10);
                    (Examples.N2, Examples.frac 6 10)] in
  let self' := StoichiometricCombustion._updateFuels Examples.no_reactions
                 (StoichiometricCombustion.set_reactants Examples.fresh
                    reactants) in
  Examples.H2 ∈ StoichiometricCombustion._fuels self' ∧
  StoichiometricCombustion.find_reaction (reactions Examples.no_reactions)
    Examples.H2 Examples.oxygen = None ∧
  ¬ ∃ state,
      StoichiometricCombustion._update Examples.no_reactions Examples.fresh
        reactants
      = (Raise (ValueError (StoichiometricCombustion.not_found_msg
                              Examples.H2 Examples.oxygen)), state).
Proof.
  intros reactants self'. split_and!.
  - apply (bool_decide_unpack _). vm_compute. exact I.
  - reflexivity.
  - intros [state Hstate]. vm_compute in Hstate. discriminate Hstate.
Qed.

(** C9.  [fromDictionary] mutates the dictionary it is given.  When the
    dictionary holds ["reactants"] and no ["oxidizer"], a call that
    succeeds leaves the caller's dictionary with ["oxidizer"] bound to
    the default molecule [O2]: it differs from the dictionary passed in,
    and every other entry is what it was. *)
Theorem fromDictionary_inserts_oxidizer (database : Database)
    (dictionary dictionary' : gmap string pyval)
    (out : StoichiometricCombustion.t) :
  is_Some (dictionary !! "reactants") →
  dictionary !! "oxidizer" = None →
  StoichiometricCombustion.fromDictionary database dictionary
  = (Ok out, dictionary') →
  dictionary' = <["oxidizer" := VMolecule (O2 database)]> dictionary
  ∧ dictionary' !! "oxidizer" = Some (VMolecule (O2 database))
  ∧ dictionary' ≠ dictionary
  ∧ (∀ k, k ≠ "oxidizer" → dictionary' !! k = dictionary !! k)
  ∧ StoichiometricCombustion._oxidizer out = O2 database.
Proof.
  intros Hreactants Hoxidizer.
  unfold StoichiometricCombustion.fromDictionary.
  destruct (decide (is_Some (dictionary !! "reactants"))) as [_|[]]; [|done].
  destruct (decide (is_Some (dictionary !! "oxidizer"))) as [[? Hsome]|_].
  { by rewrite Hoxidizer in Hsome. }
  rewrite (lookup_insert_ne dictionary "oxidizer" "reactants") by done.
  rewrite lookup_insert_eq.
  destruct Hreactants as [reactants ->]. simpl.
  destruct reactants; simpl; intros [= <- <-].
  split_and!.
  - done.
  - by rewrite lookup_insert_eq.
  - intros Heq. apply (f_equal (λ m : gmap string pyval, m !! "oxidizer")) in Heq.
    rewrite lookup_insert_eq, Hoxidizer in Heq. discriminate.
  - intros k Hk. by rewrite lookup_insert_ne.
  - done.
Qed.

Lemma fromDictionary_inserts_oxidizer_witness :
  let dictionary : gmap string pyval :=
    {[ "reactants" := VMixture [(Examples.CH4, Examples.frac 1 3);
                               (Examples.oxygen, Examples.frac 2 3)] ]} in
  let dictionary' :=
    (StoichiometricCombustion.fromDictionary Examples.chemistry dictionary).2 in
  dictionary' = <["oxidizer" := VMolecule Examples.oxygen]> dictionary
  ∧ dictionary' !! "oxidizer" = Some (VMolecule Examples.oxygen)
  ∧ dictionary' ≠ dictionary
  ∧ (∀ k, k ≠ "oxidizer" → dictionary' !! k = dictionary !! k)
  ∧ StoichiometricCombustion._oxidizer
      (StoichiometricCombustion.mk Examples.oxygen
         [(Examples.CH4, Examples.frac 1 3);
          (Examples.oxygen, Examples.frac 2 3)] None [])
    = Examples.oxygen.
Proof.
  intros dictionary dictionary'.
  apply (fromDictionary_inserts_oxidizer Examples.chemistry dictionary
           dictionary'
           (StoichiometricCombustion.mk Examples.oxygen
              [(Examples.CH4, Examples.frac 1 3);
               (Examples.oxygen, Examples.frac 2 3)] None [])).
  - eexists. reflexivity.
  - reflexivity.
  - reflexivity.
Defined.

(** ** Mixtures *)

Module MixtureFacts.
Import Mixture.
Implicit Types (self other : Mixture.t) (s specie : Molecule) (f x : Qc).

Lemma contains_true self s : contains self s = true ↔ s ∈ species self.
Proof. unfold contains. by rewrite bool_decide_eq_true. Qed.

Lemma contains_false self s : contains self s = false ↔ s ∉ species self.
Proof. unfold contains. by rewrite bool_decide_eq_false. Qed.

Lemma contains_cons s0 x self s :
  contains ((s0, x) :: self) s = bool_decide (s0 = s) || contains self s.
Proof.
  unfold contains, species. simpl.
  destruct (decide (s0 = s)) as [->|Hne].
  - rewrite (bool_decide_eq_true_2 (s = s)) by done.
    apply bool_decide_eq_true_2. by left.
  - rewrite (bool_decide_eq_false_2 (s0 = s)) by done. simpl.
    apply bool_decide_ext. rewrite elem_of_cons. split; [|by right].
    by intros [?|?].
Qed.

Lemma X_absent self s : contains self s = false → X self s = 0%Qc.
Proof.
  induction self as [|[s0 x] self IH]; [done|].
  rewrite contains_cons. simpl. intros [H0 Hs]%orb_false_elim.
  apply bool_decide_eq_false in H0. rewrite decide_False by done. auto.
Qed.

Lemma X_app self other s :
  X (self ++ other) s = if contains self s then X self s else X other s.
Proof.
  induction self as [|[s0 x] self IH]; [done|].
  rewrite contains_cons. simpl.
  destruct (decide (s0 = s)) as [->|Hne].
  - by rewrite bool_decide_eq_true_2.
  - by rewrite bool_decide_eq_false_2.
Qed.

Lemma X_pure specie s :
  X (pure specie) s = if decide (specie = s) then 1%Qc else 0%Qc.
Proof. done. Qed.

Lemma X_elem_of self s x :
  NoDup (species self) → (s, x) ∈ self → X self s = x.
Proof.
  induction self as [|[s0 x0] self IH]; [by intros _ ?%elem_of_nil|].
  unfold species in *. simpl.
  intros [Hnotin Hnodup]%NoDup_cons [[= -> ->]|Hin]%elem_of_cons.
  - by rewrite decide_True.
  - rewrite decide_False; [by apply IH|].
    intros ->. apply Hnotin.
    by apply (list_elem_of_fmap_2 fst) in Hin.
Qed.

Lemma species_dilute_head self other f :
  species ((λ p, (p.1, (1 - f) * p.2 + f * X other p.1)%Qc) <$> self)
  = species self.
Proof. unfold species. by rewrite <- list_fmap_compose. Qed.

(** The mole fraction of every species after a dilution. *)
Lemma X_dilute self other f s :
  X (dilute self other f) s = ((1 - f) * X self s + f * X other s)%Qc.
Proof.
  unfold dilute. rewrite X_app.
  assert (contains ((λ p, (p.1, (1 - f) * p.2 + f * X other p.1)%Qc) <$> self) s
          = contains self s) as ->.
  { unfold contains. by rewrite species_dilute_head. }
  destruct (contains self s) eqn:Hin.
  - induction self as [|[s0 x0] self IH]; [done|].
    rewrite contains_cons in Hin. simpl.
    destruct (decide (s0 = s)) as [->|Hne]; [done|].
    rewrite bool_decide_eq_false_2 in Hin by done. by apply IH.
  - rewrite (X_absent _ _ Hin).
    induction other as [|[s0 x0] other IH]; [simpl; ring|].
    rewrite filter_cons. cbn [X].
    destruct (decide (s0 = s)) as [->|Hne].
    + rewrite decide_True by done. simpl. rewrite decide_True by done. ring.
    + case_decide; simpl; [rewrite decide_False by done|]; exact IH.
Qed.

Lemma X_dilute_specie self specie f s :
  X (dilute_specie self specie f) s
  = ((1 - f) * X self s + f * (if decide (specie = s) then 1 else 0))%Qc.
Proof. unfold dilute_specie. by rewrite X_dilute, X_pure. Qed.

End MixtureFacts.

(** ** The inerts *)

Module InertFacts.
Import StoichiometricCombustion MixtureFacts.
Implicit Types (rm todo reactants : Mixture.t) (s : Molecule).

Lemma py_div_Ok (a b q : Qc) :
  py_div a b = Ok q → b ≠ 0%Qc ∧ q = (a / b)%Qc.
Proof. unfold py_div. case_decide; [done|]. by intros [= <-]. Qed.

Lemma py_div_nonzero (a b : Qc) : b ≠ 0%Qc → py_div a b = Ok (a / b)%Qc.
Proof. intros Hb. unfold py_div. by rewrite decide_False. Qed.

Lemma inert_part_reacting rm s x todo :
  Mixture.contains rm s = true →
  inert_part ((s, x) :: todo) rm = inert_part todo rm.
Proof.
  intros Hin. unfold inert_part. rewrite filter_cons. simpl.
  rewrite decide_False; [done|]. by rewrite Hin.
Qed.

Lemma inert_part_inert rm s x todo :
  Mixture.contains rm s = false →
  inert_part ((s, x) :: todo) rm = (s, x) :: inert_part todo rm.
Proof.
  intros Hin. unfold inert_part. rewrite filter_cons. simpl.
  by rewrite decide_True.
Qed.

Lemma inert_amount_cons rm s0 x todo s :
  Mixture.contains rm s0 = false →
  inert_amount ((s0, x) :: todo) rm s
  = ((if decide (s0 = s) then x else 0) + inert_amount todo rm s)%Qc.
Proof.
  intros Hin. unfold inert_amount. rewrite inert_part_inert by done.
  rewrite filter_cons. simpl.
  destruct (decide (s0 = s)); simpl; [done|ring].
Qed.

Lemma inert_fraction_cons rm s0 x todo :
  Mixture.contains rm s0 = false →
  inert_fraction ((s0, x) :: todo) rm = (x + inert_fraction todo rm)%Qc.
Proof.
  intros Hin. unfold inert_fraction. by rewrite inert_part_inert.
Qed.

(** What the loop of lines 227-233 computes: [xInert] grows by the
    fraction of every inert species, and the amount [xInert * X] of each
    species in [inerts] grows by the fraction of its inert entries. *)
Lemma inert_loop_inv rm s todo inerts0 x0 inerts xI :
  inert_loop (Some rm) todo inerts0 x0 = Ok (inerts, xI) →
  (inerts0 = None → x0 = 0%Qc) →
  xI = (x0 + inert_fraction todo rm)%Qc
  ∧ (xI * X_opt inerts s
     = x0 * X_opt inerts0 s + inert_amount todo rm s)%Qc
  ∧ (inerts = None → xI = 0%Qc).
Proof.
  revert inerts0 x0.
  induction todo as [|[s1 x1] todo IH]; intros inerts0 x0; simpl.
  { intros [= <- <-] Hnone. split_and!; [| |done].
    - unfold inert_fraction. simpl. ring.
    - unfold inert_amount. simpl. ring. }
  destruct (Mixture.contains rm s1) eqn:Hs1; simpl.
  { intros Hloop Hnone. unfold inert_fraction, inert_amount.
    rewrite inert_part_reacting by done. by apply IH. }
  rewrite inert_amount_cons, inert_fraction_cons by done.
  destruct inerts0 as [mix|]; simpl.
  - destruct (py_div x1 (x0 + x1)) as [q|err] eqn:Hq; simpl; [|done].
    apply py_div_Ok in Hq as [Hden ->].
    intros Hloop _. apply IH in Hloop as (-> & Hamount & Hnone); [|done].
    split_and!; [ring| |done].
    rewrite Hamount. simpl. rewrite X_dilute_specie.
    destruct (decide (s1 = s)); field; done.
  - intros Hloop Hx0. rewrite (Hx0 eq_refl) in *.
    apply IH in Hloop as (-> & Hamount & Hnone); [|done].
    split_and!; [ring| |done].
    rewrite Hamount. simpl. destruct (decide (s1 = s)); ring.
Qed.

Lemma Qcsum_nonneg (l : list Qc) : Forall (λ x, 0 ≤ x)%Qc l → (0 ≤ Qcsum l)%Qc.
Proof.
  induction 1 as [|x l Hx _ IH]; simpl; [done|].
  by apply Qcplus_nonneg_nonneg.
Qed.

(** With positive mole fractions no division of the loop fails. *)
Lemma inert_loop_returns rm todo inerts0 x0 :
  positive_fractions todo → (0 ≤ x0)%Qc →
  ∃ inerts xI, inert_loop (Some rm) todo inerts0 x0 = Ok (inerts, xI).
Proof.
  intros Hpos. revert inerts0 x0.
  induction Hpos as [|[s1 x1] todo Hx1 _ IH]; intros inerts0 x0 Hx0; simpl.
  { by eexists _, _. }
  simpl in Hx1.
  assert (0 < x0 + x1)%Qc as Hsum by by apply Qcplus_nonneg_pos.
  destruct (Mixture.contains rm s1); simpl; [by apply IH|].
  destruct inerts0 as [mix|]; simpl.
  - rewrite py_div_nonzero; [|by apply Qclt_not_eq in Hsum].
    simpl. apply IH. by apply Qclt_le_weak.
  - apply IH. by apply Qclt_le_weak.
Qed.

Lemma filter_none {A} (P : A → Prop) `{!∀ a, Decision (P a)} (l : list A) :
  (∀ a, a ∈ l → ¬ P a) → filter P l = [].
Proof.
  induction l as [|a l IH]; intros Hl; [done|].
  rewrite filter_cons_False; [|apply Hl; by left].
  apply IH. intros b Hb. apply Hl. by right.
Qed.

(** An inert species that occurs once in the reactants. *)
Lemma inert_amount_elem_of rm reactants s x :
  NoDup (Mixture.species reactants) → (s, x) ∈ reactants →
  Mixture.contains rm s = false →
  inert_amount reactants rm s = x.
Proof.
  intros Hnodup Hin Hs. unfold inert_amount, inert_part.
  induction reactants as [|[s0 x0] reactants IH]; [by apply elem_of_nil in Hin|].
  unfold Mixture.species in *. simpl in Hnodup.
  apply NoDup_cons in Hnodup as [Hnotin Hnodup].
  rewrite filter_cons. simpl.
  apply elem_of_cons in Hin as [[= <- <-]|Hin].
  - rewrite decide_True by done. rewrite filter_cons, decide_True by done.
    simpl.
    assert (filter (λ p, p.1 = s)
              (filter (λ p, Mixture.contains rm p.1 = false)
                      (reactants : list (Molecule * Qc))) = []) as ->.
    { apply filter_none. intros [s' x'] [_ Hin']%list_elem_of_filter.
      simpl. intros ->. apply Hnotin.
      by apply (list_elem_of_fmap_2 fst) in Hin'. }
    simpl. ring.
  - assert (s0 ≠ s) as Hne.
    { intros ->. apply Hnotin. by apply (list_elem_of_fmap_2 fst) in Hin. }
    case_decide; [rewrite filter_cons, decide_False by done|]; by apply IH.
Qed.

End InertFacts.

(** ** The reacting compounds *)

Module ReactingFacts.
Import StoichiometricCombustion MixtureFacts.

(** Whether an active reaction of [oxReactions] holds the species. *)
Lemma scan_reactions_found self specie oxReactions activeReactions :
  (scan_reactions self specie oxReactions activeReactions).1
  = existsb (λ r, Mixture.contains (Reaction.reactants r.2) specie
                  && active self r.2) oxReactions.
Proof.
  unfold scan_reactions.
  assert (∀ found acts,
            (foldl (λ '(found, activeReactions) '(_, react),
                      if Mixture.contains (Reaction.reactants react) specie
                      then
                        if active self react then
                          (true,
                           if bool_decide (react ∈ activeReactions)
                           then activeReactions
                           else activeReactions ++ [react])
                        else (found, activeReactions)
                      else (found, activeReactions))
                   (found, acts) oxReactions).1
            = found
              || existsb (λ r, Mixture.contains (Reaction.reactants r.2) specie
                               && active self r.2) oxReactions) as Hgen.
  { induction oxReactions as [|[n react] oxReactions IH]; intros found acts.
    - simpl. by rewrite orb_false_r.
    - simpl.
      destruct (Mixture.contains (Reaction.reactants react) specie);
        [destruct (active self react)|]; simpl; rewrite IH; try done.
      by rewrite orb_true_r. }
  by rewrite Hgen.
Qed.

Lemma contains_dilute (mix other : Mixture.t) f s :
  Mixture.contains (Mixture.dilute mix other f) s
  = Mixture.contains mix s || Mixture.contains other s.
Proof.
  apply eq_true_iff_eq. rewrite orb_true_iff, !contains_true.
  unfold Mixture.dilute, Mixture.species.
  rewrite fmap_app, elem_of_app, <- !list_fmap_compose.
  rewrite (list_fmap_ext _ fst mix) by done.
  rewrite (list_fmap_ext _ fst (filter _ _)) by done.
  split.
  - intros [Hin|Hin]; [by left|right].
    apply list_elem_of_fmap in Hin as (p & -> & [_ Hp]%list_elem_of_filter).
    by apply (list_elem_of_fmap_2 fst) in Hp.
  - intros [Hin|Hin]; [by left|].
    destruct (Mixture.contains mix s) eqn:Hs.
    + left. by apply contains_true in Hs.
    + right. apply list_elem_of_fmap in Hin as (p & -> & Hp).
      apply list_elem_of_fmap. exists p. split; [done|].
      by apply list_elem_of_filter.
Qed.

(** A species that no active reaction holds is not in the reacting
    mixture. *)
Lemma reacting_loop_inert self oxReactions todo x0 rm0 acts0 xReact rm acts s :
  reacting_loop self oxReactions todo x0 rm0 acts0
  = Ok (xReact, Some rm, acts) →
  from_option (λ mix, Mixture.contains mix s) false rm0 = false →
  Forall (λ r, active self r.2 = true →
               Mixture.contains (Reaction.reactants r.2) s = false)
         oxReactions →
  Mixture.contains rm s = false.
Proof.
  intros Hloop Hrm0 Hinert. revert x0 rm0 acts0 Hloop Hrm0.
  induction todo as [|[s1 x1] todo IH]; intros x0 rm0 acts0; simpl.
  { intros [= -> -> ->]. done. }
  destruct (scan_reactions self s1 oxReactions acts0) as [found acts1] eqn:Hscan.
  assert (found = true → s1 ≠ s) as Hfound.
  { intros -> ->.
    pose proof (scan_reactions_found self s oxReactions acts0) as Hex.
    rewrite Hscan in Hex. simpl in Hex. symmetry in Hex.
    apply existsb_exists in Hex as (r & Hr & [Hin Hact]%andb_true_iff).
    rewrite List.Forall_forall in Hinert.
    by rewrite (Hinert r Hr Hact) in Hin. }
  destruct found; [|by apply IH].
  specialize (Hfound eq_refl).
  destruct rm0 as [mix|]; simpl.
  - destruct (py_div x1 (x0 + x1)) as [q|err]; simpl; [|done].
    intros Hloop Hmix. eapply IH; [exact Hloop|]. simpl.
    unfold Mixture.dilute_specie. rewrite contains_dilute, Hmix. simpl.
    apply contains_false. unfold Mixture.pure, Mixture.species. simpl.
    by intros [?|?%elem_of_nil]%elem_of_cons.
  - intros Hloop _. eapply IH; [exact Hloop|]. simpl.
    apply contains_false. unfold Mixture.pure, Mixture.species. simpl.
    by intros [?|?%elem_of_nil]%elem_of_cons.
Qed.

End ReactingFacts.

(** C8 (amended).  In an update that burns something, take a species
    of the reactants that no active oxidation reaction holds among its
    reactants.  The reacting mixture does not hold it (it is an inert),
    and it ends in the products at [(1 - xInert) * X_pre + X_reactants]:
    its mole fraction in the reactants, plus what the products hold of
    it before the inerts are added back, scaled by [1 - xInert].  It
    keeps the mole fraction it had in the reactants when the products
    of the reacting part do not hold it.  [xInert] is the total mole
    fraction of the inerts. *)
Theorem inert_mole_fraction (database : Database)
    (self : StoichiometricCombustion.t) (reactants : Mixture.t)
    (oxReactions : list (string * Reaction.t)) (xReact : Qc)
    (reactingMix : Mixture.t) (activeReactions : list Reaction.t)
    (pre : Mixture.t) (s : Molecule) (x : Qc) :
  let self' := StoichiometricCombustion._updateFuels database
                 (StoichiometricCombustion.set_reactants self reactants) in
  let xInert := inert_fraction reactants reactingMix in
  reactants ≠ StoichiometricCombustion._reactants self →
  NoDup (Mixture.species reactants) →
  positive_fractions reactants →
  StoichiometricCombustion.oxidation_reactions database
    (StoichiometricCombustion._oxidizer self)
    (StoichiometricCombustion._fuels self') [] = Ok oxReactions →
  StoichiometricCombustion.reacting_loop self' oxReactions reactants
    0%Qc None [] = Ok (xReact, Some reactingMix, activeReactions) →
  StoichiometricCombustion.reacted_products database self' oxReactions
    reactingMix = Ok pre →
  (s, x) ∈ reactants →
  Forall (λ r, StoichiometricCombustion.active self' r.2 = true →
               Mixture.contains (Reaction.reactants r.2) s = false)
         oxReactions →
  ∃ products,
    StoichiometricCombustion._update database self reactants
    = (Ok StoichiometricCombustion.RetFalse,
       StoichiometricCombustion.set_products self' products)
    ∧ Mixture.contains reactingMix s = false
    ∧ Mixture.X products s = ((1 - xInert) * Mixture.X pre s + x)%Qc
    ∧ (Mixture.contains pre s = false → Mixture.X products s = x).
Proof.
  intros self' xInert Hne Hnodup Hpos Hox Hreact Hpre Hin Hnone_active.
  assert (Mixture.contains reactingMix s = false) as Hinert.
  { by eapply (ReactingFacts.reacting_loop_inert self' oxReactions reactants
                 0%Qc None []). }
  destruct (InertFacts.inert_loop_returns reactingMix reactants None 0%Qc)
    as (inerts & xI & Hloop); [done..|].
  destruct (InertFacts.inert_loop_inv _ s _ _ _ _ _ Hloop)
    as (HxI & Hamount & Hnone); [done|].
  rewrite (InertFacts.inert_amount_elem_of _ _ _ x) in Hamount by done.
  rewrite Qcplus_0_l in HxI. fold xInert in HxI. subst xI.
  simpl in Hamount. rewrite Qcmult_0_l, Qcplus_0_l in Hamount.
  assert (0 < x)%Qc as Hx.
  { unfold positive_fractions in Hpos. rewrite Forall_forall in Hpos.
    by apply (Hpos (s, x)). }
  destruct inerts as [inerts|]; simpl in Hamount.
  2: { rewrite Qcmult_0_r in Hamount. subst x. by apply Qclt_not_eq in Hx. }
  exists (Mixture.dilute pre inerts xInert).
  assert (Mixture.X (Mixture.dilute pre inerts xInert) s
          = ((1 - xInert) * Mixture.X pre s + x)%Qc) as HX.
  { by rewrite MixtureFacts.X_dilute, Hamount. }
  split_and!.
  - rewrite UpdateFacts._update_changed by done. simpl. fold self'.
    unfold StoichiometricCombustion.balance.
    change (StoichiometricCombustion._oxidizer self')
      with (StoichiometricCombustion._oxidizer self).
    rewrite Hox. simpl.
    change (StoichiometricCombustion._reactants self') with reactants.
    rewrite Hreact. simpl. rewrite Hloop. simpl. by rewrite Hpre.
  - done.
  - done.
  - intros Habsent. rewrite HX, (MixtureFacts.X_absent _ _ Habsent). ring.
Qed.

Lemma inert_mole_fraction_witness :
  ∃ products,
    StoichiometricCombustion._update Examples.chemistry Examples.fresh
      [(Examples.CH4, Examples.frac 1 10);
       (Examples.oxygen, Examples.frac 2 10);
       (Examples.N2, Examples.frac 7 10)]
    = (Ok StoichiometricCombustion.RetFalse,
       StoichiometricCombustion.set_products
         (StoichiometricCombustion._updateFuels Examples.chemistry
            (StoichiometricCombustion.set_reactants Examples.fresh
               [(Examples.CH4, Examples.frac 1 10);
                (Examples.oxygen, Examples.frac 2 10);
                (Examples.N2, Examples.frac 7 10)])) products)
    ∧ Mixture.X products Examples.N2 = Examples.frac 7 10.
Proof.
  destruct (inert_mole_fraction Examples.chemistry Examples.fresh
              [(Examples.CH4, Examples.frac 1 10);
               (Examples.oxygen, Examples.frac 2 10);
               (Examples.N2, Examples.frac 7 10)]
              [("CH4", Examples.CH4_oxidation)]
              (Examples.frac 3 10)
              [(Examples.CH4, Examples.frac 1 3);
               (Examples.oxygen, Examples.frac 2 3)]
              [Examples.CH4_oxidation]
              [(Examples.CO2, Examples.frac 1 3);
               (Examples.H2O, Examples.frac 2 3)]
              Examples.N2 (Examples.frac 7 10))
    as (products & Hupdate & _ & _ & Hsame).
  - discriminate.
  - apply (bool_decide_unpack _). vm_compute. exact I.
  - apply (bool_decide_unpack _). vm_compute. exact I.
  - apply (bool_decide_unpack _). vm_compute. exact I.
  - apply (bool_decide_unpack _). vm_compute. exact I.
  - apply (bool_decide_unpack _). vm_compute. exact I.
  - apply (bool_decide_unpack _). vm_compute. exact I.
  - apply (bool_decide_unpack _). vm_compute. exact I.
  - exists products. split; [exact Hupdate|]. apply Hsame. reflexivity.
Defined.

(** C8 as stated fails for an inert that the reactions also produce:
    CO2 carried by the reactants is a reactant of no reaction, and the
    products hold more of it than the reactants did. *)
Lemma inert_also_produced :
  let reactants := [(Examples.CH4, Examples.frac 1 10);
                    (Examples.oxygen, Examples.frac 2 10);
                    (Examples.CO2, Examples.frac 7 10)] in
  Forall (λ r, Mixture.contains (Reaction.reactants r.2) Examples.CO2 = false)
         (reactions Examples.chemistry)
  ∧ Mixture.X reactants Examples.CO2 = Examples.frac 7 10
  ∧ ∃ self' products,
      StoichiometricCombustion._update Examples.chemistry Examples.fresh
        reactants = (Ok StoichiometricCombustion.RetFalse, self')
      ∧ StoichiometricCombustion._products self' = Some products
      ∧ Mixture.X products Examples.CO2 = Examples.frac 4 5
      ∧ Mixture.X products Examples.CO2 ≠ Mixture.X reactants Examples.CO2.
Proof.
  intros reactants. split_and!.
  - apply (bool_decide_unpack _). vm_compute. exact I.
  - reflexivity.
  - exists (StoichiometricCombustion._update Examples.chemistry Examples.fresh
              reactants).2.
    exists (default [] (StoichiometricCombustion._products
                          (StoichiometricCombustion._update Examples.chemistry
                             Examples.fresh reactants).2)).
    split_and!; apply (bool_decide_unpack _); vm_compute; exact I.
Qed.

(** ** The lean/rich correction *)

Module ExcessFacts.

Lemma rel_tol_nonneg : (0 ≤ rel_tol)%Qc.
Proof. apply (bool_decide_unpack _). vm_compute. exact I. Qed.

Lemma Qcmax_abs_nonneg (a b : Qc) : (0 ≤ Qcmax (Qcabs a) (Qcabs b))%Qc.
Proof. unfold Qcmax. case_decide; apply Qcabs_nonneg. Qed.

Lemma Qcmax_0_r (a : Qc) : (0 ≤ a)%Qc → Qcmax a 0 = a.
Proof.
  intros Ha. unfold Qcmax. case_decide; [|done].
  by apply Qcle_antisym.
Qed.

(** [isclose] is the relative test: with [abs_tol = 0] the absolute
    tolerance never decides. *)
Lemma isclose_spec (a b : Qc) :
  isclose a b = true
  ↔ (Qcabs (a - b) ≤ rel_tol * Qcmax (Qcabs a) (Qcabs b))%Qc.
Proof.
  unfold isclose. rewrite bool_decide_eq_true.
  rewrite Qcmax_0_r; [done|].
  apply Qcmult_nonneg_nonneg; [apply rel_tol_nonneg|apply Qcmax_abs_nonneg].
Qed.

Lemma isclose_false (a b : Qc) :
  isclose a b = false
  ↔ ¬ (Qcabs (a - b) ≤ rel_tol * Qcmax (Qcabs a) (Qcabs b))%Qc.
Proof. by rewrite <- isclose_spec, not_true_iff_false. Qed.

End ExcessFacts.

(** C3.  The lean/rich correction of [_update].  With [ideal] the mole
    fraction of the oxidizer in the stoichiometric blend of the
    reactants and [actual] the one in the reacting mixture: when the two
    are not close and [actual] exceeds [ideal], the products are diluted
    with the pure oxidizer at mole fraction [actual - ideal]; when they
    are not close and [actual] is below [ideal], with the fuel-only
    sub-mixture at [ideal - actual]; when they are close within the
    relative tolerance the step leaves the blended products as they
    are. *)
Theorem excess_step_cases (database : Database)
    (self : StoichiometricCombustion.t)
    (reactingMix stoichReactingMix prods : Mixture.t) (ideal actual : Qc) :
  let oxidizer := StoichiometricCombustion._oxidizer self in
  let close :=
    (Qcabs (ideal - actual) ≤ rel_tol * Qcmax (Qcabs ideal) (Qcabs actual))%Qc in
  let step :=
    StoichiometricCombustion.excess_step
      (StoichiometricCombustion.fuel database self) oxidizer
      reactingMix stoichReactingMix prods in
  Mixture.getX stoichReactingMix oxidizer = Ok ideal →
  Mixture.getX reactingMix oxidizer = Ok actual →
  (¬ close → (ideal < actual)%Qc →
   step = Ok (Mixture.dilute prods (Mixture.pure oxidizer) (actual - ideal)%Qc))
  ∧ (¬ close → (actual < ideal)%Qc →
     ∀ fuelMix, StoichiometricCombustion.fuel database self = Ok fuelMix →
     step = Ok (Mixture.dilute prods fuelMix (ideal - actual)%Qc))
  ∧ (close → step = Ok prods).
Proof.
  intros oxidizer close step Hideal Hactual.
  unfold step, StoichiometricCombustion.excess_step.
  rewrite Hideal, Hactual. simpl.
  split_and!.
  - intros Hfar%ExcessFacts.isclose_false Hlt.
    rewrite Hfar. simpl. by rewrite decide_True.
  - intros Hfar%ExcessFacts.isclose_false Hlt fuelMix ->.
    rewrite Hfar. simpl. rewrite decide_False; [done|].
    by apply Qcle_not_lt, Qclt_le_weak.
  - intros Hclose%ExcessFacts.isclose_spec. by rewrite Hclose.
Qed.

Lemma excess_step_cases_witness :
  let self := StoichiometricCombustion._updateFuels Examples.chemistry
                (StoichiometricCombustion.set_reactants Examples.fresh
                   [(Examples.CH4, Examples.frac 1 10);
                    (Examples.oxygen, Examples.frac 3 10);
                    (Examples.N2, Examples.frac 6 10)]) in
  let reactingMix := [(Examples.CH4, Examples.frac 1 4);
                      (Examples.oxygen, Examples.frac 3 4)] in
  let prods := Reaction.products Examples.CH4_oxidation in
  let ideal := Examples.frac 2 3 in
  let actual := Examples.frac 3 4 in
  let close :=
    (Qcabs (ideal - actual) ≤ rel_tol * Qcmax (Qcabs ideal) (Qcabs actual))%Qc in
  let step :=
    StoichiometricCombustion.excess_step
      (StoichiometricCombustion.fuel Examples.chemistry self) Examples.oxygen
      reactingMix (Reaction.reactants Examples.CH4_oxidation) prods in
  (¬ close → (ideal < actual)%Qc →
   step = Ok (Mixture.dilute prods (Mixture.pure Examples.oxygen)
                (actual - ideal)%Qc))
  ∧ (¬ close → (actual < ideal)%Qc →
     ∀ fuelMix,
       StoichiometricCombustion.fuel Examples.chemistry self = Ok fuelMix →
       step = Ok (Mixture.dilute prods fuelMix (ideal - actual)%Qc))
  ∧ (close → step = Ok prods).
Proof.
  intros self reactingMix prods ideal actual.
  apply (excess_step_cases Examples.chemistry self reactingMix
           (Reaction.reactants Examples.CH4_oxidation) prods ideal actual).
  - apply (bool_decide_unpack _). vm_compute. exact I.
  - apply (bool_decide_unpack _). vm_compute. exact I.
Defined.

(** ** Arrays *)

Module npFacts.
Import np.
Implicit Types (M A : list (list Qc)) (row col l : list Qc).

Lemma tabulate l : (λ j, default 0%Qc (l !! j)) <$> seq 0 (length l) = l.
Proof.
  apply list_eq. intros i. rewrite list_lookup_fmap.
  destruct (decide (i < length l)) as [Hi|Hi].
  - rewrite lookup_seq_lt by done. simpl.
    destruct (lookup_lt_is_Some_2 l i Hi) as [x ->]. done.
  - rewrite lookup_seq_ge by lia. simpl.
    symmetry. apply lookup_ge_None. lia.
Qed.

Lemma length_T_row row M :
  M ≠ [] → length (T (row :: M)) = min (length row) (length (T M)).
Proof.
  intros HM. simpl. destruct M as [|row' M]; [done|].
  by rewrite length_zip_with.
Qed.

(** The transpose is the list of the columns. *)
Lemma T_columns c M :
  M ≠ [] → rect c M → T M = (λ j, column j M) <$> seq 0 c.
Proof.
  induction M as [|row M IH]; [done|]. intros _ Hrect.
  apply Forall_cons in Hrect as [Hrow Hrect].
  destruct M as [|row' M].
  { simpl. rewrite <- Hrow. rewrite <- (tabulate row) at 1.
    rewrite <- list_fmap_compose. done. }
  change (T (row :: row' :: M)) with (zip_with cons row (T (row' :: M))).
  rewrite IH by done.
  apply list_eq. intros i.
  rewrite lookup_zip_with, !list_lookup_fmap.
  destruct (decide (i < c)) as [Hi|Hi].
  - rewrite lookup_seq_lt by done. simpl.
    destruct (lookup_lt_is_Some_2 row i) as [x Hx]; [lia|].
    by rewrite Hx.
  - rewrite lookup_seq_ge by lia. simpl.
    by destruct (row !! i).
Qed.

Lemma column_c_last r A col :
  rect r A → length A = length col → column r (c_ A col) = col.
Proof.
  intros Hrect. revert col.
  induction Hrect as [|a A Ha _ IH]; intros [|x col]; try done.
  intros [= Hlen]. unfold column, c_ in *. simpl.
  rewrite lookup_app_r by lia. rewrite Ha, Nat.sub_diag. simpl.
  f_equal. by apply IH.
Qed.

Lemma column_c_lt r A col i :
  rect r A → length A = length col → i < r →
  column i (c_ A col) = column i A.
Proof.
  intros Hrect. revert col.
  induction Hrect as [|a A Ha _ IH]; intros [|x col]; try done.
  intros [= Hlen] Hi. unfold column, c_ in *. simpl.
  rewrite lookup_app_l by lia. f_equal. by apply IH.
Qed.

Lemma column_columns c A i a :
  rect c A → A !! i = Some a →
  column i ((λ j, column j A) <$> seq 0 c) = a.
Proof.
  intros Hrect Ha.
  unfold column. rewrite <- list_fmap_compose.
  assert (length a = c) as <-.
  { unfold rect in Hrect. rewrite Forall_lookup in Hrect. by eapply Hrect. }
  rewrite <- (tabulate a) at 2.
  apply list_fmap_ext. intros _ j _. simpl.
  by rewrite list_lookup_fmap, Ha.
Qed.

Lemma length_column j M : length (column j M) = length M.
Proof. unfold column. by rewrite length_fmap. Qed.

(** Appending a column to the transpose appends a row. *)
Lemma T_c_T c A row :
  A ≠ [] → rect c A → 0 < c → length row = c →
  T (c_ (T A) row) = A ++ [row].
Proof.
  intros HA Hrect Hc Hrow.
  rewrite (T_columns c A) by done.
  set (TA := (λ j, column j A) <$> seq 0 c).
  assert (length TA = c) as HlenTA.
  { unfold TA. by rewrite length_fmap, length_seq. }
  assert (rect (length A) TA) as HrectTA.
  { unfold rect, TA. rewrite Forall_fmap. apply Forall_forall.
    intros j _. simpl. apply length_column. }
  assert (rect (S (length A)) (c_ TA row)) as HrectB.
  { unfold rect, c_. apply Forall_forall. intros b Hb.
    apply list_elem_of_lookup in Hb as [i Hb].
    rewrite lookup_zip_with in Hb.
    destruct (TA !! i) as [a|] eqn:Ha; [|done]. simpl in Hb.
    destruct (row !! i) as [x|]; [|done]. simpl in Hb.
    injection Hb as <-. rewrite length_app. simpl.
    unfold rect in HrectTA. rewrite Forall_lookup in HrectTA.
    rewrite (HrectTA _ _ Ha). lia. }
  assert (c_ TA row ≠ []) as HB.
  { intros HB. apply (f_equal length) in HB.
    unfold c_ in HB. rewrite length_zip_with in HB. simpl in HB. lia. }
  rewrite (T_columns (S (length A)) (c_ TA row)) by done.
  rewrite seq_S, fmap_app. simpl.
  rewrite (column_c_last (length A)) by (done || lia).
  f_equal.
  apply list_eq. intros i. rewrite list_lookup_fmap.
  destruct (decide (i < length A)) as [Hi|Hi].
  - rewrite lookup_seq_lt by done. simpl.
    rewrite (column_c_lt (length A)) by (done || lia).
    destruct (lookup_lt_is_Some_2 A i Hi) as [a Ha].
    unfold TA. by rewrite (column_columns c A i a Hrect Ha).
  - rewrite lookup_seq_ge by lia. simpl.
    symmetry. apply lookup_ge_None. lia.
Qed.

End npFacts.

(** ** The linear system *)

Module SystemFacts.
Import StoichiometricCombustion MixtureFacts npFacts.

Lemma name_inj (f g : Molecule) : name f = name g → f = g.
Proof. destruct f, g. simpl. by intros ->. Qed.

Lemma find_reaction_Some rs f oxidizer react :
  find_reaction rs f oxidizer = Some react →
  Mixture.contains (Reaction.reactants react) f = true
  ∧ Mixture.contains (Reaction.reactants react) oxidizer = true
  ∧ react ∈ rs.*2.
Proof.
  induction rs as [|[n r] rs IH]; [done|]. simpl.
  destruct (Mixture.contains (Reaction.reactants r) f
            && Mixture.contains (Reaction.reactants r) oxidizer) eqn:Hr.
  - intros [= <-]. apply andb_true_iff in Hr as [? ?].
    split_and!; [done..|by left].
  - intros (? & ? & ?)%IH. split_and!; [done..|by right].
Qed.

Section WithDatabase.
Context (database : Database).

(** [oxReactions[f.name]] is the reaction found for the fuel [f]. *)
Lemma oxidation_reactions_lookup oxidizer fuels acc oxReactions f :
  oxidation_reactions database oxidizer fuels acc = Ok oxReactions →
  dict_get oxReactions (name f) =
  if decide (f ∈ fuels)
  then find_reaction (reactions database) f oxidizer
  else dict_get acc (name f).
Proof.
  revert acc. induction fuels as [|g fuels IH]; intros acc; simpl.
  { by intros [= <-]. }
  destruct (find_reaction (reactions database) g oxidizer) as [react|] eqn:Hg;
    [|done].
  intros Hrest. rewrite (IH _ Hrest).
  destruct (decide (f ∈ fuels)) as [Hin|Hnotin].
  - rewrite decide_True; [done|by right].
  - rewrite dict_get_set.
    destruct (decide (f = g)) as [->|Hne].
    + rewrite decide_True by done. rewrite decide_True; [done|by left].
    + rewrite decide_False by (by intros ?%name_inj).
      rewrite decide_False; [done|]. by intros [?|?]%elem_of_cons.
Qed.

Lemma oxidation_reactions_found oxidizer fuels acc oxReactions f :
  oxidation_reactions database oxidizer fuels acc = Ok oxReactions →
  f ∈ fuels →
  is_Some (find_reaction (reactions database) f oxidizer).
Proof.
  revert acc. induction fuels as [|g fuels IH]; intros acc; simpl.
  { by intros _ ?%elem_of_nil. }
  destruct (find_reaction (reactions database) g oxidizer) as [react|] eqn:Hg;
    [|done].
  intros Hrest [->|Hin]%elem_of_cons; [by rewrite Hg|by eapply IH].
Qed.

(** The reaction of a fuel, as the system reads it. *)
Lemma oxReactions_getitem oxidizer fuels oxReactions f :
  oxidation_reactions database oxidizer fuels [] = Ok oxReactions →
  f ∈ fuels →
  ∃ react,
    find_reaction (reactions database) f oxidizer = Some react
    ∧ dict_getitem oxReactions (name f) = Ok react.
Proof.
  intros Hox Hin.
  destruct (oxidation_reactions_found _ _ _ _ _ Hox Hin) as [react Hreact].
  exists react. split; [done|].
  unfold dict_getitem.
  rewrite (oxidation_reactions_lookup _ _ _ _ f Hox).
  by rewrite decide_True, Hreact.
Qed.

Lemma stoich_diagonal_Ok oxidizer fuels0 oxReactions fuels :
  oxidation_reactions database oxidizer fuels0 [] = Ok oxReactions →
  fuels ⊆ fuels0 →
  stoich_diagonal oxReactions fuels
  = Ok (fuel_in_reaction database oxidizer <$> fuels).
Proof.
  intros Hox. unfold stoich_diagonal.
  induction fuels as [|f fuels IH]; intros Hsub; simpl; [done|].
  rewrite IH by (intros g Hg; apply Hsub; by right).
  destruct (oxReactions_getitem _ _ _ f Hox) as (react & Hfind & ->);
    [apply Hsub; by left|].
  simpl. unfold Mixture.getX.
  destruct (find_reaction_Some _ _ _ _ Hfind) as (-> & _ & _).
  simpl. unfold fuel_in_reaction. by rewrite Hfind.
Qed.

Lemma stoich_column_Ok (fuelMix : Mixture.t) fuels :
  fuels ⊆ Mixture.species fuelMix →
  stoich_column fuelMix fuels = Ok ((λ f, (- Mixture.X fuelMix f)%Qc) <$> fuels).
Proof.
  unfold stoich_column.
  induction fuels as [|f fuels IH]; intros Hsub; simpl; [done|].
  rewrite IH by (intros g Hg; apply Hsub; by right).
  unfold Mixture.getX.
  rewrite (proj2 (contains_true fuelMix f)); [done|apply Hsub; by left].
Qed.

(** Keeping the entries whose species is a fuel keeps the fuels. *)
Lemma filter_species (P : Molecule → Prop) `{!∀ s, Decision (P s)}
    (S : list Molecule) (l : list (Molecule * Qc)) :
  (∀ p, p ∈ l → p.1 ∈ S ↔ P p.1) →
  (filter (λ p, p.1 ∈ S) l).*1 = filter P l.*1.
Proof.
  induction l as [|p l IH]; intros HS; [done|].
  rewrite fmap_cons, !filter_cons.
  assert ((filter (λ p, p.1 ∈ S) l).*1 = filter P l.*1) as IH'.
  { apply IH. intros q Hq. apply HS. by right. }
  destruct (HS p) as [H1 H2]; [by left|].
  destruct (decide (p.1 ∈ S)), (decide (P p.1)); try tauto.
  by rewrite fmap_cons, IH'.
Qed.

(** The species of the fuel-only sub-mixture are the identified fuels. *)
Lemma fuel_species self0 fuelMix :
  fuel database (_updateFuels database self0) = Ok fuelMix →
  Mixture.species fuelMix = _fuels (_updateFuels database self0).
Proof.
  unfold fuel, Mixture.extract. simpl.
  case_decide; [done|]. intros [= <-].
  unfold Mixture.species. rewrite <- list_fmap_compose. simpl.
  etrans; [by apply (list_fmap_ext _ fst)|].
  apply filter_species. intros p Hp. rewrite list_elem_of_filter.
  split; [by intros [? _]|]. intros HP. split; [done|].
  by apply (list_elem_of_fmap_2 fst) in Hp.
Qed.

End WithDatabase.
End SystemFacts.

Module MatrixFacts.
Import np npFacts.

Lemma diag_row_length (i n : nat) (x : Qc) :
  i < n →
  length (replicate i 0%Qc ++ x :: replicate (n - S i) 0%Qc) = n.
Proof.
  intros Hi. rewrite length_app, length_replicate. simpl.
  rewrite length_replicate. lia.
Qed.

Lemma diag_row_lookup (i n : nat) (x : Qc) (j : nat) :
  i < n → j < n →
  (replicate i 0%Qc ++ x :: replicate (n - S i) 0%Qc) !! j
  = Some (if decide (j = i) then x else 0%Qc).
Proof.
  intros Hi Hj. destruct (decide (j < i)) as [Hlt|Hge].
  - rewrite lookup_app_l by (rewrite length_replicate; lia).
    rewrite lookup_replicate_2 by done. by rewrite decide_False by lia.
  - rewrite lookup_app_r by (rewrite length_replicate; lia).
    rewrite length_replicate.
    destruct (decide (j = i)) as [->|Hne].
    + by rewrite Nat.sub_diag.
    + destruct (j - i) as [|k] eqn:Hk; [lia|]. simpl.
      apply lookup_replicate_2. lia.
Qed.

Lemma diag_lookup (d : list Qc) (i : nat) (x : Qc) :
  d !! i = Some x →
  diag d !! i = Some (replicate i 0%Qc ++ x :: replicate (length d - S i) 0%Qc).
Proof. intros Hx. unfold diag. by rewrite list_lookup_imap, Hx. Qed.

Lemma c_diag_lookup (d col : list Qc) (i : nat) (x y : Qc) :
  d !! i = Some x → col !! i = Some y →
  c_ (diag d) col !! i
  = Some ((replicate i 0%Qc ++ x :: replicate (length d - S i) 0%Qc) ++ [y]).
Proof.
  intros Hx Hy. unfold c_.
  by rewrite lookup_zip_with, (diag_lookup _ _ _ Hx), Hy.
Qed.

Lemma length_diag (d : list Qc) : length (diag d) = length d.
Proof. unfold diag. by rewrite length_imap. Qed.

Lemma rect_c_diag (d col : list Qc) :
  length col = length d → rect (S (length d)) (c_ (diag d) col).
Proof.
  intros Hlen. unfold rect. apply Forall_lookup. intros i row Hrow.
  assert (i < length d) as Hi.
  { apply lookup_lt_Some in Hrow. unfold c_ in Hrow.
    rewrite length_zip_with, length_diag in Hrow. lia. }
  destruct (lookup_lt_is_Some_2 d i Hi) as [x Hx].
  destruct (lookup_lt_is_Some_2 col i) as [y Hy]; [lia|].
  rewrite (c_diag_lookup _ _ _ _ _ Hx Hy) in Hrow. injection Hrow as <-.
  rewrite length_app, diag_row_length by done. simpl. lia.
Qed.

(** The matrix of lines 284-286 is the diagonal block with the column
    appended, followed by the row of ones and a zero. *)
Lemma system_matrix (d col : list Qc) (n : nat) :
  length d = n → length col = n → 0 < n →
  T (c_ (T (c_ (diag d) col)) (replicate n 1%Qc ++ [0%Qc]))
  = c_ (diag d) col ++ [replicate n 1%Qc ++ [0%Qc]].
Proof.
  intros Hd Hcol Hn.
  apply (T_c_T (S n)).
  - intros Hnil. apply (f_equal length) in Hnil. unfold c_ in Hnil.
    rewrite length_zip_with, length_diag in Hnil. simpl in Hnil. lia.
  - rewrite <- Hd. apply rect_c_diag. lia.
  - lia.
  - rewrite length_app, length_replicate. simpl. lia.
Qed.

(** The right-hand side of line 287 is the column of zeros closed by a
    one. *)
Lemma system_rhs (n : nat) :
  T (c_ (zeros 1 n) [1%Qc]) = replicate n [0%Qc] ++ [[1%Qc]].
Proof.
  unfold zeros, c_. simpl. by rewrite fmap_app, fmap_replicate.
Qed.

End MatrixFacts.

(** C2 (amended).  The system of the stoichiometric blend, for the [n]
    fuels identified in the reactants ([n] at least one).  [M] has
    [n + 1] rows of [n + 1] entries.  In row [i], the row of fuel [f],
    the diagonal entry is the mole fraction of the fuel [f] in the
    reactants of its own oxidation reaction, the other entries of the
    [c]-block are zero, and the last entry is minus the mole fraction of
    [f] in the fuel-only sub-mixture.  The last row is ones for the
    [c]-block and zero for [f].  The right-hand side is zeros closed by
    a one. *)
Theorem stoich_system_entries (database : Database)
    (self0 : StoichiometricCombustion.t)
    (oxReactions : list (string * Reaction.t)) (fuelMix : Mixture.t) :
  let self := StoichiometricCombustion._updateFuels database self0 in
  let fuels := StoichiometricCombustion._fuels self in
  let oxidizer := StoichiometricCombustion._oxidizer self in
  let n := length fuels in
  StoichiometricCombustion.oxidation_reactions database oxidizer fuels []
  = Ok oxReactions →
  StoichiometricCombustion.fuel database self = Ok fuelMix →
  fuels ≠ [] →
  ∃ M,
    StoichiometricCombustion.stoich_M oxReactions fuels fuelMix = Ok M
    ∧ length M = S n
    ∧ rect (S n) M
    ∧ (∀ i f, fuels !! i = Some f →
         entry M i i = Some (fuel_in_reaction database oxidizer f)
         ∧ (∀ j, j < n → j ≠ i → entry M i j = Some 0%Qc)
         ∧ entry M i n = Some (- Mixture.X fuelMix f)%Qc)
    ∧ (∀ j, j < n → entry M n j = Some 1%Qc)
    ∧ entry M n n = Some 0%Qc
    ∧ StoichiometricCombustion.stoich_v fuelMix
      = replicate n [0%Qc] ++ [[1%Qc]].
Proof.
  intros self fuels oxidizer n Hox Hfuel Hfuels.
  pose proof (SystemFacts.fuel_species database self0 fuelMix Hfuel)
    as Hspecies.
  fold self in Hspecies. fold fuels in Hspecies.
  assert (length fuelMix = n) as HlenMix.
  { unfold n. rewrite <- Hspecies. unfold Mixture.species.
    by rewrite length_fmap. }
  assert (0 < n) as Hn.
  { unfold n. destruct fuels; [done|simpl; lia]. }
  set (d := fuel_in_reaction database oxidizer <$> fuels).
  set (col := (λ f, (- Mixture.X fuelMix f)%Qc) <$> fuels).
  assert (length d = n) as Hd by (unfold d; by rewrite length_fmap).
  assert (length col = n) as Hcol by (unfold col; by rewrite length_fmap).
  set (last_row := replicate n 1%Qc ++ [0%Qc]).
  exists (np.c_ (np.diag d) col ++ [last_row]).
  assert (length (np.c_ (np.diag d) col) = n) as HlenA.
  { unfold np.c_. rewrite length_zip_with, MatrixFacts.length_diag. lia. }
  split_and!.
  - unfold StoichiometricCombustion.stoich_M.
    rewrite (SystemFacts.stoich_diagonal_Ok database oxidizer fuels) by done.
    simpl. rewrite SystemFacts.stoich_column_Ok by by rewrite Hspecies.
    simpl. fold d col. rewrite HlenMix.
    by rewrite (MatrixFacts.system_matrix d col n).
  - rewrite length_app. simpl. lia.
  - unfold rect. apply Forall_app. split.
    + rewrite <- Hd. apply MatrixFacts.rect_c_diag. lia.
    + apply Forall_singleton. unfold last_row.
      rewrite length_app, length_replicate. simpl. lia.
  - intros i f Hf.
    assert (i < n) as Hi by (by apply lookup_lt_Some in Hf).
    assert (d !! i = Some (fuel_in_reaction database oxidizer f)) as Hdi.
    { unfold d. by rewrite list_lookup_fmap, Hf. }
    assert (col !! i = Some (- Mixture.X fuelMix f)%Qc) as Hci.
    { unfold col. by rewrite list_lookup_fmap, Hf. }
    assert (∀ j, entry (np.c_ (np.diag d) col ++ [last_row]) i j
                 = ((replicate i 0%Qc
                     ++ fuel_in_reaction database oxidizer f
                        :: replicate (n - S i) 0%Qc)
                    ++ [(- Mixture.X fuelMix f)%Qc]) !! j) as Hrow.
    { intros j. unfold entry.
      rewrite lookup_app_l by lia.
      rewrite (MatrixFacts.c_diag_lookup _ _ _ _ _ Hdi Hci). simpl.
      by rewrite Hd. }
    split_and!.
    + rewrite Hrow, lookup_app_l
        by (rewrite MatrixFacts.diag_row_length; lia).
      rewrite MatrixFacts.diag_row_lookup by lia. by rewrite decide_True.
    + intros j Hj Hne.
      rewrite Hrow, lookup_app_l
        by (rewrite MatrixFacts.diag_row_length; lia).
      rewrite MatrixFacts.diag_row_lookup by lia. by rewrite decide_False.
    + rewrite Hrow, lookup_app_r
        by (rewrite MatrixFacts.diag_row_length; lia).
      rewrite MatrixFacts.diag_row_length by lia.
      by rewrite Nat.sub_diag.
  - intros j Hj. unfold entry.
    rewrite lookup_app_r by lia. rewrite HlenA, Nat.sub_diag. simpl.
    unfold last_row. rewrite lookup_app_l by (rewrite length_replicate; lia).
    by apply lookup_replicate_2.
  - unfold entry.
    rewrite lookup_app_r by lia. rewrite HlenA, Nat.sub_diag. simpl.
    unfold last_row. rewrite lookup_app_r by (rewrite length_replicate; lia).
    by rewrite length_replicate, Nat.sub_diag.
  - unfold StoichiometricCombustion.stoich_v. rewrite HlenMix.
    apply MatrixFacts.system_rhs.
Qed.

Lemma stoich_system_entries_witness :
  let self := StoichiometricCombustion._updateFuels Examples.chemistry
                (StoichiometricCombustion.set_reactants Examples.fresh
                   [(Examples.CH4, Examples.frac 1 10);
                    (Examples.H2, Examples.frac 1 10);
                    (Examples.oxygen, Examples.frac 2 10);
                    (Examples.N2, Examples.frac 6 10)]) in
  let fuels := StoichiometricCombustion._fuels self in
  let fuelMix := [(Examples.CH4, Examples.frac 1 2);
                  (Examples.H2, Examples.frac 1 2)] in
  ∃ M,
    StoichiometricCombustion.stoich_M
      [("CH4", Examples.CH4_oxidation); ("H2", Examples.H2_oxidation)]
      fuels fuelMix = Ok M
    ∧ length M = 3
    ∧ rect 3 M
    ∧ (∀ i f, fuels !! i = Some f →
         entry M i i
         = Some (fuel_in_reaction Examples.chemistry Examples.oxygen f)
         ∧ (∀ j, j < 2 → j ≠ i → entry M i j = Some 0%Qc)
         ∧ entry M i 2 = Some (- Mixture.X fuelMix f)%Qc)
    ∧ (∀ j, j < 2 → entry M 2 j = Some 1%Qc)
    ∧ entry M 2 2 = Some 0%Qc
    ∧ StoichiometricCombustion.stoich_v fuelMix
      = replicate 2 [0%Qc] ++ [[1%Qc]].
Proof.
  intros self fuels fuelMix.
  apply (stoich_system_entries Examples.chemistry
           (StoichiometricCombustion.set_reactants Examples.fresh
              [(Examples.CH4, Examples.frac 1 10);
               (Examples.H2, Examples.frac 1 10);
               (Examples.oxygen, Examples.frac 2 10);
               (Examples.N2, Examples.frac 6 10)])
           [("CH4", Examples.CH4_oxidation); ("H2", Examples.H2_oxidation)]
           fuelMix).
  - apply (bool_decide_unpack _). vm_compute. exact I.
  - apply (bool_decide_unpack _). vm_compute. exact I.
  - discriminate.
Defined.

(** C2 as stated fails on the diagonal: for methane burning in oxygen
    the diagonal entry is the mole fraction of methane in the reactants
    of the reaction, 1/3, and not the one of the oxidizer, 2/3. *)
Lemma diagonal_is_not_oxidizer_fraction :
  let self := StoichiometricCombustion._updateFuels Examples.chemistry
                (StoichiometricCombustion.set_reactants Examples.fresh
                   [(Examples.CH4, Examples.frac 1 10);
                    (Examples.oxygen, Examples.frac 2 10);
                    (Examples.N2, Examples.frac 7 10)]) in
  ∃ oxReactions fuelMix M,
    StoichiometricCombustion.oxidation_reactions Examples.chemistry
      Examples.oxygen (StoichiometricCombustion._fuels self) []
    = Ok oxReactions
    ∧ dict_get oxReactions "CH4" = Some Examples.CH4_oxidation
    ∧ StoichiometricCombustion.fuel Examples.chemistry self = Ok fuelMix
    ∧ StoichiometricCombustion.stoich_M oxReactions
        (StoichiometricCombustion._fuels self) fuelMix = Ok M
    ∧ entry M 0 0 = Some (Examples.frac 1 3)
    ∧ Mixture.X (Reaction.reactants Examples.CH4_oxidation) Examples.oxygen
      = Examples.frac 2 3
    ∧ entry M 0 0
      ≠ Some (Mixture.X (Reaction.reactants Examples.CH4_oxidation)
                Examples.oxygen).
Proof.
  intros self.
  exists [("CH4", Examples.CH4_oxidation)], [(Examples.CH4, Examples.frac 1 1)].
  exists [[Examples.frac 1 3; Examples.frac (-1) 1];
          [Examples.frac 1 1; Examples.frac 0 1]].
  split_and!; apply (bool_decide_unpack _); vm_compute; exact I.
Qed.

(** ** The blend of two fuels *)

Module BlendFacts.
Import StoichiometricCombustion MixtureFacts.

(** The determinant of a 3x3 array. *)
Lemma det3 (a b c d e f g h i : Qc) :
  np.det [[a; b; c]; [d; e; f]; [g; h; i]]
  = (a * (e * i - f * h) - b * (d * i - f * g) + c * (d * h - e * g))%Qc.
Proof.
  unfold np.det. cbn -[Qcplus Qcmult Qcopp Qcminus Q2Qc].
  unfold np.sign. cbn -[Qcplus Qcmult Qcopp Qcminus Q2Qc]. ring.
Qed.

(** The system of two fuels and its solution. *)
Lemma solve_two_fuels (a b p q : Qc) :
  (a * q + p * b)%Qc ≠ 0%Qc →
  stoich_solve
    [[a; 0%Qc; (- p)%Qc]; [0%Qc; b; (- q)%Qc]; [1%Qc; 1%Qc; 0%Qc]]
    [[0%Qc]; [0%Qc]; [1%Qc]]
  = Ok [(p * b / (a * q + p * b))%Qc; (a * q / (a * q + p * b))%Qc].
Proof.
  intros Hd. unfold stoich_solve, np.linalg_solve.
  rewrite det3.
  rewrite decide_False by (intros H0; apply Hd; rewrite <- H0; ring).
  cbn -[Qcplus Qcmult Qcopp Qcminus Qcdiv Q2Qc np.det].
  rewrite !det3.
  replace (a * (b * 0 - - q * 1) - 0 * (0 * 0 - - q * 1)
           + - p * (0 * 1 - b * 1))%Qc
    with (a * q + p * b)%Qc by ring.
  replace (0 * (b * 0 - - q * 1) - 0 * (0 * 0 - - q * 1)
           + - p * (0 * 1 - b * 1))%Qc
    with (p * b)%Qc by ring.
  replace (a * (0 * 0 - - q * 1) - 0 * (0 * 0 - - q * 1)
           + - p * (0 * 1 - 0 * 1))%Qc
    with (a * q)%Qc by ring.
  done.
Qed.

Lemma X_positive (mix : Mixture.t) s :
  positive_fractions mix → Mixture.contains mix s = true →
  (0 < Mixture.X mix s)%Qc.
Proof.
  induction 1 as [|[s0 x0] mix Hx0 _ IH]; [done|].
  rewrite contains_cons. simpl.
  destruct (decide (s0 = s)) as [->|Hne]; [done|].
  rewrite bool_decide_eq_false_2 by done. by apply IH.
Qed.

(** A mixture given by a function of the species. *)
Lemma X_tabulate (g : Molecule → Qc) (l : list Molecule) s :
  Mixture.X ((λ s, (s, g s)) <$> l) s = if decide (s ∈ l) then g s else 0%Qc.
Proof.
  induction l as [|s0 l IH]; [done|]. cbn [fmap list_fmap Mixture.X].
  destruct (decide (s0 = s)) as [->|Hne].
  - rewrite decide_True; [done|by left].
  - rewrite IH. apply decide_ext. rewrite elem_of_cons.
    split; [by right|by intros [?|?]].
Qed.

(** The blend of two mixtures whose weights sum to one. *)
Lemma mixtureBlend_two (mix1 mix2 : Mixture.t) (c1 c2 : Qc) :
  (c1 + c2)%Qc = 1%Qc →
  ∃ blend,
    mixtureBlend [mix1; mix2] [c1; c2] = Ok blend
    ∧ ∀ s, Mixture.X blend s
           = (c1 * Mixture.X mix1 s + c2 * Mixture.X mix2 s)%Qc.
Proof.
  intros Hsum. unfold mixtureBlend. simpl.
  assert ((c1 + (c2 + 0))%Qc = 1%Qc) as -> by (rewrite <- Hsum; ring).
  rewrite decide_False by done.
  eexists. split; [done|]. intros s.
  rewrite (X_tabulate (λ s, (blend_X [mix1; mix2] [c1; c2] s / 1)%Qc)).
  unfold blend_X. simpl.
  case_decide as Hin; [field; done|].
  rewrite elem_of_remove_dups, app_nil_r, elem_of_app in Hin.
  rewrite !X_absent; [ring|apply contains_false; tauto..].
Qed.

(** The fuel-only sub-mixture of a mixture that holds two fuels. *)
Lemma two_fuel_mix (database : Database) (self0 : t) (f1 f2 : Molecule) :
  let self := _updateFuels database self0 in
  NoDup (Mixture.species (_reactants self0)) →
  positive_fractions (_reactants self0) →
  _fuels self = [f1; f2] →
  ∃ p q : Qc,
    fuel database self = Ok [(f1, p); (f2, q)]
    ∧ (0 < p)%Qc ∧ (0 < q)%Qc ∧ (p + q)%Qc = 1%Qc ∧ f1 ≠ f2.
Proof.
  intros self Hnodup Hpos Hfuels.
  assert (f1 ≠ f2) as Hne.
  { assert (NoDup [f1; f2]) as Hnd.
    { rewrite <- Hfuels. simpl. by apply NoDup_filter. }
    apply NoDup_cons in Hnd as [Hnotin _]. intros ->. apply Hnotin. by left. }
  unfold fuel, Mixture.extract. simpl.
  change (filter (λ s, name s ∈ Fuels database)
            (Mixture.species (_reactants self0))) with (_fuels self).
  rewrite Hfuels.
  set (kept := filter (λ p : Molecule * Qc, p.1 ∈ [f1; f2])
                 (_reactants self0 : list (Molecule * Qc))).
  assert (kept.*1 = [f1; f2]) as Hkept.
  { unfold kept.
    etrans; [apply (SystemFacts.filter_species
                      (λ s, name s ∈ Fuels database))|exact Hfuels].
    intros e He. rewrite <- Hfuels. simpl. rewrite list_elem_of_filter.
    split; [by intros [? _]|]. intros HP. split; [done|].
    by apply (list_elem_of_fmap_2 fst) in He. }
  assert (∀ e, e ∈ kept → (0 < e.2)%Qc) as Hkpos.
  { intros e [_ He]%list_elem_of_filter.
    unfold positive_fractions in Hpos. rewrite Forall_forall in Hpos.
    by apply Hpos. }
  destruct kept as [|[a x1] [|[b x2] [|e kept]]]; try done.
  simpl in Hkept. injection Hkept as -> ->.
  assert (0 < x1)%Qc as Hx1 by (apply (Hkpos (f1, x1)); by left).
  assert (0 < x2)%Qc as Hx2 by (apply (Hkpos (f2, x2)); right; by left).
  simpl.
  assert (0 < x1 + (x2 + 0))%Qc as Htotal.
  { rewrite Qcplus_0_r. by apply Qcplus_pos_pos. }
  rewrite decide_False by (by apply Qclt_not_eq in Htotal).
  eexists _, _. split; [done|]. simpl. split_and!.
  - apply Qcmult_pos_pos; [done|by apply Qcinv_pos].
  - apply Qcmult_pos_pos; [done|by apply Qcinv_pos].
  - field. intros H0. apply Qclt_not_eq in Htotal. apply Htotal.
    symmetry. etrans; [|exact H0]. ring.
  - done.
Qed.

End BlendFacts.

(** C5.  A reactant mixture that holds two fuels, each with an
    oxidation reaction against the oxidizer in the database.  The
    linear solve returns two weights; each lies in [[0, 1]], they sum to
    one, and together with the factor [f] they satisfy the equations of
    the system.  The raw stoichiometric products are the blend of the
    products of the two reactions at these weights: the mole fraction
    of every species is the weighted sum of its fractions in the two
    product mixtures. *)
Theorem two_fuel_weights (database : Database)
    (self0 : StoichiometricCombustion.t) (f1 f2 : Molecule)
    (oxReactions : list (string * Reaction.t)) :
  let self := StoichiometricCombustion._updateFuels database self0 in
  let oxidizer := StoichiometricCombustion._oxidizer self in
  NoDup (Mixture.species (StoichiometricCombustion._reactants self0)) →
  positive_fractions (StoichiometricCombustion._reactants self0) →
  Forall (λ r, positive_fractions (Reaction.reactants r.2))
         (reactions database) →
  StoichiometricCombustion._fuels self = [f1; f2] →
  StoichiometricCombustion.oxidation_reactions database oxidizer [f1; f2] []
  = Ok oxReactions →
  ∃ (react1 react2 : Reaction.t) (fuelMix : Mixture.t) (c1 c2 f : Qc)
    (prods : Mixture.t),
    StoichiometricCombustion.find_reaction (reactions database) f1 oxidizer
    = Some react1
    ∧ StoichiometricCombustion.find_reaction (reactions database) f2 oxidizer
      = Some react2
    ∧ StoichiometricCombustion.fuel database self = Ok fuelMix
    ∧ StoichiometricCombustion.xStoich self oxReactions fuelMix = Ok [c1; c2]
    ∧ (0 ≤ c1)%Qc ∧ (c1 ≤ 1)%Qc ∧ (0 ≤ c2)%Qc ∧ (c2 ≤ 1)%Qc
    ∧ (c1 + c2)%Qc = 1%Qc
    ∧ (Mixture.X (Reaction.reactants react1) f1 * c1
       = Mixture.X fuelMix f1 * f)%Qc
    ∧ (Mixture.X (Reaction.reactants react2) f2 * c2
       = Mixture.X fuelMix f2 * f)%Qc
    ∧ StoichiometricCombustion.blend_reactions self oxReactions
        Reaction.products [c1; c2] = Ok prods
    ∧ ∀ s, Mixture.X prods s
           = (c1 * Mixture.X (Reaction.products react1) s
              + c2 * Mixture.X (Reaction.products react2) s)%Qc.
Proof.
  intros self oxidizer Hnodup Hpos Hdb Hfuels Hox.
  destruct (BlendFacts.two_fuel_mix database self0 f1 f2 Hnodup Hpos Hfuels)
    as (p & q & Hmix & Hp & Hq & Hpq & Hne).
  destruct (SystemFacts.oxReactions_getitem database oxidizer [f1; f2]
              oxReactions f1 Hox) as (react1 & Hfind1 & Hget1); [by left|].
  destruct (SystemFacts.oxReactions_getitem database oxidizer [f1; f2]
              oxReactions f2 Hox) as (react2 & Hfind2 & Hget2);
    [right; by left|].
  set (a := Mixture.X (Reaction.reactants react1) f1).
  set (b := Mixture.X (Reaction.reactants react2) f2).
  assert (∀ f react,
            StoichiometricCombustion.find_reaction (reactions database) f
              oxidizer = Some react →
            (0 < Mixture.X (Reaction.reactants react) f)%Qc) as Hfrac.
  { intros f react Hfind.
    destruct (SystemFacts.find_reaction_Some _ _ _ _ Hfind)
      as (Hin & _ & Hreact).
    apply BlendFacts.X_positive; [|done].
    apply list_elem_of_fmap in Hreact as ([n r] & -> & Hr).
    rewrite Forall_forall in Hdb. by apply (Hdb (n, r)). }
  assert (0 < a)%Qc as Ha by by apply Hfrac.
  assert (0 < b)%Qc as Hb by by apply Hfrac.
  assert (0 < a * q + p * b)%Qc as Hd.
  { apply Qcplus_pos_pos; by apply Qcmult_pos_pos. }
  assert ((a * q + p * b)%Qc ≠ 0%Qc) as Hd0.
  { apply Qclt_not_eq in Hd. by intros H0; apply Hd. }
  set (c1 := (p * b / (a * q + p * b))%Qc).
  set (c2 := (a * q / (a * q + p * b))%Qc).
  assert ((c1 + c2)%Qc = 1%Qc) as Hsum by (unfold c1, c2; by field).
  assert (0 ≤ c1)%Qc as Hc1.
  { apply Qclt_le_weak, Qcmult_pos_pos; [by apply Qcmult_pos_pos|].
    by apply Qcinv_pos. }
  assert (0 ≤ c2)%Qc as Hc2.
  { apply Qclt_le_weak, Qcmult_pos_pos; [by apply Qcmult_pos_pos|].
    by apply Qcinv_pos. }
  destruct (BlendFacts.mixtureBlend_two (Reaction.products react1)
              (Reaction.products react2) c1 c2 Hsum) as (prods & Hblend & HX).
  assert (Mixture.X [(f1, p); (f2, q)] f1 = p) as HXp.
  { simpl. by rewrite decide_True. }
  assert (Mixture.X [(f1, p); (f2, q)] f2 = q) as HXq.
  { simpl. rewrite decide_False by done. by rewrite decide_True. }
  exists react1, react2, [(f1, p); (f2, q)], c1, c2.
  exists (a * b / (a * q + p * b))%Qc, prods.
  split_and!; try done.
  - unfold StoichiometricCombustion.xStoich, StoichiometricCombustion.stoich_M.
    rewrite Hfuels.
    rewrite (SystemFacts.stoich_diagonal_Ok database oxidizer [f1; f2])
      by done.
    rewrite SystemFacts.stoich_column_Ok
      by (intros g Hg; apply Hg).
    cbn -[Qcplus Qcmult Qcopp Qcminus Qcdiv Q2Qc Mixture.X
          StoichiometricCombustion.stoich_solve].
    change (StoichiometricCombustion._oxidizer self0) with oxidizer.
    unfold fuel_in_reaction. rewrite Hfind1, Hfind2, HXp, HXq.
    fold a b. by rewrite BlendFacts.solve_two_fuels.
  - rewrite <- Hsum. rewrite <- (Qcplus_0_r c1) at 1.
    by apply Qcplus_le_mono_l.
  - rewrite <- Hsum. rewrite <- (Qcplus_0_l c2) at 1.
    by apply Qcplus_le_mono_r.
  - rewrite HXp. fold a. unfold c1. by field.
  - rewrite HXq. fold b. unfold c2. by field.
  - unfold StoichiometricCombustion.blend_reactions. rewrite Hfuels.
    simpl. by rewrite Hget1, Hget2.
Qed.

Lemma two_fuel_weights_witness :
  let self0 := StoichiometricCombustion.set_reactants Examples.fresh
                 [(Examples.CH4, Examples.frac 1 10);
                  (Examples.H2, Examples.frac 1 10);
                  (Examples.oxygen, Examples.frac 2 10);
                  (Examples.N2, Examples.frac 6 10)] in
  let self := StoichiometricCombustion._updateFuels Examples.chemistry self0 in
  let oxReactions :=
    [("CH4", Examples.CH4_oxidation); ("H2", Examples.H2_oxidation)] in
  ∃ (react1 react2 : Reaction.t) (fuelMix : Mixture.t) (c1 c2 f : Qc)
    (prods : Mixture.t),
    StoichiometricCombustion.find_reaction (reactions Examples.chemistry)
      Examples.CH4 Examples.oxygen = Some react1
    ∧ StoichiometricCombustion.find_reaction (reactions Examples.chemistry)
        Examples.H2 Examples.oxygen = Some react2
    ∧ StoichiometricCombustion.fuel Examples.chemistry self = Ok fuelMix
    ∧ StoichiometricCombustion.xStoich self oxReactions fuelMix = Ok [c1; c2]
    ∧ (0 ≤ c1)%Qc ∧ (c1 ≤ 1)%Qc ∧ (0 ≤ c2)%Qc ∧ (c2 ≤ 1)%Qc
    ∧ (c1 + c2)%Qc = 1%Qc
    ∧ (Mixture.X (Reaction.reactants react1) Examples.CH4 * c1
       = Mixture.X fuelMix Examples.CH4 * f)%Qc
    ∧ (Mixture.X (Reaction.reactants react2) Examples.H2 * c2
       = Mixture.X fuelMix Examples.H2 * f)%Qc
    ∧ StoichiometricCombustion.blend_reactions self oxReactions
        Reaction.products [c1; c2] = Ok prods
    ∧ ∀ s, Mixture.X prods s
           = (c1 * Mixture.X (Reaction.products react1) s
              + c2 * Mixture.X (Reaction.products react2) s)%Qc.
Proof.
  intros self0 self oxReactions.
  apply (two_fuel_weights Examples.chemistry self0 Examples.CH4 Examples.H2
           oxReactions).
  - apply (bool_decide_unpack _). vm_compute. exact I.
  - apply (bool_decide_unpack _). vm_compute. exact I.
  - apply (bool_decide_unpack _). vm_compute. exact I.
  - reflexivity.
  - apply (bool_decide_unpack _). vm_compute. exact I.
Defined.

(** The weights of the worked case: methane and hydrogen in equal parts
    blend their reactions at 2/3 and 1/3. *)
Lemma two_fuel_weights_example :
  let self := StoichiometricCombustion._updateFuels Examples.chemistry
                (StoichiometricCombustion.set_reactants Examples.fresh
                   [(Examples.CH4, Examples.frac 1 10);
                    (Examples.H2, Examples.frac 1 10);
                    (Examples.oxygen, Examples.frac 2 10);
                    (Examples.N2, Examples.frac 6 10)]) in
  StoichiometricCombustion.xStoich self
    [("CH4", Examples.CH4_oxidation); ("H2", Examples.H2_oxidation)]
    [(Examples.CH4, Examples.frac 1 2); (Examples.H2, Examples.frac 1 2)]
  = Ok [Examples.frac 2 3; Examples.frac 1 3].
Proof. apply (bool_decide_unpack _). vm_compute. exact I. Qed.

(** * Worked cases *)

(** The error of [check] names the missing type and lists the classes
    of the table. *)
Example check_names_the_missing_type :
  ∃ msg,
    SelectionTable.check Examples.ReactionModel_table "Arrhenius"
    = Raise (ValueError msg)
    ∧ substring_of "No class 'Arrhenius' found" msg = true
    ∧ substring_of "ReactionModel" msg = true
    ∧ substring_of "StoichiometricCombustion" msg = true.
Proof.
  eexists. split; [reflexivity|]. split_and!; reflexivity.
Qed.

(** The error that leaves [selector] for the same name holds none of
    them. *)
Example selector_error_names_nothing :
  match (BaseClass.selector Examples.ReactionModel
           (Some Examples.ReactionModel_table) "Arrhenius" ∅).1 with
  | Ok _ => False
  | Raise err =>
      substring_of "Arrhenius" (exn_msg err) = false
      ∧ substring_of "StoichiometricCombustion" (exn_msg err) = false
  end.
Proof. split; reflexivity. Qed.

(** The round trip of a registered name: the selector builds the
    combustion model through its factory, which also leaves the default
    oxidizer in the caller's dictionary. *)
Example selector_round_trip :
  let reactants := [(Examples.CH4, Examples.frac 1 3);
                    (Examples.oxygen, Examples.frac 2 3)] in
  BaseClass.selector Examples.ReactionModel
    (Some Examples.ReactionModel_table) "StoichiometricCombustion"
    {[ "reactants" := VMixture reactants ]}
  = (Ok (StoichiometricCombustion.mk Examples.oxygen reactants None []),
     <["oxidizer" := VMolecule Examples.oxygen]>
       {[ "reactants" := VMixture reactants ]}).
Proof.
  intros reactants.
  apply (BaseClassFacts.selector_registered _ _ _
           (_add_TypeName Examples.StoichiometricCombustion_class));
    reflexivity.
Qed.

(** With two fuels without a reaction the message holds the first fuel
    and not the second. *)
Example missing_reaction_message :
  match (StoichiometricCombustion._update Examples.no_reactions Examples.fresh
           [(Examples.CH4, Examples.frac 1 10);
            (Examples.H2, Examples.frac 1 10);
            (Examples.oxygen, Examples.frac 2 10);
            (Examples.N2, Examples.frac 6 10)]).1 with
  | Ok _ => False
  | Raise err =>
      substring_of "(('CH4', 'O2'))" (exn_msg err) = true
      ∧ substring_of "H2" (exn_msg err) = false
  end.
Proof. split; reflexivity. Qed.

(** A stoichiometric charge of methane in oxygen and nitrogen: nothing
    of the fuel or of the oxidizer is left, and the nitrogen keeps its
    mole fraction. *)
Example stoichiometric_update :
  let reactants := [(Examples.CH4, Examples.frac 1 10);
                    (Examples.oxygen, Examples.frac 2 10);
                    (Examples.N2, Examples.frac 7 10)] in
  let out := StoichiometricCombustion._update Examples.chemistry
               Examples.fresh reactants in
  out.1 = Ok StoichiometricCombustion.RetFalse
  ∧ StoichiometricCombustion._products out.2
    = Some [(Examples.CO2, Examples.frac 1 10);
            (Examples.H2O, Examples.frac 2 10);
            (Examples.N2, Examples.frac 7 10)].
Proof.
  intros reactants out.
  split; apply (bool_decide_unpack _); vm_compute; exact I.
Qed.

(** A lean charge: the oxidizer in excess is diluted back. *)
Example lean_update :
  let reactants := [(Examples.CH4, Examples.frac 1 10);
                    (Examples.oxygen, Examples.frac 3 10);
                    (Examples.N2, Examples.frac 6 10)] in
  let out := StoichiometricCombustion._update Examples.chemistry
               Examples.fresh reactants in
  out.1 = Ok StoichiometricCombustion.RetFalse
  ∧ StoichiometricCombustion._products out.2
    = Some [(Examples.CO2, Examples.frac 11 90);
            (Examples.H2O, Examples.frac 11 45);
            (Examples.oxygen, Examples.frac 1 30);
            (Examples.N2, Examples.frac 6 10)].
Proof.
  intros reactants out.
  split; apply (bool_decide_unpack _); vm_compute; exact I.
Qed.

(** A rich charge: the fuel-only sub-mixture is diluted back. *)
Example rich_update :
  let reactants := [(Examples.CH4, Examples.frac 2 10);
                    (Examples.oxygen, Examples.frac 2 10);
                    (Examples.N2, Examples.frac 6 10)] in
  let out := StoichiometricCombustion._update Examples.chemistry
               Examples.fresh reactants in
  out.1 = Ok StoichiometricCombustion.RetFalse
  ∧ StoichiometricCombustion._products out.2
    = Some [(Examples.CO2, Examples.frac 1 9);
            (Examples.H2O, Examples.frac 2 9);
            (Examples.CH4, Examples.frac 1 15);
            (Examples.N2, Examples.frac 6 10)].
Proof.
  intros reactants out.
  split; apply (bool_decide_unpack _); vm_compute; exact I.
Qed.

(** The empty mixture is the only one that reaches the passthrough of
    line 245, when the cached reactants differ from it. *)
Example empty_update :
  StoichiometricCombustion._update Examples.chemistry
    (StoichiometricCombustion.set_reactants Examples.fresh
       [(Examples.N2, Examples.frac 1 1)]) []
  = (Ok StoichiometricCombustion.RetSelf,
     StoichiometricCombustion.mk Examples.oxygen [] (Some []) []).
Proof. reflexivity. Qed.

(** * Further properties

    ** The registry over its life *)

Module RegistryFacts.
Import SelectionTable SelectionTableFacts.
Section WithFamily.
Context {config instance : Type}.
Implicit Types (self table : SelectionTable.t config instance)
  (cls c : pyclass config instance).

Lemma dict_get_None_keys {V} (d : list (string * V)) k :
  dict_get d k = None → k ∉ dict_keys d.
Proof.
  intros Hnone Hin. apply dict_get_keys in Hin as [v Hv]. congruence.
Qed.

(** The two outcomes of [add], as equations. *)
Lemma add_Ok self cls :
  contains self (__name__ cls) = false →
  issubclass cls (type self) = true →
  add self cls
  = (Ok (), {| type := type self;
               db := db self ++ [(__name__ cls, _add_TypeName cls)] |}).
Proof.
  intros Hfresh Hsub. unfold add. rewrite Hfresh, Hsub. simpl.
  by rewrite dict_set_fresh by by apply dict_mem_false.
Qed.

Lemma add_cases self cls :
  (add self cls).2 = self
  ∨ (contains self (__name__ cls) = false
     ∧ issubclass cls (type self) = true
     ∧ add self cls
       = (Ok (), {| type := type self;
                    db := db self ++ [(__name__ cls, _add_TypeName cls)] |})).
Proof.
  destruct (contains self (__name__ cls)) eqn:Hin.
  { left. unfold add. by rewrite Hin. }
  destruct (issubclass cls (type self)) eqn:Hsub.
  - right. split_and!; [done..|]. by apply add_Ok.
  - left. unfold add. by rewrite Hin, Hsub.
Qed.

Lemma add_Ok_inv self cls self' :
  add self cls = (Ok (), self') →
  contains self (__name__ cls) = false
  ∧ issubclass cls (type self) = true
  ∧ self' = {| type := type self;
               db := db self ++ [(__name__ cls, _add_TypeName cls)] |}.
Proof.
  intros Hadd.
  destruct (contains self (__name__ cls)) eqn:Hin.
  { unfold add in Hadd. by rewrite Hin in Hadd. }
  destruct (issubclass cls (type self)) eqn:Hsub.
  - rewrite add_Ok in Hadd by done. by injection Hadd as <-.
  - unfold add in Hadd. by rewrite Hin, Hsub in Hadd.
Qed.

Lemma init_ok cls : __name__ cls ∈ mro cls → table_ok (init cls).
Proof.
  intros Hmro. split; simpl.
  - apply NoDup_singleton.
  - apply Forall_singleton. split_and!; [done..|].
    by apply bool_decide_eq_true_2.
Qed.

Lemma add_ok self cls : table_ok self → table_ok (add self cls).2.
Proof.
  intros [Hnodup Hall].
  destruct (add_cases self cls) as [->|(Hin & Hsub & ->)]; [done|].
  split; simpl.
  - unfold dict_keys in *. rewrite fmap_app. simpl.
    apply NoDup_app. split_and!; [done| |apply NoDup_singleton].
    intros k Hk ->%list_elem_of_singleton.
    by apply (dict_get_None_keys (db self) (__name__ cls));
      [apply dict_mem_false|].
  - apply Forall_app. split; [done|].
    apply Forall_singleton. by split_and!.
Qed.

Lemma adds_ok self classes : table_ok self → table_ok (adds self classes).
Proof.
  revert self. induction classes as [|cls classes IH]; intros self Hok;
    [done|].
  simpl. by apply IH, add_ok.
Qed.

Lemma add_persists self cls k c :
  dict_get (db self) k = Some c → dict_get (db (add self cls).2) k = Some c.
Proof.
  intros Hk. destruct (add_cases self cls) as [->|(Hin & _ & ->)]; [done|].
  simpl. apply dict_mem_false in Hin.
  rewrite <- dict_set_fresh by done. rewrite dict_get_set.
  case_decide as Heq; [|done]. subst k. congruence.
Qed.

Lemma add_type self cls : type (add self cls).2 = type self.
Proof. by destruct (add_cases self cls) as [->|(_ & _ & ->)]. Qed.

Lemma adds_persists self classes k c :
  dict_get (db self) k = Some c → dict_get (db (adds self classes)) k = Some c.
Proof.
  revert self. induction classes as [|cls classes IH]; intros self Hk;
    [done|].
  simpl. by apply IH, add_persists.
Qed.

Lemma adds_type self classes : type (adds self classes) = type self.
Proof.
  revert self. induction classes as [|cls classes IH]; intros self; [done|].
  simpl. by rewrite IH, add_type.
Qed.

(** An exception never turns into a value along a handler. *)
Lemma selector_handler_raises cls tbl typeName err :
  ∃ err', BaseClass.selector_handler (instance := instance) cls tbl typeName err
          = Raise err'.
Proof.
  unfold BaseClass.selector_handler, BaseClass.selectionTable.
  destruct tbl as [t|]; simpl; [|by eexists].
  destruct (getitem t typeName); simpl; by eexists.
Qed.

Lemma selector_lookup_Ok cls tbl typeName c :
  BaseClass.selector_lookup cls tbl typeName = Ok c →
  ∃ t, tbl = Some t ∧ dict_get (db t) typeName = Some c.
Proof.
  unfold BaseClass.selector_lookup, BaseClass.hasSelectionTable.
  destruct tbl as [t|]; simpl; [|done].
  destruct (check t typeName); simpl; [|done].
  unfold getitem. destruct (contains t typeName); [|done].
  destruct (dict_get (db t) typeName) as [c'|] eqn:Hc; [|done].
  intros [= <-]. by exists t.
Qed.

End WithFamily.
End RegistryFacts.

(** X1.  Whatever classes are offered to [add], in whatever order and
    whether each call succeeds or fails, the table of a class keeps its
    entries in order: no name occurs twice, every class sits under its
    own name and carries it as [TypeName], and every class derives from
    the class that owns the table. *)
Theorem registry_invariant {config instance : Type}
    (cls : pyclass config instance) (classes : list (pyclass config instance)) :
  __name__ cls ∈ mro cls →
  table_ok (adds (SelectionTable.init cls) classes).
Proof. intros Hmro. by apply RegistryFacts.adds_ok, RegistryFacts.init_ok. Qed.

Lemma registry_invariant_witness :
  table_ok (adds (SelectionTable.init Cases.Filter)
              [Cases.LowPass; Cases.Stranger; Cases.LowPass;
               Cases.Butterworth; Cases.Broken]).
Proof.
  apply (registry_invariant Cases.Filter
           [Cases.LowPass; Cases.Stranger; Cases.LowPass;
            Cases.Butterworth; Cases.Broken]).
  apply (bool_decide_unpack _). vm_compute. exact I.
Defined.

(** X2.  The table only grows: a name that selects a class keeps
    selecting the same class after any run of calls of [add], and the
    class that owns the table stays the same. *)
Theorem registrations_persist {config instance : Type}
    (table : SelectionTable.t config instance)
    (classes : list (pyclass config instance))
    (k : string) (c : pyclass config instance) :
  dict_get (SelectionTable.db table) k = Some c →
  dict_get (SelectionTable.db (adds table classes)) k = Some c
  ∧ SelectionTable.getitem (adds table classes) k = Ok c
  ∧ SelectionTable.type (adds table classes) = SelectionTable.type table.
Proof.
  intros Hk.
  pose proof (RegistryFacts.adds_persists table classes k c Hk) as Hk'.
  split_and!; [done| |apply RegistryFacts.adds_type].
  by apply SelectionTableFacts.getitem_present.
Qed.

Lemma registrations_persist_witness :
  let table := (SelectionTable.add Cases.Filter_table Cases.LowPass).2 in
  let classes := [Cases.Butterworth; Cases.LowPass; Cases.Stranger] in
  dict_get (SelectionTable.db (adds table classes)) "LowPass"
  = Some (_add_TypeName Cases.LowPass)
  ∧ SelectionTable.getitem (adds table classes) "LowPass"
    = Ok (_add_TypeName Cases.LowPass)
  ∧ SelectionTable.type (adds table classes) = SelectionTable.type table.
Proof.
  intros table classes.
  apply (registrations_persist table classes "LowPass"
           (_add_TypeName Cases.LowPass)).
  reflexivity.
Defined.

(** X3.  Registration followed by selection.  Once [add] has accepted a
    class, [check] accepts its name and the selector of the family, given
    that name, runs the factory of that class on the dictionary: it
    returns the instance the factory builds, or reports the failure of
    the factory under the name of the class. *)
Theorem add_then_select {config instance : Type}
    (base cls : pyclass config instance)
    (table table' : SelectionTable.t config instance) (dictionary : config) :
  SelectionTable.add table cls = (Ok (), table') →
  SelectionTable.check table' (__name__ cls) = Ok true
  ∧ BaseClass.selector base (Some table') (__name__ cls) dictionary
    = match fromDictionary cls dictionary with
      | (Ok instance, dictionary') => (Ok instance, dictionary')
      | (Raise err, dictionary') =>
          (Raise (FatalError (__name__ base +:+ "." +:+ "selector")
                    ("Failed constructing instance of type '"
                     +:+ __name__ cls +:+ "'") (Some err)), dictionary')
      end.
Proof.
  intros (Hfresh & Hsub & ->)%RegistryFacts.add_Ok_inv.
  assert (dict_get (SelectionTable.db table ++ [(__name__ cls, _add_TypeName cls)])
            (__name__ cls) = Some (_add_TypeName cls)) as Hget.
  { apply dict_mem_false in Hfresh.
    rewrite <- dict_set_fresh by done. rewrite dict_get_set.
    by rewrite decide_True. }
  split.
  - apply SelectionTableFacts.check_present. simpl.
    apply dict_mem_true. simpl. by rewrite Hget.
  - destruct (fromDictionary cls dictionary) as [[i|err] dictionary'] eqn:Hf.
    + by apply (BaseClassFacts.selector_registered _ _ _ (_add_TypeName cls)).
    + by apply (BaseClassFacts.selector_factory_fails _ _ _
                  (_add_TypeName cls)).
Qed.

Lemma add_then_select_witness :
  let table' := (SelectionTable.add Cases.Filter_table Cases.LowPass).2 in
  SelectionTable.check table' "LowPass" = Ok true
  ∧ BaseClass.selector Cases.Filter (Some table') "LowPass" ()
    = (Ok "LowPass", ()).
Proof.
  intros table'.
  apply (add_then_select Cases.Filter Cases.LowPass Cases.Filter_table
           table' ()).
  reflexivity.
Defined.

(** X4.  The selector never makes up an instance: when it returns one,
    the class has a table, the name is registered in it, and the
    instance and the state of the dictionary are what the factory of
    the registered class returned. *)
Theorem selector_sound {config instance : Type}
    (cls : pyclass config instance)
    (tbl : option (SelectionTable.t config instance))
    (typeName : string) (dictionary dictionary' : config) (i : instance) :
  BaseClass.selector cls tbl typeName dictionary = (Ok i, dictionary') →
  ∃ table c,
    tbl = Some table
    ∧ dict_get (SelectionTable.db table) typeName = Some c
    ∧ fromDictionary c dictionary = (Ok i, dictionary').
Proof.
  unfold BaseClass.selector.
  destruct (BaseClass.selector_lookup cls tbl typeName) as [c|err] eqn:Hlook.
  - apply RegistryFacts.selector_lookup_Ok in Hlook as (table & -> & Hc).
    destruct (fromDictionary c dictionary) as [[i'|err] d'] eqn:Hf.
    + intros [= <- <-]. by exists table, c.
    + destruct (RegistryFacts.selector_handler_raises cls (Some table)
                  typeName err) as [err' ->]. done.
  - destruct (RegistryFacts.selector_handler_raises cls tbl typeName err)
      as [err' ->]. done.
Qed.

Lemma selector_sound_witness :
  ∃ table c,
    Some (SelectionTable.add Cases.Filter_table Cases.LowPass).2 = Some table
    ∧ dict_get (SelectionTable.db table) "LowPass" = Some c
    ∧ fromDictionary c () = (Ok "LowPass", ()).
Proof.
  apply (selector_sound Cases.Filter
           (Some (SelectionTable.add Cases.Filter_table Cases.LowPass).2)
           "LowPass" () () "LowPass").
  reflexivity.
Defined.

(** X5.  A factory that fails does not pass unnoticed: the selector
    raises the fatal error that names the class whose construction
    failed and carries the error of the factory as its cause, and the
    dictionary is left as the factory left it. *)
Theorem selector_reports_factory_error {config instance : Type}
    (cls c : pyclass config instance) (table : SelectionTable.t config instance)
    (typeName : string) (dictionary dictionary' : config) (err : exn) :
  dict_get (SelectionTable.db table) typeName = Some c →
  fromDictionary c dictionary = (Raise err, dictionary') →
  BaseClass.selector cls (Some table) typeName dictionary
  = (Raise (FatalError (__name__ cls +:+ "." +:+ "selector")
              ("Failed constructing instance of type '" +:+ __name__ c +:+ "'")
              (Some err)), dictionary').
Proof. apply BaseClassFacts.selector_factory_fails. Qed.

Lemma selector_reports_factory_error_witness :
  BaseClass.selector Cases.Filter
    (Some (SelectionTable.add Cases.Filter_table Cases.Broken).2) "Broken" ()
  = (Raise (FatalError "Filter.selector"
              "Failed constructing instance of type 'Broken'"
              (Some (ValueError
                       "Mandatory entry 'cutoff' not found in dictionary."))),
     ()).
Proof.
  apply (selector_reports_factory_error Cases.Filter
           (_add_TypeName Cases.Broken)
           (SelectionTable.add Cases.Filter_table Cases.Broken).2
           "Broken" () ()).
  - reflexivity.
  - reflexivity.
Defined.

(** ** What the messages hold *)

Module MessageFacts.

Lemma prefix_of_app (s u : string) : prefix_of s (s +:+ u) = true.
Proof.
  induction s as [|a s IH]; [done|]. simpl.
  by rewrite Ascii.eqb_refl.
Qed.

Lemma prefix_of_app_l (s t u : string) :
  prefix_of s t = true → prefix_of s (t +:+ u) = true.
Proof.
  revert t. induction s as [|a s IH]; intros t; [done|].
  destruct t as [|b t]; [done|]. simpl.
  destruct (Ascii.eqb a b); [apply IH|done].
Qed.

Lemma substring_of_prefix (s t : string) :
  prefix_of s t = true → substring_of s t = true.
Proof. intros Hp. destruct t; simpl; by rewrite Hp. Qed.

Lemma substring_of_app_l (s t u : string) :
  substring_of s t = true → substring_of s (t +:+ u) = true.
Proof.
  induction t as [|b t IH]; simpl.
  - rewrite orb_false_r. intros Hp. destruct s; [|done].
    by destruct u.
  - intros [Hp|Hs]%orb_true_iff.
    + apply orb_true_iff. left.
      by apply (prefix_of_app_l s (String b t) u).
    + apply orb_true_iff. right. by apply IH.
Qed.

Lemma substring_of_app_r (s t u : string) :
  substring_of s u = true → substring_of s (t +:+ u) = true.
Proof.
  intros Hs. induction t as [|b t IH]; [done|]. simpl.
  apply orb_true_iff. by right.
Qed.

Lemma substring_of_refl (s : string) : substring_of s s = true.
Proof.
  apply substring_of_prefix.
  induction s as [|a s IH]; [done|]. simpl. by rewrite Ascii.eqb_refl.
Qed.

Section WithFamily.
Context {config instance : Type}.
Implicit Types (self : SelectionTable.t config instance)
  (entries : list (string * pyclass config instance)).

(** A line of the listing holds the name of its class. *)
Lemma table_line_name (entry : string * pyclass config instance) :
  substring_of entry.1 (SelectionTable.table_line entry) = true.
Proof.
  unfold SelectionTable.table_line, SelectionTable.format40.
  apply (substring_of_app_r _ (String "010"%char (String "009"%char EmptyString))).
  apply substring_of_app_l, substring_of_app_l, substring_of_refl.
Qed.

(** The listing grows at its end: what the message holds, it keeps. *)
Lemma listing_keeps (s header : string) entries :
  substring_of s header = true →
  substring_of s
    (fold_left (λ string entry, string +:+ SelectionTable.table_line entry)
       entries header) = true.
Proof.
  revert header. induction entries as [|e entries IH]; intros header Hs;
    [done|].
  simpl. by apply IH, substring_of_app_l.
Qed.

Lemma listing_names (header : string) entries k :
  k ∈ entries.*1 →
  substring_of k
    (fold_left (λ string entry, string +:+ SelectionTable.table_line entry)
       entries header) = true.
Proof.
  revert header. induction entries as [|e entries IH]; intros header;
    [by intros ?%elem_of_nil|].
  simpl. intros [->|Hin]%elem_of_cons.
  - apply listing_keeps, substring_of_app_r, table_line_name.
  - by apply IH.
Qed.

End WithFamily.
End MessageFacts.

(** X6.  On a name the table does not hold, [check] raises a
    [ValueError] whose message holds the missing name, the name of the
    class that owns the table and the name of every class registered in
    the table. *)
Theorem check_message_complete {config instance : Type}
    (self : SelectionTable.t config instance) (typeName : string) :
  SelectionTable.contains self typeName = false →
  ∃ msg,
    SelectionTable.check self typeName = Raise (ValueError msg)
    ∧ substring_of typeName msg = true
    ∧ substring_of (__name__ (SelectionTable.type self)) msg = true
    ∧ ∀ k, is_Some (dict_get (SelectionTable.db self) k) →
           substring_of k msg = true.
Proof.
  intros Habsent.
  destruct (SelectionTableFacts.check_absent self typeName Habsent)
    as (entries & Hkeys & Hcheck).
  exists (SelectionTable.check_msg self typeName entries).
  split_and!; [done| | |].
  - apply MessageFacts.listing_keeps.
    apply (MessageFacts.substring_of_app_r _ "No class '").
    apply MessageFacts.substring_of_app_l, MessageFacts.substring_of_refl.
  - apply MessageFacts.listing_keeps.
    apply (MessageFacts.substring_of_app_r _ "No class '").
    apply MessageFacts.substring_of_app_r.
    apply (MessageFacts.substring_of_app_r _
             "' found in selection table for class ").
    apply MessageFacts.substring_of_app_l, MessageFacts.substring_of_refl.
  - intros k [c Hk]. apply MessageFacts.listing_names. rewrite Hkeys.
    unfold dict_keys. clear -Hk.
    induction (SelectionTable.db self) as [|[k0 c0] d IH]; [done|].
    simpl in *. case_decide; [subst; by left|right; by apply IH].
Qed.

Lemma check_message_complete_witness :
  ∃ msg,
    SelectionTable.check
      (adds Cases.Filter_table [Cases.LowPass; Cases.Butterworth]) "HighPass"
    = Raise (ValueError msg)
    ∧ substring_of "HighPass" msg = true
    ∧ substring_of
        (__name__ (SelectionTable.type
                     (adds Cases.Filter_table [Cases.LowPass; Cases.Butterworth])))
        msg = true
    ∧ ∀ k, is_Some (dict_get
                      (SelectionTable.db
                         (adds Cases.Filter_table
                            [Cases.LowPass; Cases.Butterworth])) k) →
           substring_of k msg = true.
Proof.
  apply (check_message_complete
           (adds Cases.Filter_table [Cases.LowPass; Cases.Butterworth])
           "HighPass").
  reflexivity.
Defined.

(** ** Creating tables and registering classes *)

(** X7.  A class gets its table once.  After a call of
    [createRuntimeSelectionTable], successful or not, the class owns a
    table; a table that was there before the call is kept with its
    registrations, not replaced; and calling again fails and changes no
    table. *)
Theorem create_table_once {config instance : Type}
    (cls : pyclass config instance)
    (tables : gmap string (SelectionTable.t config instance)) :
  let tables1 := (RuntimeSelection.createRuntimeSelectionTable cls tables).2 in
  tables1 !! __name__ cls
  = Some (default (SelectionTable.init cls) (tables !! __name__ cls))
  ∧ (∀ k, k ≠ __name__ cls → tables1 !! k = tables !! k)
  ∧ ∃ err,
      RuntimeSelection.createRuntimeSelectionTable cls tables1
      = (Raise err, tables1).
Proof.
  intros tables1.
  assert (tables1 !! __name__ cls
          = Some (default (SelectionTable.init cls) (tables !! __name__ cls)))
    as Hown.
  { unfold tables1, RuntimeSelection.createRuntimeSelectionTable,
      BaseClass.hasSelectionTable.
    destruct (tables !! __name__ cls) as [t|] eqn:Ht; simpl; [done|].
    by rewrite lookup_insert_eq. }
  split_and!; [done| |].
  - intros k Hk.
    unfold tables1, RuntimeSelection.createRuntimeSelectionTable,
      BaseClass.hasSelectionTable.
    destruct (tables !! __name__ cls) as [t|] eqn:Ht; simpl; [done|].
    by rewrite lookup_insert_ne.
  - unfold RuntimeSelection.createRuntimeSelectionTable at 1,
      BaseClass.hasSelectionTable.
    rewrite Hown. simpl. by eexists.
Qed.

(** X8.  A class registers in the table of its direct base and nowhere
    else.  When the direct base owns no table the call fails and changes
    no table, also when a class further up owns one that would accept
    the class; otherwise the outcome and the new table are those of
    [add] on the table of the direct base, and the tables of all other
    classes are what they were. *)
Theorem register_in_direct_base {config instance : Type}
    (cls : pyclass config instance) (base : string)
    (tables : gmap string (SelectionTable.t config instance)) :
  mro cls !! 1 = Some base →
  let after := RuntimeSelection.addToRuntimeSelectionTable cls tables in
  (∀ k, k ≠ base → after.2 !! k = tables !! k)
  ∧ (tables !! base = None → raises_in after.1 ∧ after.2 = tables)
  ∧ (∀ table, tables !! base = Some table →
       after.1 = (SelectionTable.add table cls).1
       ∧ after.2 !! base = Some (SelectionTable.add table cls).2).
Proof.
  intros Hbase after. unfold after.
  unfold RuntimeSelection.addToRuntimeSelectionTable,
    RuntimeSelection._getBaseClass.
  rewrite Hbase.
  destruct (tables !! base) as [table|] eqn:Htable.
  - destruct (SelectionTable.add table cls) as [outcome table'] eqn:Hadd.
    simpl. split_and!; [|done|].
    + intros k Hk. by rewrite lookup_insert_ne.
    + intros t [= <-]. rewrite Hadd. simpl. by rewrite lookup_insert_eq.
  - simpl. split_and!; done.
Qed.

Lemma register_in_direct_base_witness :
  let tables : gmap string (SelectionTable.t unit string) :=
    {[ "Filter" := Cases.Filter_table ]} in
  let after :=
    RuntimeSelection.addToRuntimeSelectionTable Cases.Butterworth tables in
  (∀ k, k ≠ "LowPass" → after.2 !! k = tables !! k)
  ∧ (tables !! "LowPass" = None → raises_in after.1 ∧ after.2 = tables)
  ∧ (∀ table, tables !! "LowPass" = Some table →
       after.1 = (SelectionTable.add table Cases.Butterworth).1
       ∧ after.2 !! "LowPass"
         = Some (SelectionTable.add table Cases.Butterworth).2).
Proof.
  intros tables after.
  apply (register_in_direct_base Cases.Butterworth "LowPass" tables).
  reflexivity.
Defined.

(** X9.  The life of a registration, from the creation of the table to
    the construction of an object.  A class without a table creates it;
    a class whose direct base it is registers; from then on the selector
    of the base, given the name of the registered class, runs the
    factory of that class, and given the name of the base itself, the
    factory of the base. *)
Theorem registry_round_trip {config instance : Type}
    (base cls : pyclass config instance)
    (tables : gmap string (SelectionTable.t config instance))
    (dictionary : config) :
  tables !! __name__ base = None →
  mro cls !! 1 = Some (__name__ base) →
  __name__ cls ≠ __name__ base →
  let created := RuntimeSelection.createRuntimeSelectionTable base tables in
  let registered :=
    RuntimeSelection.addToRuntimeSelectionTable cls created.2 in
  let outcome (c : pyclass config instance) :=
    match fromDictionary c dictionary with
    | (Ok instance, dictionary') => (Ok instance, dictionary')
    | (Raise err, dictionary') =>
        (Raise (FatalError (__name__ base +:+ "." +:+ "selector")
                  ("Failed constructing instance of type '"
                   +:+ __name__ c +:+ "'") (Some err)), dictionary')
    end in
  created.1 = Ok ()
  ∧ registered.1 = Ok ()
  ∧ RuntimeSelection.selector base registered.2 (__name__ cls) dictionary
    = outcome cls
  ∧ RuntimeSelection.selector base registered.2 (__name__ base) dictionary
    = outcome base.
Proof.
  intros Hnone Hmro Hne created registered outcome.
  assert (created = (Ok (), <[__name__ base := SelectionTable.init base]> tables))
    as Hcreated.
  { unfold created, RuntimeSelection.createRuntimeSelectionTable.
    by rewrite Hnone. }
  assert (SelectionTable.add (SelectionTable.init base) cls
          = (Ok (), {| SelectionTable.type := _add_TypeName base;
                       SelectionTable.db :=
                         [(__name__ base, _add_TypeName base);
                          (__name__ cls, _add_TypeName cls)] |})) as Hadd.
  { apply (RegistryFacts.add_Ok (SelectionTable.init base) cls).
    - apply dict_mem_false. simpl. by rewrite decide_False.
    - apply bool_decide_eq_true_2. simpl.
      by eapply list_elem_of_lookup_2. }
  assert (registered
          = (Ok (),
             <[__name__ base :=
                 {| SelectionTable.type := _add_TypeName base;
                    SelectionTable.db :=
                      [(__name__ base, _add_TypeName base);
                       (__name__ cls, _add_TypeName cls)] |}]>
               (<[__name__ base := SelectionTable.init base]> tables)))
    as Hregistered.
  { unfold registered, RuntimeSelection.addToRuntimeSelectionTable,
      RuntimeSelection._getBaseClass.
    rewrite Hmro, Hcreated. simpl. rewrite lookup_insert_eq.
    by rewrite Hadd. }
  rewrite Hcreated, Hregistered. simpl.
  unfold RuntimeSelection.selector. rewrite lookup_insert_eq.
  split_and!; [done..| |].
  - unfold outcome.
    destruct (fromDictionary cls dictionary) as [[i|err] d'] eqn:Hf.
    + apply (BaseClassFacts.selector_registered _ _ _ (_add_TypeName cls));
        [|done]. simpl. rewrite decide_False by done. by rewrite decide_True.
    + apply (BaseClassFacts.selector_factory_fails _ _ _ (_add_TypeName cls));
        [|done]. simpl. rewrite decide_False by done. by rewrite decide_True.
  - unfold outcome.
    destruct (fromDictionary base dictionary) as [[i|err] d'] eqn:Hf.
    + apply (BaseClassFacts.selector_registered _ _ _ (_add_TypeName base));
        [|done]. simpl. by rewrite decide_True.
    + apply (BaseClassFacts.selector_factory_fails _ _ _ (_add_TypeName base));
        [|done]. simpl. by rewrite decide_True.
Qed.

Lemma registry_round_trip_witness :
  let created :=
    RuntimeSelection.createRuntimeSelectionTable Cases.Filter
      (∅ : gmap string (SelectionTable.t unit string)) in
  let registered :=
    RuntimeSelection.addToRuntimeSelectionTable Cases.LowPass created.2 in
  created.1 = Ok ()
  ∧ registered.1 = Ok ()
  ∧ RuntimeSelection.selector Cases.Filter registered.2 "LowPass" ()
    = (Ok "LowPass", ())
  ∧ RuntimeSelection.selector Cases.Filter registered.2 "Filter" ()
    = (Raise (FatalError "Filter.selector"
                "Failed constructing instance of type 'Filter'"
                (Some (FatalError "Filter.fromDictionary"
                         "Can't instantiate abstract class Filter" None))),
       ()).
Proof.
  apply (registry_round_trip Cases.Filter Cases.LowPass ∅ ()).
  - reflexivity.
  - reflexivity.
  - discriminate.
Defined.

(** ** Construction from a dictionary *)

(** X10.  What [fromDictionary] does to the dictionary of its caller,
    whether the call succeeds or fails.  Without the entry
    ["reactants"] the call fails with the error of the missing entry as
    its cause and the dictionary is untouched.  With ["reactants"] and
    without ["oxidizer"] the default oxidizer is inserted, also when the
    construction then fails.  With both entries the dictionary is
    untouched.  No entry other than ["oxidizer"] ever changes. *)
Theorem fromDictionary_frame (database : Database)
    (dictionary : gmap string pyval) :
  let after := StoichiometricCombustion.fromDictionary database dictionary in
  (dictionary !! "reactants" = None →
   after = (Raise (FatalError "StoichiometricCombustion.fromDictionary"
                     "Failed construction from dictionary"
                     (Some (ValueError
                              "Mandatory entry 'reactants' not found in dictionary."))),
            dictionary))
  ∧ (is_Some (dictionary !! "reactants") → dictionary !! "oxidizer" = None →
     after.2 = <["oxidizer" := VMolecule (O2 database)]> dictionary)
  ∧ (is_Some (dictionary !! "oxidizer") → after.2 = dictionary)
  ∧ (∀ k, k ≠ "oxidizer" → after.2 !! k = dictionary !! k).
Proof.
  intros after. unfold after, StoichiometricCombustion.fromDictionary.
  destruct (decide (is_Some (dictionary !! "reactants"))) as [Hr|Hr].
  - destruct (decide (is_Some (dictionary !! "oxidizer"))) as [Ho|Ho].
    + split_and!.
      * intros Hnone. rewrite Hnone in Hr. by destruct Hr.
      * intros _ Hnone. rewrite Hnone in Ho. by destruct Ho.
      * intros _. by destruct (_ ≫= _).
      * intros k _. by destruct (_ ≫= _).
    + split_and!.
      * intros Hnone. rewrite Hnone in Hr. by destruct Hr.
      * intros _ _. by destruct (_ ≫= _).
      * done.
      * intros k Hk. destruct (_ ≫= _); simpl; by rewrite lookup_insert_ne.
  - by split_and!.
Qed.

(** ** The partition of the reactants *)

Module PartitionFacts.
Import StoichiometricCombustion MixtureFacts.
Implicit Types (self : t) (oxReactions : list (string * Reaction.t))
  (todo : Mixture.t) (s : Molecule) (rm : option Mixture.t).

Lemma scan_reactions_reacts self s oxReactions acts :
  (scan_reactions self s oxReactions acts).1 = reacts self oxReactions s.
Proof. apply ReactingFacts.scan_reactions_found. Qed.

Lemma reacting_part_cons_in self oxReactions s x todo :
  reacts self oxReactions s = true →
  reacting_part self oxReactions ((s, x) :: todo)
  = (s, x) :: reacting_part self oxReactions todo.
Proof.
  intros Hs. unfold reacting_part. rewrite filter_cons. simpl.
  by rewrite decide_True.
Qed.

Lemma reacting_part_cons_out self oxReactions s x todo :
  reacts self oxReactions s = false →
  reacting_part self oxReactions ((s, x) :: todo)
  = reacting_part self oxReactions todo.
Proof.
  intros Hs. unfold reacting_part. rewrite filter_cons. simpl.
  rewrite decide_False; [done|]. by rewrite Hs.
Qed.

Lemma contains_pure s0 s :
  Mixture.contains (Mixture.pure s0) s = bool_decide (s0 = s).
Proof.
  unfold Mixture.pure. rewrite contains_cons.
  by rewrite orb_false_r.
Qed.

(** What the loop of lines 184-222 computes: [xReact] grows by the
    fraction of every reacting entry, the amount [xReact * X] of each
    species in [reactingMix] by the fraction of its reacting entries,
    and [reactingMix] holds the species of the reacting entries. *)
Lemma reacting_loop_inv self oxReactions s todo x0 rm0 acts0 x rm acts :
  reacting_loop self oxReactions todo x0 rm0 acts0 = Ok (x, rm, acts) →
  (rm0 = None → x0 = 0%Qc) →
  x = (x0 + Qcsum (reacting_part self oxReactions todo).*2)%Qc
  ∧ (x * X_opt rm s
     = x0 * X_opt rm0 s
       + Qcsum (filter (λ p, p.1 = s)
                  (reacting_part self oxReactions todo)).*2)%Qc
  ∧ (rm = None → x = 0%Qc)
  ∧ (rm = None → rm0 = None ∧ reacting_part self oxReactions todo = [])
  ∧ from_option (λ mix, Mixture.contains mix s) false rm
    = from_option (λ mix, Mixture.contains mix s) false rm0
      || bool_decide (s ∈ (reacting_part self oxReactions todo).*1).
Proof.
  revert x0 rm0 acts0.
  induction todo as [|[s1 x1] todo IH]; intros x0 rm0 acts0; simpl.
  { intros [= <- <- <-] Hnone. split_and!; [| |done|done|].
    - unfold reacting_part. simpl. ring.
    - unfold reacting_part. simpl. ring.
    - by rewrite orb_false_r. }
  pose proof (scan_reactions_reacts self s1 oxReactions acts0) as Hscan.
  destruct (scan_reactions self s1 oxReactions acts0) as [found acts1].
  simpl in Hscan. subst found.
  destruct (reacts self oxReactions s1) eqn:Hs1.
  2: { rewrite reacting_part_cons_out by done. apply IH. }
  rewrite reacting_part_cons_in by done.
  rewrite filter_cons. cbn [fst].
  assert (∀ l : list (Molecule * Qc),
            Qcsum ((s1, x1) :: l).*2 = (x1 + Qcsum l.*2)%Qc) as Hcons by done.
  rewrite Hcons.
  assert (Qcsum (if decide (s1 = s)
                 then (s1, x1) :: filter (λ p, p.1 = s)
                                    (reacting_part self oxReactions todo)
                 else filter (λ p, p.1 = s)
                        (reacting_part self oxReactions todo)).*2
          = ((if decide (s1 = s) then x1 else 0)
             + Qcsum (filter (λ p, p.1 = s)
                        (reacting_part self oxReactions todo)).*2)%Qc)
    as ->.
  { destruct (decide (s1 = s)); [by rewrite Hcons|ring]. }
  assert (bool_decide (s ∈ s1 :: (reacting_part self oxReactions todo).*1)
          = bool_decide (s1 = s)
            || bool_decide (s ∈ (reacting_part self oxReactions todo).*1))
    as Hmem.
  { destruct (decide (s1 = s)) as [->|Hne].
    - rewrite (bool_decide_eq_true_2 (s = s)) by done. simpl.
      apply bool_decide_eq_true_2. by left.
    - rewrite (bool_decide_eq_false_2 (s1 = s)) by done. simpl.
      apply bool_decide_ext. rewrite elem_of_cons.
      split; [by intros [?|?]|by right]. }
  rewrite fmap_cons. cbn [fst]. rewrite Hmem.
  destruct rm0 as [mix|]; simpl.
  - destruct (py_div x1 (x0 + x1)) as [q|err] eqn:Hq; simpl; [|done].
    apply InertFacts.py_div_Ok in Hq as [Hden ->].
    intros Hloop _.
    apply IH in Hloop as (-> & Hamount & Hnone & Hnone' & Hcont); [|done].
    split_and!.
    + ring.
    + rewrite Hamount. simpl. rewrite X_dilute_specie.
      destruct (decide (s1 = s)); field; done.
    + done.
    + intros Hrm. by destruct (Hnone' Hrm).
    + rewrite Hcont. simpl.
      unfold Mixture.dilute_specie.
      rewrite ReactingFacts.contains_dilute, contains_pure.
      by rewrite <- orb_assoc.
  - intros Hloop Hx0. rewrite (Hx0 eq_refl) in *.
    apply IH in Hloop as (-> & Hamount & Hnone & Hnone' & Hcont); [|done].
    split_and!.
    + ring.
    + rewrite Hamount. simpl.
      destruct (decide (s1 = s)); ring.
    + done.
    + intros Hrm. by destruct (Hnone' Hrm).
    + rewrite Hcont. simpl. by rewrite contains_pure.
Qed.

End PartitionFacts.

(** ** The outcome of an update *)

Module OutcomeFacts.
Import StoichiometricCombustion MixtureFacts.
Implicit Types (self : t) (oxReactions : list (string * Reaction.t))
  (todo : Mixture.t) (s : Molecule) (rm : option Mixture.t).

(** A mixture that holds every reactant of a reaction holds every
    species the reactants of the reaction hold. *)
Lemma forallb_contains (mix l : Mixture.t) s :
  forallb (λ sR, Mixture.contains mix sR.1) l = true →
  Mixture.contains l s = true → Mixture.contains mix s = true.
Proof.
  intros Hall Hs. apply contains_true in Hs.
  apply list_elem_of_fmap in Hs as (p & -> & Hp).
  rewrite forallb_forall in Hall. apply (Hall p).
  by apply list_elem_of_In.
Qed.

Lemma active_oxidizer self react :
  active self react = true →
  Mixture.contains (_reactants self) (_oxidizer self) = true.
Proof.
  unfold active. intros [[Hall Hox]%andb_true_iff _]%andb_true_iff.
  by eapply forallb_contains.
Qed.

(** An active reaction holds a fuel, and the mixture holds that fuel. *)
Lemma active_fuel self react :
  active self react = true →
  ∃ f, f ∈ _fuels self
       ∧ Mixture.contains (Reaction.reactants react) f = true
       ∧ Mixture.contains (_reactants self) f = true.
Proof.
  unfold active. intros [[Hall Hox]%andb_true_iff Hf]%andb_true_iff.
  apply existsb_exists in Hf as (f & Hin & Hf).
  exists f. split_and!; [by apply list_elem_of_In|done|].
  by eapply forallb_contains.
Qed.

Lemma reacts_true self oxReactions s :
  reacts self oxReactions s = true ↔
  ∃ r, r ∈ oxReactions
       ∧ Mixture.contains (Reaction.reactants r.2) s = true
       ∧ active self r.2 = true.
Proof.
  unfold reacts. rewrite existsb_exists. split.
  - intros (r & Hr & [? ?]%andb_true_iff). exists r.
    split_and!; [by apply list_elem_of_In|done..].
  - intros (r & Hr & ? & ?). exists r.
    split; [by apply list_elem_of_In|]. by apply andb_true_iff.
Qed.

(** Without the oxidizer in the mixture nothing reacts. *)
Lemma reacts_oxidizer self oxReactions s :
  Mixture.contains (_reactants self) (_oxidizer self) = false →
  reacts self oxReactions s = false.
Proof.
  intros Hox. apply not_true_is_false.
  intros (r & _ & _ & Hact)%reacts_true.
  apply active_oxidizer in Hact. by rewrite Hox in Hact.
Qed.

(** While no species reacts the loop changes nothing but the list of
    the reactions seen. *)
Lemma reacting_loop_none self oxReactions todo x0 rm0 acts0 :
  Forall (λ p, reacts self oxReactions p.1 = false) todo →
  ∃ acts, reacting_loop self oxReactions todo x0 rm0 acts0
          = Ok (x0, rm0, acts).
Proof.
  intros Hnone. revert acts0.
  induction Hnone as [|[s1 x1] todo Hs1 _ IH]; intros acts0; simpl.
  { by eexists. }
  pose proof (ReactingFacts.scan_reactions_found self s1 oxReactions acts0)
    as Hscan.
  destruct (scan_reactions self s1 oxReactions acts0) as [found acts1].
  simpl in Hscan, Hs1. unfold reacts in Hs1. rewrite Hs1 in Hscan.
  subst found. apply IH.
Qed.

Lemma inert_loop_None todo inerts0 x0 :
  todo ≠ [] →
  inert_loop None todo inerts0 x0
  = Raise (TypeError "argument of type 'NoneType' is not iterable").
Proof. by destruct todo as [|[s x] todo]. Qed.

Section WithDatabase.
Context (database : Database).

Lemma oxidation_reactions_Ok oxidizer fuels acc :
  Forall (λ f, is_Some (find_reaction (reactions database) f oxidizer))
         fuels →
  ∃ oxReactions,
    oxidation_reactions database oxidizer fuels acc = Ok oxReactions.
Proof.
  intros Hall. revert acc.
  induction Hall as [|f fuels [react Hf] _ IH]; intros acc; simpl.
  - by eexists.
  - rewrite Hf. apply IH.
Qed.

(** The empty mixture passes through. *)
Lemma balance_empty self :
  _reactants self = [] → _fuels self = [] →
  balance database self = Ok (RetSelf, []).
Proof. intros Hr Hf. unfold balance. rewrite Hr, Hf. done. Qed.

(** No other mixture does. *)
Lemma balance_not_self self products :
  _reactants self ≠ [] →
  balance database self ≠ Ok (RetSelf, products).
Proof.
  intros Hne. unfold balance.
  destruct (oxidation_reactions _ _ _ _) as [oxReactions|]; simpl; [|done].
  destruct (reacting_loop _ _ _ _ _ _) as [[[xReact rm] acts]|]; simpl;
    [|done].
  destruct rm as [mix|].
  - destruct (inert_loop _ _ _ _) as [[inerts xInert]|]; simpl; [|done].
    by destruct (reacted_products _ _ _ _).
  - by rewrite inert_loop_None.
Qed.

End WithDatabase.
End OutcomeFacts.

(** X11.  The branch of lines 245-247, which hands the reactants on as
    the products and returns the instance, is taken by the empty
    mixture and by no other: an update that recomputes returns [self]
    exactly when the new mixture is empty, and the products are then
    the empty mixture. *)
Theorem pass_through_only_empty (database : Database)
    (self : StoichiometricCombustion.t) (reactants : Mixture.t) :
  reactants ≠ StoichiometricCombustion._reactants self →
  ((StoichiometricCombustion._update database self reactants).1
   = Ok StoichiometricCombustion.RetSelf ↔ reactants = [])
  ∧ (reactants = [] →
     StoichiometricCombustion._update database self reactants
     = (Ok StoichiometricCombustion.RetSelf,
        StoichiometricCombustion.set_products
          (StoichiometricCombustion.set_fuels
             (StoichiometricCombustion.set_reactants self []) []) [])).
Proof.
  intros Hne.
  assert (reactants = [] →
          StoichiometricCombustion._update database self reactants
          = (Ok StoichiometricCombustion.RetSelf,
             StoichiometricCombustion.set_products
               (StoichiometricCombustion.set_fuels
                  (StoichiometricCombustion.set_reactants self []) []) []))
    as Hempty.
  { intros ->. rewrite UpdateFacts._update_changed by done. cbv zeta.
    by rewrite OutcomeFacts.balance_empty. }
  split; [|done]. split; [|intros Hnil; by rewrite Hempty].
  destruct (decide (reactants = [])) as [|Hnil]; [done|].
  rewrite UpdateFacts._update_changed by done. simpl.
  pose proof (OutcomeFacts.balance_not_self database
                (StoichiometricCombustion._updateFuels database
                   (StoichiometricCombustion.set_reactants self reactants)))
    as Hbal.
  destruct (StoichiometricCombustion.balance _ _) as [[r products]|err];
    simpl; [|done].
  intros [= ->]. by destruct (Hbal products).
Qed.

Lemma pass_through_only_empty_witness :
  ((StoichiometricCombustion._update Examples.chemistry
      (StoichiometricCombustion.set_reactants Examples.fresh
         Cases.stoichiometric) []).1
   = Ok StoichiometricCombustion.RetSelf ↔ [] = @nil (Molecule * Qc))
  ∧ ([] = @nil (Molecule * Qc) →
     StoichiometricCombustion._update Examples.chemistry
       (StoichiometricCombustion.set_reactants Examples.fresh
          Cases.stoichiometric) []
     = (Ok StoichiometricCombustion.RetSelf,
        StoichiometricCombustion.set_products
          (StoichiometricCombustion.set_fuels
             (StoichiometricCombustion.set_reactants
                (StoichiometricCombustion.set_reactants Examples.fresh
                   Cases.stoichiometric) []) []) [])).
Proof.
  apply (pass_through_only_empty Examples.chemistry
           (StoichiometricCombustion.set_reactants Examples.fresh
              Cases.stoichiometric) []).
  discriminate.
Defined.

(** X12.  A mixture without the oxidizer cannot be updated, fuels or
    not.  When the update recomputes a mixture that is not empty and
    does not hold the oxidizer, and the database has an oxidation
    reaction for every fuel of the mixture, no reaction is active,
    [reactingMix] stays [None] and the test [specie in reactingMix] of
    line 228 raises [TypeError]; the products are not assigned. *)
Theorem update_without_oxidizer_raises (database : Database)
    (self : StoichiometricCombustion.t) (reactants : Mixture.t) :
  let self' := StoichiometricCombustion._updateFuels database
                 (StoichiometricCombustion.set_reactants self reactants) in
  reactants ≠ StoichiometricCombustion._reactants self →
  reactants ≠ [] →
  Mixture.contains reactants (StoichiometricCombustion._oxidizer self) = false →
  Forall (λ f, is_Some (StoichiometricCombustion.find_reaction
                          (reactions database) f
                          (StoichiometricCombustion._oxidizer self)))
         (StoichiometricCombustion._fuels self') →
  StoichiometricCombustion._update database self reactants
  = (Raise (TypeError "argument of type 'NoneType' is not iterable"), self').
Proof.
  intros self' Hne Hnil Hox Hfuels.
  rewrite UpdateFacts._update_changed by done. simpl. fold self'.
  unfold StoichiometricCombustion.balance.
  change (StoichiometricCombustion._oxidizer self')
    with (StoichiometricCombustion._oxidizer self).
  destruct (OutcomeFacts.oxidation_reactions_Ok database _ _ [] Hfuels)
    as [oxReactions ->]. simpl.
  change (StoichiometricCombustion._reactants self') with reactants.
  destruct (OutcomeFacts.reacting_loop_none self' oxReactions reactants
              0%Qc None []) as [acts ->].
  { apply Forall_forall. intros p _.
    by apply OutcomeFacts.reacts_oxidizer. }
  simpl. by rewrite OutcomeFacts.inert_loop_None.
Qed.

Lemma update_without_oxidizer_raises_witness :
  StoichiometricCombustion._update Examples.chemistry Examples.fresh
    Cases.no_oxygen
  = (Raise (TypeError "argument of type 'NoneType' is not iterable"),
     StoichiometricCombustion._updateFuels Examples.chemistry
       (StoichiometricCombustion.set_reactants Examples.fresh
          Cases.no_oxygen)).
Proof.
  apply (update_without_oxidizer_raises Examples.chemistry Examples.fresh
           Cases.no_oxygen).
  - discriminate.
  - discriminate.
  - reflexivity.
  - apply (bool_decide_unpack _). vm_compute. exact I.
Defined.

(** ** The two parts of the reactants *)

Module SplitFacts.
Import StoichiometricCombustion MixtureFacts.
Implicit Types (self : t) (oxReactions : list (string * Reaction.t))
  (todo reactants : Mixture.t) (s : Molecule) (rm : option Mixture.t).

(** With positive mole fractions no division of the loop fails. *)
Lemma reacting_loop_returns self oxReactions todo x0 rm0 acts0 :
  positive_fractions todo → (0 ≤ x0)%Qc →
  ∃ x rm acts,
    reacting_loop self oxReactions todo x0 rm0 acts0 = Ok (x, rm, acts).
Proof.
  intros Hpos. revert x0 rm0 acts0.
  induction Hpos as [|[s1 x1] todo Hx1 _ IH]; intros x0 rm0 acts0 Hx0; simpl.
  { by eexists _, _, _. }
  simpl in Hx1.
  assert (0 < x0 + x1)%Qc as Hsum by by apply Qcplus_nonneg_pos.
  destruct (scan_reactions self s1 oxReactions acts0) as [found acts1].
  destruct found; [|by apply IH].
  destruct rm0 as [mix|]; simpl.
  - rewrite InertFacts.py_div_nonzero; [|by apply Qclt_not_eq in Hsum].
    simpl. apply IH. by apply Qclt_le_weak.
  - apply IH. by apply Qclt_le_weak.
Qed.

Lemma reacting_part_nil self oxReactions todo :
  reacting_part self oxReactions todo = [] ↔
  Forall (λ p, reacts self oxReactions p.1 = false) todo.
Proof.
  induction todo as [|[s x] todo IH].
  { split; [by constructor|done]. }
  destruct (reacts self oxReactions s) eqn:Hs.
  - rewrite PartitionFacts.reacting_part_cons_in by done.
    split; [done|]. intros Hall. apply Forall_cons in Hall as [Hs' _].
    simpl in Hs'. by rewrite Hs in Hs'.
  - rewrite PartitionFacts.reacting_part_cons_out by done.
    rewrite IH. split; [by constructor|].
    by intros [_ ?]%Forall_cons.
Qed.

(** A species is among the reacting entries when the mixture holds it
    and it reacts. *)
Lemma elem_of_reacting_part self oxReactions todo s :
  bool_decide (s ∈ (reacting_part self oxReactions todo).*1)
  = Mixture.contains todo s && reacts self oxReactions s.
Proof.
  apply eq_true_iff_eq.
  rewrite bool_decide_eq_true, andb_true_iff, contains_true.
  unfold reacting_part, Mixture.species. split.
  - intros (p & -> & [Hp Hin]%list_elem_of_filter)%list_elem_of_fmap.
    split; [by apply (list_elem_of_fmap_2 fst)|done].
  - intros [(p & -> & Hin)%list_elem_of_fmap Hs].
    apply (list_elem_of_fmap_2 fst). by apply list_elem_of_filter.
Qed.

(** The loop started as [_update] starts it. *)
Lemma reacting_loop_start self oxReactions todo x rm acts :
  reacting_loop self oxReactions todo 0%Qc None [] = Ok (x, rm, acts) →
  x = Qcsum (reacting_part self oxReactions todo).*2
  ∧ (rm = None ↔ reacting_part self oxReactions todo = [])
  ∧ (∀ s, (x * X_opt rm s
           = Qcsum (filter (λ p, p.1 = s)
                      (reacting_part self oxReactions todo)).*2)%Qc)
  ∧ (∀ s, from_option (λ mix, Mixture.contains mix s) false rm
          = Mixture.contains todo s && reacts self oxReactions s).
Proof.
  intros Hloop. split_and!.
  - destruct (PartitionFacts.reacting_loop_inv _ _ (_oxidizer self)
                _ _ _ _ _ _ _ Hloop) as (-> & _); [done|]. ring.
  - split.
    + intros Hrm.
      by destruct (PartitionFacts.reacting_loop_inv _ _ (_oxidizer self)
                     _ _ _ _ _ _ _ Hloop) as (_ & _ & _ & Hnil & _);
        [done|destruct (Hnil Hrm)].
    + intros Hnil%reacting_part_nil.
      destruct (OutcomeFacts.reacting_loop_none self oxReactions todo
                  0%Qc None [] Hnil) as [acts' Hloop'].
      rewrite Hloop' in Hloop. by injection Hloop as _ <- _.
  - intros s.
    destruct (PartitionFacts.reacting_loop_inv _ _ s _ _ _ _ _ _ _ Hloop)
      as (_ & -> & _); [done|]. simpl. ring.
  - intros s.
    destruct (PartitionFacts.reacting_loop_inv _ _ s _ _ _ _ _ _ _ Hloop)
      as (_ & _ & _ & _ & ->); [done|]. simpl.
    apply elem_of_reacting_part.
Qed.

(** The inerts are the entries whose species does not react. *)
Lemma inert_part_reacts self oxReactions reactants mix todo :
  (∀ s, Mixture.contains mix s
        = Mixture.contains reactants s && reacts self oxReactions s) →
  todo ⊆ reactants →
  inert_part todo mix
  = filter (λ p, reacts self oxReactions p.1 = false)
           (todo : list (Molecule * Qc)).
Proof.
  intros Hmix. induction todo as [|[s x] todo IH]; intros Hsub; [done|].
  assert (Mixture.contains reactants s = true) as Hin.
  { apply contains_true.
    assert ((s, x) ∈ reactants) as Hsx by (apply Hsub; by left).
    by apply (list_elem_of_fmap_2 fst) in Hsx. }
  assert (inert_part todo mix
          = filter (λ p, reacts self oxReactions p.1 = false)
                   (todo : list (Molecule * Qc))) as IH'.
  { apply IH. intros p Hp. apply Hsub. by right. }
  rewrite filter_cons. simpl.
  destruct (reacts self oxReactions s) eqn:Hs.
  - rewrite InertFacts.inert_part_reacting; [|by rewrite Hmix, Hin, Hs].
    by rewrite decide_False.
  - rewrite InertFacts.inert_part_inert; [|by rewrite Hmix, Hin, Hs].
    by rewrite decide_True, IH'.
Qed.

(** The entries that react and those that do not make up the mixture. *)
Lemma Qcsum_split (b : Molecule → bool) (l : list (Molecule * Qc)) :
  (Qcsum (filter (λ p, b p.1 = true) l).*2
   + Qcsum (filter (λ p, b p.1 = false) l).*2)%Qc = Qcsum l.*2.
Proof.
  induction l as [|[s x] l IH]; [done|].
  assert (∀ (y : Qc) k, Qcsum (y :: k) = (y + Qcsum k)%Qc) as Hcons by done.
  rewrite !filter_cons. cbn [fst].
  destruct (b s).
  - rewrite decide_True, decide_False by done.
    rewrite !fmap_cons, !Hcons, <- IH. cbn [snd]. ring.
  - rewrite decide_False, decide_True by done.
    rewrite !fmap_cons, !Hcons, <- IH. cbn [snd]. ring.
Qed.

Lemma Qcsum_pos (l : list Qc) :
  l ≠ [] → Forall (λ x, 0 < x)%Qc l → (0 < Qcsum l)%Qc.
Proof.
  intros Hne Hall. destruct Hall as [|x l Hx Hall]; [done|]. simpl.
  rewrite Qcplus_comm. apply Qcplus_nonneg_pos; [|done].
  apply InertFacts.Qcsum_nonneg.
  clear -Hall.
  induction Hall as [|y l Hy _ IH]; constructor; [by apply Qclt_le_weak|done].
Qed.

Lemma positive_filter (P : Molecule * Qc → Prop) `{!∀ p, Decision (P p)}
    (l : list (Molecule * Qc)) :
  positive_fractions l →
  Forall (λ x, 0 < x)%Qc (filter P l).*2.
Proof.
  unfold positive_fractions. induction 1 as [|p l Hp _ IH]; [constructor|].
  rewrite filter_cons. case_decide; [|done]. by constructor.
Qed.

(** The entries of one species, in a part of a mixture that holds the
    species once. *)
Lemma amount_elem_of (P : Molecule * Qc → Prop) `{!∀ p, Decision (P p)}
    (l : list (Molecule * Qc)) s x :
  NoDup l.*1 → (s, x) ∈ l → P (s, x) →
  Qcsum (filter (λ p, p.1 = s) (filter P l)).*2 = x.
Proof.
  intros Hnodup Hin HP.
  induction l as [|[s0 x0] l IH]; [by apply elem_of_nil in Hin|].
  simpl in Hnodup. apply NoDup_cons in Hnodup as [Hnotin Hnodup].
  rewrite filter_cons.
  apply elem_of_cons in Hin as [[= <- <-]|Hin].
  - rewrite decide_True by done. rewrite filter_cons, decide_True by done.
    simpl.
    assert (filter (λ p, p.1 = s) (filter P l) = []) as ->.
    { apply InertFacts.filter_none.
      intros [s' x'] [_ Hin']%list_elem_of_filter.
      simpl. intros ->. apply Hnotin.
      by apply (list_elem_of_fmap_2 fst) in Hin'. }
    simpl. ring.
  - assert (s0 ≠ s) as Hne.
    { intros ->. apply Hnotin. by apply (list_elem_of_fmap_2 fst) in Hin. }
    case_decide; [rewrite filter_cons, decide_False by done|]; by apply IH.
Qed.

End SplitFacts.

(** X13.  The two loops of lines 179-233 split the reactants in two.
    With positive mole fractions the first loop returns; [xReact] is
    the sum of the fractions of the entries whose species is held by
    an active reaction, and [reactingMix] is [None] exactly when there
    is no such entry.  Otherwise [reactingMix] holds the species of the
    reactants that react and no other, the second loop returns, and
    [xReact + xInert] is the sum of all the fractions of the reactants,
    with [xReact] positive. *)
Theorem reactants_partition (self : StoichiometricCombustion.t)
    (oxReactions : list (string * Reaction.t)) (reactants : Mixture.t) :
  positive_fractions reactants →
  ∃ xReact reactingMix activeReactions,
    StoichiometricCombustion.reacting_loop self oxReactions reactants
      0%Qc None [] = Ok (xReact, reactingMix, activeReactions)
    ∧ xReact = Qcsum (reacting_part self oxReactions reactants).*2
    ∧ (reactingMix = None ↔
       Forall (λ p, reacts self oxReactions p.1 = false) reactants)
    ∧ ∀ mix, reactingMix = Some mix →
        (∀ s, Mixture.contains mix s
              = Mixture.contains reactants s && reacts self oxReactions s)
        ∧ (0 < xReact)%Qc
        ∧ ∃ inerts xInert,
            StoichiometricCombustion.inert_loop reactingMix reactants
              None 0%Qc = Ok (inerts, xInert)
            ∧ (xReact + xInert = Qcsum reactants.*2)%Qc.
Proof.
  intros Hpos.
  destruct (SplitFacts.reacting_loop_returns self oxReactions reactants
              0%Qc None [] Hpos) as (xReact & rm & acts & Hloop); [done|].
  exists xReact, rm, acts.
  destruct (SplitFacts.reacting_loop_start _ _ _ _ _ _ Hloop)
    as (HxReact & Hnone & _ & Hcont).
  split_and!; [done|done|by rewrite <- SplitFacts.reacting_part_nil|].
  intros mix ->. simpl in Hcont. split_and!; [done| |].
  - rewrite HxReact. apply SplitFacts.Qcsum_pos.
    + intros Hnil%fmap_nil_inv. by apply Hnone in Hnil.
    + by apply SplitFacts.positive_filter.
  - destruct (InertFacts.inert_loop_returns mix reactants None 0%Qc)
      as (inerts & xI & Hinert); [done..|].
    exists inerts, xI. split; [done|].
    destruct (InertFacts.inert_loop_inv _ (StoichiometricCombustion._oxidizer self)
                _ _ _ _ _ Hinert) as (-> & _); [done|].
    unfold inert_fraction.
    rewrite (SplitFacts.inert_part_reacts self oxReactions reactants)
      by done.
    rewrite HxReact, Qcplus_0_l. unfold reacting_part.
    apply (SplitFacts.Qcsum_split (reacts self oxReactions)).
Qed.

Lemma reactants_partition_witness :
  ∃ xReact reactingMix activeReactions,
    StoichiometricCombustion.reacting_loop
      (StoichiometricCombustion._updateFuels Examples.chemistry
         (StoichiometricCombustion.set_reactants Examples.fresh Cases.lean))
      [("CH4", Examples.CH4_oxidation)] Cases.lean 0%Qc None []
    = Ok (xReact, reactingMix, activeReactions)
    ∧ xReact = Examples.frac 4 10
    ∧ reactingMix ≠ None.
Proof.
  destruct (reactants_partition
              (StoichiometricCombustion._updateFuels Examples.chemistry
                 (StoichiometricCombustion.set_reactants Examples.fresh
                    Cases.lean))
              [("CH4", Examples.CH4_oxidation)] Cases.lean)
    as (xReact & rm & acts & Hloop & HxReact & Hnone & _).
  - apply (bool_decide_unpack _). vm_compute. exact I.
  - exists xReact, rm, acts. split_and!; [exact Hloop| |].
    + rewrite HxReact. apply (bool_decide_unpack _). vm_compute. exact I.
    + intros Hrm. apply Hnone in Hrm. revert Hrm.
      apply (bool_decide_unpack _). vm_compute. exact I.
Defined.

(** X14.  Each of the two sub-mixtures is the restriction of the
    reactants, renormalized.  When no species occurs twice and the
    fractions are positive, a species of the reactants that reacts has
    in [reactingMix] its fraction in the reactants divided by
    [xReact]; one that does not react is absent from [reactingMix] and
    has in [inerts] its fraction divided by [xInert]. *)
Theorem sub_mixtures_renormalized (self : StoichiometricCombustion.t)
    (oxReactions : list (string * Reaction.t)) (reactants : Mixture.t)
    (xReact : Qc) (reactingMix : Mixture.t)
    (activeReactions : list Reaction.t)
    (inerts : option Mixture.t) (xInert : Qc) (s : Molecule) (x : Qc) :
  NoDup (Mixture.species reactants) →
  positive_fractions reactants →
  StoichiometricCombustion.reacting_loop self oxReactions reactants
    0%Qc None [] = Ok (xReact, Some reactingMix, activeReactions) →
  StoichiometricCombustion.inert_loop (Some reactingMix) reactants
    None 0%Qc = Ok (inerts, xInert) →
  (s, x) ∈ reactants →
  (reacts self oxReactions s = true →
   Mixture.X reactingMix s = (x / xReact)%Qc)
  ∧ (reacts self oxReactions s = false →
     Mixture.contains reactingMix s = false
     ∧ Mixture.X reactingMix s = 0%Qc
     ∧ X_opt inerts s = (x / xInert)%Qc).
Proof.
  intros Hnodup Hpos Hloop Hinert Hin.
  destruct (SplitFacts.reacting_loop_start _ _ _ _ _ _ Hloop)
    as (_ & _ & Hamount & Hcont).
  assert (0 < x)%Qc as Hx.
  { unfold positive_fractions in Hpos. rewrite Forall_forall in Hpos.
    by apply (Hpos (s, x)). }
  assert (∀ a b : Qc, (a * b = x → b = x / a)%Qc) as Hdiv.
  { intros a b Hab.
    assert (a ≠ 0%Qc) as Ha.
    { intros ->. rewrite Qcmult_0_l in Hab. subst x.
      by apply Qclt_not_eq in Hx. }
    rewrite <- Hab. by field. }
  split.
  - intros Hs. apply Hdiv. simpl in Hamount. rewrite Hamount.
    unfold reacting_part. by apply SplitFacts.amount_elem_of.
  - intros Hs.
    assert (Mixture.contains reactingMix s = false) as Hout.
    { specialize (Hcont s). simpl in Hcont.
      by rewrite Hcont, Hs, andb_false_r. }
    split_and!; [done|by apply MixtureFacts.X_absent|].
    apply Hdiv.
    destruct (InertFacts.inert_loop_inv _ s _ _ _ _ _ Hinert)
      as (_ & -> & _); [done|].
    simpl. rewrite Qcmult_0_l, Qcplus_0_l.
    by apply InertFacts.inert_amount_elem_of.
Qed.

Lemma sub_mixtures_renormalized_witness :
  Mixture.X [(Examples.CH4, Examples.frac 1 4);
             (Examples.oxygen, Examples.frac 3 4)] Examples.oxygen
  = (Examples.frac 3 10 / Examples.frac 4 10)%Qc.
Proof.
  destruct (sub_mixtures_renormalized
              (StoichiometricCombustion._updateFuels Examples.chemistry
                 (StoichiometricCombustion.set_reactants Examples.fresh
                    Cases.lean))
              [("CH4", Examples.CH4_oxidation)] Cases.lean
              (Examples.frac 4 10)
              [(Examples.CH4, Examples.frac 1 4);
               (Examples.oxygen, Examples.frac 3 4)]
              [Examples.CH4_oxidation]
              (Some (Mixture.pure Examples.N2)) (Examples.frac 6 10)
              Examples.oxygen (Examples.frac 3 10))
    as [Hreacting _].
  - apply (bool_decide_unpack _). vm_compute. exact I.
  - apply (bool_decide_unpack _). vm_compute. exact I.
  - apply (bool_decide_unpack _). vm_compute. exact I.
  - apply (bool_decide_unpack _). vm_compute. exact I.
  - apply (bool_decide_unpack _). vm_compute. exact I.
  - apply Hreacting. reflexivity.
Defined.

(** ** What the reacting mixture holds *)

Module OxidizerFacts.

(** An active reaction brings the oxidizer and one of the fuels into
    the reacting mixture. *)
Lemma holds_oxidizer (self : StoichiometricCombustion.t)
    (oxReactions : list (string * Reaction.t)) (xReact : Qc)
    (reactingMix : Mixture.t) (activeReactions : list Reaction.t) :
  StoichiometricCombustion.reacting_loop self oxReactions
    (StoichiometricCombustion._reactants self) 0%Qc None []
  = Ok (xReact, Some reactingMix, activeReactions) →
  Mixture.contains reactingMix (StoichiometricCombustion._oxidizer self) = true
  ∧ Mixture.getX reactingMix (StoichiometricCombustion._oxidizer self)
    = Ok (Mixture.X reactingMix (StoichiometricCombustion._oxidizer self))
  ∧ ∃ f, f ∈ StoichiometricCombustion._fuels self
         ∧ Mixture.contains reactingMix f = true.
Proof.
  intros Hloop.
  destruct (SplitFacts.reacting_loop_start _ _ _ _ _ _ Hloop)
    as (_ & Hnone & _ & Hcont).
  simpl in Hcont.
  assert (∃ r, r ∈ oxReactions
               ∧ StoichiometricCombustion.active self r.2 = true)
    as (r & Hr & Hact).
  { destruct (reacting_part self oxReactions
                (StoichiometricCombustion._reactants self))
      as [|p l] eqn:Hpart.
    - destruct Hnone as [_ Hnil]. by specialize (Hnil eq_refl).
    - assert (p ∈ reacting_part self oxReactions
                    (StoichiometricCombustion._reactants self)) as Hp
        by (rewrite Hpart; by left).
      apply list_elem_of_filter in Hp as [Hp _].
      apply OutcomeFacts.reacts_true in Hp as (r & Hr & _ & Hact).
      by exists r. }
  assert (Mixture.contains reactingMix
            (StoichiometricCombustion._oxidizer self) = true) as Hox.
  { rewrite Hcont. apply andb_true_iff. split.
    - by apply (OutcomeFacts.active_oxidizer self r.2).
    - apply OutcomeFacts.reacts_true. exists r. split_and!; [done| |done].
      unfold StoichiometricCombustion.active in Hact.
      by apply andb_true_iff in Hact as [[_ ?]%andb_true_iff _]. }
  split_and!; [done| |].
  - unfold Mixture.getX. by rewrite Hox.
  - destruct (OutcomeFacts.active_fuel self r.2 Hact) as (f & Hf & Hrf & Hmf).
    exists f. split; [done|]. rewrite Hcont, Hmf. simpl.
    apply OutcomeFacts.reacts_true. by exists r.
Qed.

End OxidizerFacts.

(** X15.  Whenever the update finds something reacting, the reacting
    mixture holds the oxidizer and at least one of the identified
    fuels: the lookup [reactingMix[self.oxidizer]] of line 316 cannot
    fail. *)
Theorem reacting_mixture_holds_oxidizer (self : StoichiometricCombustion.t)
    (oxReactions : list (string * Reaction.t)) (xReact : Qc)
    (reactingMix : Mixture.t) (activeReactions : list Reaction.t) :
  StoichiometricCombustion.reacting_loop self oxReactions
    (StoichiometricCombustion._reactants self) 0%Qc None []
  = Ok (xReact, Some reactingMix, activeReactions) →
  Mixture.contains reactingMix (StoichiometricCombustion._oxidizer self) = true
  ∧ Mixture.getX reactingMix (StoichiometricCombustion._oxidizer self)
    = Ok (Mixture.X reactingMix (StoichiometricCombustion._oxidizer self))
  ∧ ∃ f, f ∈ StoichiometricCombustion._fuels self
         ∧ Mixture.contains reactingMix f = true.
Proof. apply OxidizerFacts.holds_oxidizer. Qed.

Lemma reacting_mixture_holds_oxidizer_witness :
  Mixture.contains [(Examples.CH4, Examples.frac 1 4);
                    (Examples.oxygen, Examples.frac 3 4)] Examples.oxygen
  = true
  ∧ Mixture.getX [(Examples.CH4, Examples.frac 1 4);
                  (Examples.oxygen, Examples.frac 3 4)] Examples.oxygen
    = Ok (Mixture.X [(Examples.CH4, Examples.frac 1 4);
                     (Examples.oxygen, Examples.frac 3 4)] Examples.oxygen)
  ∧ ∃ f, f ∈ [Examples.CH4]
         ∧ Mixture.contains [(Examples.CH4, Examples.frac 1 4);
                             (Examples.oxygen, Examples.frac 3 4)] f
           = true.
Proof.
  apply (reacting_mixture_holds_oxidizer
           (StoichiometricCombustion._updateFuels Examples.chemistry
              (StoichiometricCombustion.set_reactants Examples.fresh
                 Cases.lean))
           [("CH4", Examples.CH4_oxidation)] (Examples.frac 4 10)
           [(Examples.CH4, Examples.frac 1 4);
            (Examples.oxygen, Examples.frac 3 4)]
           [Examples.CH4_oxidation]).
  apply (bool_decide_unpack _). vm_compute. exact I.
Defined.

(** X16.  The dictionary of oxidation reactions.  The loop of lines
    166-177 succeeds exactly when the database holds, for every fuel,
    a reaction with the fuel and the oxidizer among its reactants.  It
    then maps the name of each fuel, and no other name, to the first
    such reaction of the database, which is a reaction of the database
    that holds both the fuel and the oxidizer. *)
Theorem oxidation_reactions_sound (database : Database)
    (oxidizer : Molecule) (fuels : list Molecule) :
  (Forall (λ f, is_Some (StoichiometricCombustion.find_reaction
                           (reactions database) f oxidizer)) fuels ↔
   ∃ oxReactions,
     StoichiometricCombustion.oxidation_reactions database oxidizer fuels []
     = Ok oxReactions)
  ∧ ∀ oxReactions,
      StoichiometricCombustion.oxidation_reactions database oxidizer fuels []
      = Ok oxReactions →
      (∀ k, is_Some (dict_get oxReactions k) ↔ k ∈ name <$> fuels)
      ∧ ∀ f, f ∈ fuels →
          ∃ react,
            dict_get oxReactions (name f) = Some react
            ∧ StoichiometricCombustion.find_reaction (reactions database)
                f oxidizer = Some react
            ∧ react ∈ (reactions database).*2
            ∧ Mixture.contains (Reaction.reactants react) f = true
            ∧ Mixture.contains (Reaction.reactants react) oxidizer = true.
Proof.
  split.
  - split; [apply OutcomeFacts.oxidation_reactions_Ok|].
    intros [oxReactions Hox]. apply Forall_forall. intros f Hf.
    by eapply SystemFacts.oxidation_reactions_found.
  - intros oxReactions Hox. split.
    + intros k.
      pose proof (SystemFacts.oxidation_reactions_lookup database _ _ _ _
                    (mkMolecule k) Hox) as Hk.
      simpl in Hk. rewrite Hk. case_decide as Hin.
      * split.
        -- intros _. by apply (list_elem_of_fmap_2 name) in Hin.
        -- intros _. by eapply SystemFacts.oxidation_reactions_found.
      * split; [by intros [? ?]|].
        intros (f & Hname & Hf)%list_elem_of_fmap. destruct Hin.
        by rewrite (SystemFacts.name_inj (mkMolecule k) f).
    + intros f Hf.
      destruct (SystemFacts.oxidation_reactions_found database _ _ _ _ _
                  Hox Hf) as [react Hreact].
      exists react.
      destruct (SystemFacts.find_reaction_Some _ _ _ _ Hreact)
        as (? & ? & ?).
      split_and!; try done.
      rewrite (SystemFacts.oxidation_reactions_lookup database _ _ _ _ f Hox).
      by rewrite decide_True.
Qed.

(** ** One fuel *)

Module SingleFuelFacts.
Import StoichiometricCombustion MixtureFacts.

(** The determinant of a 2x2 array. *)
Lemma det2 (a b c d : Qc) :
  np.det [[a; b]; [c; d]] = (a * d - b * c)%Qc.
Proof.
  unfold np.det. cbn -[Qcplus Qcmult Qcopp Qcminus Q2Qc].
  unfold np.sign. cbn -[Qcplus Qcmult Qcopp Qcminus Q2Qc]. ring.
Qed.

(** The system of one fuel and its solution, whatever the fraction [a]
    of the fuel in its reaction. *)
Lemma one_nonzero : 1%Qc ≠ 0%Qc.
Proof. apply (bool_decide_unpack _). vm_compute. exact I. Qed.

Lemma solve_one_fuel (a : Qc) :
  stoich_solve [[a; (- 1)%Qc]; [1%Qc; 0%Qc]] [[0%Qc]; [1%Qc]] = Ok [1%Qc].
Proof.
  unfold stoich_solve, np.linalg_solve.
  rewrite det2.
  replace (a * 0 - - 1 * 1)%Qc with 1%Qc by ring.
  case_decide as Hd; [by destruct one_nonzero|].
  cbn -[Qcplus Qcmult Qcopp Qcminus Qcdiv Q2Qc np.det].
  rewrite !det2.
  replace ((0 * 0 - - 1 * 1) / 1)%Qc with 1%Qc
    by (field; apply one_nonzero).
  done.
Qed.

(** The blend of one mixture, with the weight one. *)
Lemma mixtureBlend_one (mix : Mixture.t) :
  ∃ blend,
    mixtureBlend [mix] [1%Qc] = Ok blend
    ∧ Mixture.species blend = remove_dups (Mixture.species mix)
    ∧ ∀ s, Mixture.X blend s = Mixture.X mix s.
Proof.
  unfold mixtureBlend. simpl.
  replace (1 + 0)%Qc with 1%Qc by ring.
  eexists. split_and!; [done| |].
  - unfold Mixture.species. rewrite <- list_fmap_compose.
    rewrite app_nil_r. apply list_fmap_id.
  - intros s.
    rewrite (BlendFacts.X_tabulate (λ s, (blend_X [mix] [1%Qc] s / 1)%Qc)).
    unfold blend_X. simpl.
    case_decide as Hin; [field; apply one_nonzero|].
    rewrite elem_of_remove_dups, app_nil_r in Hin.
    rewrite X_absent; [done|by apply contains_false].
Qed.

(** The fuel-only sub-mixture of a mixture that holds one fuel. *)
Lemma one_fuel_mix (database : Database) (self0 : t) (f : Molecule) :
  let self := _updateFuels database self0 in
  positive_fractions (_reactants self0) →
  _fuels self = [f] →
  fuel database self = Ok [(f, 1%Qc)].
Proof.
  intros self Hpos Hfuels.
  unfold fuel, Mixture.extract. simpl.
  change (filter (λ s, name s ∈ Fuels database)
            (Mixture.species (_reactants self0))) with (_fuels self).
  rewrite Hfuels.
  set (kept := filter (λ p : Molecule * Qc, p.1 ∈ [f])
                 (_reactants self0 : list (Molecule * Qc))).
  assert (kept.*1 = [f]) as Hkept.
  { unfold kept.
    etrans; [apply (SystemFacts.filter_species
                      (λ s, name s ∈ Fuels database))|exact Hfuels].
    intros e He. rewrite <- Hfuels. simpl. rewrite list_elem_of_filter.
    split; [by intros [? _]|]. intros HP. split; [done|].
    by apply (list_elem_of_fmap_2 fst) in He. }
  assert (∀ e, e ∈ kept → (0 < e.2)%Qc) as Hkpos.
  { intros e [_ He]%list_elem_of_filter.
    unfold positive_fractions in Hpos. rewrite Forall_forall in Hpos.
    by apply Hpos. }
  destruct kept as [|[a x] [|e kept]]; try done.
  simpl in Hkept. injection Hkept as ->.
  assert (0 < x)%Qc as Hx by (apply (Hkpos (f, x)); by left).
  simpl.
  assert ((x + 0)%Qc ≠ 0%Qc) as Htotal.
  { rewrite Qcplus_0_r. intros ->. by apply Qclt_not_eq in Hx. }
  rewrite decide_False by done.
  simpl. replace (x / (x + 0))%Qc with 1%Qc; [done|].
  field. intros ->. by apply Qclt_not_eq in Hx.
Qed.

(** The system, its solution and the two blends. *)
Lemma one_fuel_system (database : Database)
    (self0 : StoichiometricCombustion.t) (f : Molecule)
    (react : Reaction.t) :
  let self := StoichiometricCombustion._updateFuels database self0 in
  let oxidizer := StoichiometricCombustion._oxidizer self in
  positive_fractions (StoichiometricCombustion._reactants self0) →
  StoichiometricCombustion._fuels self = [f] →
  StoichiometricCombustion.find_reaction (reactions database) f oxidizer
  = Some react →
  ∃ (oxReactions : list (string * Reaction.t))
    (stoichReactingMix prods : Mixture.t),
    StoichiometricCombustion.oxidation_reactions database oxidizer
      (StoichiometricCombustion._fuels self) [] = Ok oxReactions
    ∧ StoichiometricCombustion.fuel database self = Ok [(f, 1%Qc)]
    ∧ StoichiometricCombustion.xStoich self oxReactions [(f, 1%Qc)]
      = Ok [1%Qc]
    ∧ StoichiometricCombustion.blend_reactions self oxReactions
        Reaction.reactants [1%Qc] = Ok stoichReactingMix
    ∧ (∀ s, Mixture.X stoichReactingMix s
            = Mixture.X (Reaction.reactants react) s)
    ∧ StoichiometricCombustion.blend_reactions self oxReactions
        Reaction.products [1%Qc] = Ok prods
    ∧ (∀ s, Mixture.X prods s = Mixture.X (Reaction.products react) s).
Proof.
  intros self oxidizer Hpos Hfuels Hfind.
  destruct (mixtureBlend_one (Reaction.reactants react))
    as (stoich & Hstoich & _ & HXstoich).
  destruct (mixtureBlend_one (Reaction.products react))
    as (prods & Hprods & _ & HXprods).
  exists [(name f, react)], stoich, prods.
  assert (StoichiometricCombustion.oxidation_reactions database oxidizer
            [f] [] = Ok [(name f, react)]) as Hox.
  { simpl. by rewrite Hfind. }
  assert (dict_getitem [(name f, react)] (name f) = Ok react) as Hget.
  { unfold dict_getitem. simpl. by rewrite decide_True. }
  split_and!; try done.
  - by rewrite Hfuels.
  - by apply one_fuel_mix.
  - unfold StoichiometricCombustion.xStoich, StoichiometricCombustion.stoich_M.
    rewrite Hfuels.
    rewrite (SystemFacts.stoich_diagonal_Ok database oxidizer [f]) by done.
    rewrite SystemFacts.stoich_column_Ok by (intros g Hg; apply Hg).
    cbn -[Qcplus Qcmult Qcopp Qcminus Qcdiv Q2Qc Mixture.X
          StoichiometricCombustion.stoich_solve].
    assert (Mixture.X [(f, 1%Qc)] f = 1%Qc) as ->.
    { simpl. by rewrite decide_True. }
    apply solve_one_fuel.
  - unfold StoichiometricCombustion.blend_reactions. rewrite Hfuels.
    simpl. by rewrite Hget.
  - unfold StoichiometricCombustion.blend_reactions. rewrite Hfuels.
    simpl. by rewrite Hget.
Qed.

End SingleFuelFacts.

(** X17.  One fuel.  When the reactants hold a single fuel, at a
    positive fraction, and the database has an oxidation reaction for
    it, the linear system of lines 282-288 is never singular, whatever
    the fraction of the fuel in its reaction: the solve returns the
    single weight [1].  The stoichiometric reacting mixture then holds
    every species at its fraction in the reactants of that reaction,
    and the raw products hold every species at its fraction in the
    products of that reaction. *)
Theorem single_fuel_weights (database : Database)
    (self0 : StoichiometricCombustion.t) (f : Molecule)
    (react : Reaction.t) :
  let self := StoichiometricCombustion._updateFuels database self0 in
  let oxidizer := StoichiometricCombustion._oxidizer self in
  positive_fractions (StoichiometricCombustion._reactants self0) →
  StoichiometricCombustion._fuels self = [f] →
  StoichiometricCombustion.find_reaction (reactions database) f oxidizer
  = Some react →
  ∃ (oxReactions : list (string * Reaction.t))
    (stoichReactingMix prods : Mixture.t),
    StoichiometricCombustion.oxidation_reactions database oxidizer
      (StoichiometricCombustion._fuels self) [] = Ok oxReactions
    ∧ StoichiometricCombustion.fuel database self = Ok [(f, 1%Qc)]
    ∧ StoichiometricCombustion.xStoich self oxReactions [(f, 1%Qc)]
      = Ok [1%Qc]
    ∧ StoichiometricCombustion.blend_reactions self oxReactions
        Reaction.reactants [1%Qc] = Ok stoichReactingMix
    ∧ (∀ s, Mixture.X stoichReactingMix s
            = Mixture.X (Reaction.reactants react) s)
    ∧ StoichiometricCombustion.blend_reactions self oxReactions
        Reaction.products [1%Qc] = Ok prods
    ∧ (∀ s, Mixture.X prods s = Mixture.X (Reaction.products react) s).
Proof. apply SingleFuelFacts.one_fuel_system. Qed.

Lemma single_fuel_weights_witness :
  ∃ (oxReactions : list (string * Reaction.t))
    (stoichReactingMix prods : Mixture.t),
    StoichiometricCombustion.oxidation_reactions Examples.chemistry
      Examples.oxygen [Examples.CH4] [] = Ok oxReactions
    ∧ StoichiometricCombustion.xStoich
        (StoichiometricCombustion._updateFuels Examples.chemistry
           (StoichiometricCombustion.set_reactants Examples.fresh Cases.lean))
        oxReactions [(Examples.CH4, 1%Qc)]
      = Ok [1%Qc]
    ∧ (∀ s, Mixture.X stoichReactingMix s
            = Mixture.X (Reaction.reactants Examples.CH4_oxidation) s)
    ∧ (∀ s, Mixture.X prods s
            = Mixture.X (Reaction.products Examples.CH4_oxidation) s).
Proof.
  destruct (single_fuel_weights Examples.chemistry
              (StoichiometricCombustion.set_reactants Examples.fresh
                 Cases.lean)
              Examples.CH4 Examples.CH4_oxidation)
    as (oxReactions & stoich & prods & Hox & _ & Hx & _ & Hs & _ & Hp).
  - apply (bool_decide_unpack _). vm_compute. exact I.
  - reflexivity.
  - reflexivity.
  - exists oxReactions, stoich, prods. split_and!; [exact Hox|exact Hx|exact Hs|exact Hp].
Defined.

(** ** A complete update *)

Module CompleteFacts.
Import StoichiometricCombustion MixtureFacts.

(** The step of lines 315-325 returns when both mixtures hold the
    oxidizer and the fuels could be extracted; it removes no species. *)
Lemma excess_step_Ok (fuelMix : Mixture.t) (oxidizer : Molecule)
    (reactingMix stoichReactingMix prods : Mixture.t) :
  Mixture.contains stoichReactingMix oxidizer = true →
  Mixture.contains reactingMix oxidizer = true →
  ∃ pre,
    excess_step (Ok fuelMix) oxidizer reactingMix stoichReactingMix prods
    = Ok pre
    ∧ ∀ s, Mixture.contains prods s = true → Mixture.contains pre s = true.
Proof.
  intros Hstoich Hmix. unfold excess_step, Mixture.getX.
  rewrite Hstoich, Hmix. simpl.
  destruct (isclose _ _); simpl; [by eexists|].
  case_decide; simpl; eexists; (split; [done|]); intros s Hs;
    by rewrite ReactingFacts.contains_dilute, Hs.
Qed.

Lemma inert_step_contains (prods : Mixture.t) inerts xInert s :
  Mixture.contains prods s = true →
  Mixture.contains (inert_step prods inerts xInert) s = true.
Proof.
  intros Hs. destruct inerts as [inerts|]; simpl; [|done].
  by rewrite ReactingFacts.contains_dilute, Hs.
Qed.

(** A blend holds the species its mixture holds. *)
Lemma contains_remove_dups (blend mix : Mixture.t) s :
  Mixture.species blend = remove_dups (Mixture.species mix) →
  Mixture.contains blend s = Mixture.contains mix s.
Proof.
  intros Hsp. unfold Mixture.contains. rewrite Hsp.
  apply bool_decide_ext, elem_of_remove_dups.
Qed.

End CompleteFacts.

(** X18.  An update that succeeds.  The reactants are new, their mole
    fractions are positive, they hold one fuel, the database has an
    oxidation reaction for it, and every reactant of that reaction is in
    the mixture.  Then no step of [_update] fails: the call returns
    [False] and assigns the products, and the products hold every
    species of the products of the reaction. *)
Theorem single_fuel_update (database : Database)
    (self : StoichiometricCombustion.t) (reactants : Mixture.t)
    (f : Molecule) (react : Reaction.t) :
  let self' := StoichiometricCombustion._updateFuels database
                 (StoichiometricCombustion.set_reactants self reactants) in
  let oxidizer := StoichiometricCombustion._oxidizer self in
  reactants ≠ StoichiometricCombustion._reactants self →
  positive_fractions reactants →
  StoichiometricCombustion._fuels self' = [f] →
  StoichiometricCombustion.find_reaction (reactions database) f oxidizer
  = Some react →
  forallb (λ sR, Mixture.contains reactants sR.1) (Reaction.reactants react)
  = true →
  ∃ products,
    StoichiometricCombustion._update database self reactants
    = (Ok StoichiometricCombustion.RetFalse,
       StoichiometricCombustion.set_products self' products)
    ∧ ∀ s, Mixture.contains (Reaction.products react) s = true →
           Mixture.contains products s = true.
Proof.
  intros self' oxidizer Hne Hpos Hfuels Hfind Hall.
  destruct (SystemFacts.find_reaction_Some _ _ _ _ Hfind)
    as (Hrf & Hrox & _).
  destruct (SingleFuelFacts.one_fuel_system database
              (StoichiometricCombustion.set_reactants self reactants)
              f react Hpos Hfuels Hfind)
    as (oxReactions & stoich & prods & Hox & Hfuel & Hx & Hstoich & HXs
        & Hprods & HXp).
  fold self' in Hox, Hfuel, Hx, Hstoich, Hprods.
  assert (oxReactions = [(name f, react)]) as ->.
  { rewrite Hfuels in Hox. simpl in Hox. unfold oxidizer in Hfind.
    rewrite Hfind in Hox. by injection Hox as <-. }
  assert (StoichiometricCombustion.active self' react = true) as Hact.
  { unfold StoichiometricCombustion.active.
    change (StoichiometricCombustion._reactants self') with reactants.
    change (StoichiometricCombustion._oxidizer self') with oxidizer.
    rewrite Hall, Hrox, Hfuels. simpl. by rewrite Hrf. }
  assert (reacts self' [(name f, react)] f = true) as Hreacts.
  { unfold reacts. simpl. by rewrite Hrf, Hact. }
  destruct (SplitFacts.reacting_loop_returns self' [(name f, react)]
              reactants 0%Qc None [] Hpos)
    as (xReact & rm & acts & Hloop); [done|].
  destruct (SplitFacts.reacting_loop_start _ _ _ _ _ _ Hloop)
    as (_ & Hnone & _ & _).
  destruct rm as [mix|].
  2: { destruct Hnone as [Hnil _]. specialize (Hnil eq_refl).
       apply SplitFacts.reacting_part_nil in Hnil.
       assert (f ∈ Mixture.species reactants) as Hf.
       { assert (f ∈ StoichiometricCombustion._fuels self') as Hf
           by (rewrite Hfuels; by left).
         by apply list_elem_of_filter in Hf as [_ Hf]. }
       apply list_elem_of_fmap in Hf as (p & -> & Hp).
       rewrite Forall_forall in Hnil. specialize (Hnil p Hp).
       cbv beta in Hnil. by rewrite Hreacts in Hnil. }
  destruct (OxidizerFacts.holds_oxidizer self' _ _ _ _ Hloop)
    as (Hmix & _ & _).
  destruct (InertFacts.inert_loop_returns mix reactants None 0%Qc)
    as (inerts & xI & Hinert); [done..|].
  destruct (SingleFuelFacts.mixtureBlend_one (Reaction.reactants react))
    as (stoich' & Hstoich' & Hspecies & _).
  assert (stoich' = stoich) as ->.
  { unfold StoichiometricCombustion.blend_reactions in Hstoich.
    rewrite Hfuels in Hstoich. simpl in Hstoich.
    unfold dict_getitem in Hstoich. simpl in Hstoich.
    rewrite decide_True in Hstoich by done. simpl in Hstoich.
    rewrite Hstoich' in Hstoich. by injection Hstoich. }
  destruct (SingleFuelFacts.mixtureBlend_one (Reaction.products react))
    as (prods' & Hprods' & Hpspecies & _).
  assert (prods' = prods) as ->.
  { unfold StoichiometricCombustion.blend_reactions in Hprods.
    rewrite Hfuels in Hprods. simpl in Hprods.
    unfold dict_getitem in Hprods. simpl in Hprods.
    rewrite decide_True in Hprods by done. simpl in Hprods.
    rewrite Hprods' in Hprods. by injection Hprods. }
  destruct (CompleteFacts.excess_step_Ok [(f, 1%Qc)] oxidizer mix stoich prods)
    as (pre & Hpre & Hkeeps); [|done|].
  { by rewrite (CompleteFacts.contains_remove_dups _ _ _ Hspecies). }
  exists (StoichiometricCombustion.inert_step pre inerts xI). split.
  - rewrite UpdateFacts._update_changed by done. cbv zeta. fold self'.
    unfold StoichiometricCombustion.balance.
    rewrite Hox. simpl.
    change (StoichiometricCombustion._reactants self') with reactants.
    rewrite Hloop. simpl. rewrite Hinert. simpl.
    unfold StoichiometricCombustion.reacted_products.
    rewrite Hfuel. simpl. rewrite Hx. simpl. rewrite Hstoich. simpl.
    rewrite Hprods. simpl.
    change (StoichiometricCombustion.excess_step _ _ _ _ _)
      with (StoichiometricCombustion.excess_step
              (@Ok Mixture.t [(f, 1%Qc)]) oxidizer mix stoich prods).
    by rewrite Hpre.
  - intros s Hs. apply CompleteFacts.inert_step_contains, Hkeeps.
    by rewrite (CompleteFacts.contains_remove_dups _ _ _ Hpspecies).
Qed.

Lemma single_fuel_update_witness :
  ∃ products,
    StoichiometricCombustion._update Examples.chemistry Examples.fresh
      Cases.lean
    = (Ok StoichiometricCombustion.RetFalse,
       StoichiometricCombustion.set_products
         (StoichiometricCombustion._updateFuels Examples.chemistry
            (StoichiometricCombustion.set_reactants Examples.fresh
               Cases.lean)) products)
    ∧ ∀ s, Mixture.contains (Reaction.products Examples.CH4_oxidation) s
           = true →
           Mixture.contains products s = true.
Proof.
  apply (single_fuel_update Examples.chemistry Examples.fresh Cases.lean
           Examples.CH4 Examples.CH4_oxidation).
  - discriminate.
  - apply (bool_decide_unpack _). vm_compute. exact I.
  - reflexivity.
  - reflexivity.
  - reflexivity.
Defined.

(** X19.  A failed update is not retried.  When [_update] raises, the
    new mixture has already replaced the cached reactants while the
    products are what they were before the call; a second call with
    the same mixture therefore finds the reactants up to date and
    returns [True] without computing any products. *)
Theorem failed_update_sticks (database : Database)
    (self : StoichiometricCombustion.t) (reactants : Mixture.t) (err : exn) :
  let self1 := (StoichiometricCombustion._update database self reactants).2 in
  (StoichiometricCombustion._update database self reactants).1 = Raise err →
  StoichiometricCombustion._reactants self1 = reactants
  ∧ reactants ≠ StoichiometricCombustion._reactants self
  ∧ StoichiometricCombustion._products self1
    = StoichiometricCombustion._products self
  ∧ StoichiometricCombustion._update database self1 reactants
    = (Ok StoichiometricCombustion.RetTrue, self1).
Proof.
  intros self1 Hraise.
  assert (StoichiometricCombustion._reactants self1 = reactants) as Hcached
    by apply UpdateFacts._update_reactants.
  assert (reactants ≠ StoichiometricCombustion._reactants self) as Hne.
  { intros Heq. revert Hraise.
    unfold StoichiometricCombustion._update,
      StoichiometricCombustion.ReactionModel_update.
    by rewrite decide_True. }
  split_and!; [done|done| |].
  - revert Hraise. unfold self1.
    rewrite UpdateFacts._update_changed by done. cbv zeta.
    by destruct (StoichiometricCombustion.balance _ _) as [[r products]|].
  - unfold StoichiometricCombustion._update,
      StoichiometricCombustion.ReactionModel_update.
    by rewrite decide_True.
Qed.

Lemma failed_update_sticks_witness :
  StoichiometricCombustion._products
    (StoichiometricCombustion._update Examples.chemistry Examples.fresh
       Cases.no_oxygen).2
  = None
  ∧ StoichiometricCombustion._update Examples.chemistry
      (StoichiometricCombustion._update Examples.chemistry Examples.fresh
         Cases.no_oxygen).2 Cases.no_oxygen
    = (Ok StoichiometricCombustion.RetTrue,
       (StoichiometricCombustion._update Examples.chemistry Examples.fresh
          Cases.no_oxygen).2).
Proof.
  destruct (failed_update_sticks Examples.chemistry Examples.fresh
              Cases.no_oxygen
              (TypeError "argument of type 'NoneType' is not iterable"))
    as (_ & _ & Hproducts & Hretry).
  - reflexivity.
  - split; [exact Hproducts|exact Hretry].
Defined.

(** ** What the constructor keeps *)

Module InitFacts.
Import StoichiometricCombustion.

Lemma init_fields (reactants oxidizer : pyval) self :
  __init__ reactants oxidizer = Ok self →
  reactants = VMixture (_reactants self)
  ∧ oxidizer = VMolecule (_oxidizer self).
Proof.
  unfold __init__, ReactionModel_init.
  destruct oxidizer, reactants; try done. by intros [= <-].
Qed.

End InitFacts.

(** X20.  What [fromDictionary] builds.  When it returns an instance,
    the reactants of the instance are the entry ["reactants"] of the
    dictionary and its oxidizer is the entry ["oxidizer"], or the
    default oxidizer of the database when the dictionary had none.
    Every failure, whatever its cause, leaves the method as the fatal
    error of [StoichiometricCombustion.fromDictionary] that carries
    the cause. *)
Theorem fromDictionary_outcome (database : Database)
    (dictionary : gmap string pyval) :
  let outcome :=
    (StoichiometricCombustion.fromDictionary database dictionary).1 in
  (∀ self, outcome = Ok self →
     dictionary !! "reactants"
     = Some (VMixture (StoichiometricCombustion._reactants self))
     ∧ default (VMolecule (O2 database)) (dictionary !! "oxidizer")
       = VMolecule (StoichiometricCombustion._oxidizer self))
  ∧ (∀ err, outcome = Raise err →
       ∃ cause,
         err = FatalError "StoichiometricCombustion.fromDictionary"
                 "Failed construction from dictionary" (Some cause)).
Proof.
  intros outcome. unfold outcome, StoichiometricCombustion.fromDictionary.
  destruct (decide (is_Some (dictionary !! "reactants"))) as [[v Hv]|Hr].
  2: { split; [done|]. intros err [= <-]. by eexists. }
  destruct (decide (is_Some (dictionary !! "oxidizer"))) as [[o Ho]|Ho];
    cbv zeta.
  - rewrite Hv, Ho. simpl.
    destruct (StoichiometricCombustion.__init__ v o) as [self0|e] eqn:Hinit;
      simpl.
    + split; [|done]. intros self [= <-].
      by apply InitFacts.init_fields in Hinit as [-> ->].
    + split; [done|]. intros err [= <-]. by eexists.
  - apply eq_None_not_Some in Ho.
    rewrite (lookup_insert_ne dictionary "oxidizer" "reactants") by done.
    rewrite lookup_insert_eq, Hv, Ho. simpl.
    change (StoichiometricCombustion.ReactionModel_init (O2 database) v)
      with (StoichiometricCombustion.__init__ v (VMolecule (O2 database))).
    destruct (StoichiometricCombustion.__init__ v (VMolecule (O2 database)))
      as [self0|e] eqn:Hinit; simpl.
    + split; [|done]. intros self [= <-].
      by apply InitFacts.init_fields in Hinit as [-> ->].
    + split; [done|]. intros err [= <-]. by eexists.
Qed.
